(** * rename-files-service: the rename processor of [src/index.ts]

    A shallow embedding of the TypeScript program and of the parts of its
    runtime it calls ([RegExp], Node's [path], [fs/promises] and [console],
    the [uuid] package), followed by the properties of the program. *)

From Stdlib Require Import ZArith Ascii String List Lia Bool.
From stdpp Require Import base option list gmap strings pretty.

Open Scope string_scope.
Open Scope list_scope.
Open Scope Z_scope.

(** ** Strings

    JavaScript strings are modelled by [string], their code units by
    [ascii]; [s.length], [s.slice(a, b)] and string concatenation are
    [String.length], [slice] and [+:+]. *)

Module Str.

Fixpoint all (f : ascii → bool) (s : string) : bool :=
  match s with
  | EmptyString => true
  | String c s' => f c && all f s'
  end.

(** The code units of a string. *)
Definition to_list : string → list ascii := list_ascii_of_string.

(** [s.slice(a, b)] for [0 <= a <= b <= s.length]. *)
Definition slice (s : string) (a b : Z) : string :=
  String.substring (Z.to_nat a) (Z.to_nat (b - a)) s.

Definition is_slash (c : ascii) : bool := Ascii.eqb c "/".
Definition is_dot (c : ascii) : bool := Ascii.eqb c ".".

Definition not_slash (c : ascii) : Prop := is_slash c = false.
Definition plain (c : ascii) : Prop := is_slash c = false ∧ is_dot c = false.

Definition no_slash (s : string) : bool := all (λ c, negb (is_slash c)) s.
Definition no_dot (s : string) : bool := all (λ c, negb (is_dot c)) s.

End Str.

(** ** Regular expressions

    The fragment of ECMAScript regular expressions that [isUUID] builds: a
    pattern anchored by [^] and [$] (no flags, so [$] is the end of the
    input) whose body is a sequence of atoms, each a literal character or a
    character class of ranges, repeated a fixed number of times [{n}]. *)

Module RegExp.

Inductive atom : Type :=
| Class (ranges : list (ascii * ascii))   (* [a-b...] *)
| Char (c : ascii).                       (* a literal character *)

Record piece : Type := Repeat { body : atom; count : nat }.   (* atom{n} *)

Definition pattern : Type := list piece.

Definition in_range (c : ascii) (r : ascii * ascii) : bool :=
  ((N_of_ascii r.1 <=? N_of_ascii c) && (N_of_ascii c <=? N_of_ascii r.2))%N.

Definition atom_matches (a : atom) (c : ascii) : bool :=
  match a with
  | Class ranges => existsb (in_range c) ranges
  | Char d => Ascii.eqb c d
  end.

(** [eat a n s] consumes exactly [n] characters matching [a]. *)
Fixpoint eat (a : atom) (n : nat) (s : string) : option string :=
  match n with
  | O => Some s
  | S n' =>
      match s with
      | String c s' => if atom_matches a c then eat a n' s' else None
      | EmptyString => None
      end
  end.

Fixpoint run (p : pattern) (s : string) : option string :=
  match p with
  | [] => Some s
  | Repeat a n :: p' =>
      match eat a n s with
      | Some s' => run p' s'
      | None => None
      end
  end.

(** [new RegExp("^...$").test(s)] *)
Definition test (p : pattern) (s : string) : bool :=
  match run p s with
  | Some EmptyString => true
  | _ => false
  end.

End RegExp.

(** ** Node's [path] module (POSIX flavour)

    [extname] and [parse] follow the right-to-left scan of Node's
    [lib/path.js]; [normalize] and [join] work on the list of segments
    between separators. *)

Module path.

(** The variables of the scan that [extname] and [parse] share. *)
Record scan : Type := Scan {
  startDot : Z;
  startPart : Z;
  end_ : Z;
  matchedSlash : bool;
  preDotState : Z
}.

Definition scan0 : scan := Scan (-1) 0 (-1) true 0.

(** One iteration of the loop at index [i], [code] being
    [path.charCodeAt(i)]: [inl] is [break], [inr] goes on to [i - 1]. *)
Definition scan_step (code : ascii) (i : Z) (st : scan) : scan + scan :=
  if Str.is_slash code then
    if negb (matchedSlash st)
    then inl (Scan (startDot st) (i + 1) (end_ st) (matchedSlash st) (preDotState st))
    else inr st
  else
    let st :=
      if end_ st =? -1
      then Scan (startDot st) (startPart st) (i + 1) false (preDotState st)
      else st in
    if Str.is_dot code then
      if startDot st =? -1
      then inr (Scan i (startPart st) (end_ st) (matchedSlash st) (preDotState st))
      else if negb (preDotState st =? 1)
      then inr (Scan (startDot st) (startPart st) (end_ st) (matchedSlash st) 1)
      else inr st
    else if negb (startDot st =? -1)
    then inr (Scan (startDot st) (startPart st) (end_ st) (matchedSlash st) (-1))
    else inr st.

(** The loop [for (; i >= start; --i)]: [codes] lists the code units at
    [i], [i - 1], ..., [start]. *)
Fixpoint scan_loop (codes : list ascii) (i : Z) (st : scan) : scan :=
  match codes with
  | [] => st
  | code :: codes' =>
      match scan_step code i st with
      | inl st' => st'
      | inr st' => scan_loop codes' (i - 1) st'
      end
  end.

Definition scan_from (start : nat) (path : string) : scan :=
  scan_loop (rev (drop start (Str.to_list path)))
            (Z.of_nat (String.length path) - 1) scan0.

(** The test that decides that the last component has no extension. *)
Definition no_extension (st : scan) : bool :=
  (startDot st =? -1)
  || (preDotState st =? 0)
  || ((preDotState st =? 1)
      && (startDot st =? end_ st - 1)
      && (startDot st =? startPart st + 1)).

Definition extname (path : string) : string :=
  let st := scan_from 0 path in
  if (end_ st =? -1) || no_extension st
  then ""
  else Str.slice path (startDot st) (end_ st).

Record ParsedPath : Type := {
  root : string;
  dir : string;
  base : string;
  ext : string;
  name : string
}.

Definition isAbsolute (path : string) : bool :=
  match path with
  | String c _ => Str.is_slash c
  | EmptyString => false
  end.

Definition parse (path : string) : ParsedPath :=
  if (String.length path =? 0)%nat then
    {| root := ""; dir := ""; base := ""; ext := ""; name := "" |}
  else
    let abs := isAbsolute path in
    let st := scan_from (if abs then 1 else 0) path in
    let start := if (startPart st =? 0) && abs then 1 else startPart st in
    let '(base, ext, name) :=
      if negb (end_ st =? -1) then
        if no_extension st
        then (Str.slice path start (end_ st), "", Str.slice path start (end_ st))
        else (Str.slice path start (end_ st),
              Str.slice path (startDot st) (end_ st),
              Str.slice path start (startDot st))
      else ("", "", "") in
    {| root := if abs then "/" else "";
       dir := if 0 <? startPart st then Str.slice path 0 (startPart st - 1)
              else if abs then "/" else "";
       base := base; ext := ext; name := name |}.

(** [s.split("/")] *)
Fixpoint split (s : string) : list string :=
  match s with
  | EmptyString => [""]
  | String c s' =>
      if Str.is_slash c then "" :: split s'
      else match split s' with
           | seg :: segs => String c seg :: segs
           | [] => [String c ""]
           end
  end.

(** [normalizeString]: the segments kept so far are a stack, last segment
    first. Empty and [.] segments are dropped, [..] removes the segment
    before it, or is kept when there is none and the path is relative. *)
Definition normalize_step (allowAboveRoot : bool)
    (res : list string) (seg : string) : list string :=
  if bool_decide (seg = "" ∨ seg = ".") then res
  else if bool_decide (seg = "..") then
    match res with
    | top :: res' =>
        if bool_decide (top = "..")
        then (if allowAboveRoot then ".." :: res else res)
        else res'
    | [] => if allowAboveRoot then [".."] else []
    end
  else seg :: res.

Definition normalizeString (path : string) (allowAboveRoot : bool) : string :=
  String.concat "/" (rev (fold_left (normalize_step allowAboveRoot) (split path) [])).

Definition trailingSeparator (path : string) : bool :=
  match rev (Str.to_list path) with
  | c :: _ => Str.is_slash c
  | [] => false
  end.

Definition normalize (path : string) : string :=
  if (String.length path =? 0)%nat then "."
  else
    let abs := isAbsolute path in
    let trailing := trailingSeparator path in
    let p := normalizeString path (negb abs) in
    if (String.length p =? 0)%nat then
      if abs then "/" else if trailing then "./" else "."
    else
      let p := if trailing then p +:+ "/" else p in
      if abs then "/" +:+ p else p.

Definition join (args : list string) : string :=
  match List.filter (λ arg, (0 <? String.length arg)%nat) args with
  | [] => "."
  | parts => normalize (String.concat "/" parts)
  end.

End path.

(** ** The [uuid] package: version 4 identifiers *)

Module uuid.

Definition hex_digit (d : Z) : ascii :=
  nth (Z.to_nat d) (Str.to_list "0123456789abcdef") "0"%char.

(** [byteToHex[b]], that is [(b + 0x100).toString(16).slice(1)]. *)
Definition byteToHex (b : Z) : string :=
  String (hex_digit (b / 16)) (String (hex_digit (b mod 16)) "").

(** The 16 bytes of a 128-bit random value, most significant first. *)
Definition rng (r : Z) : list Z :=
  (λ i, Z.land (Z.shiftr r (8 * (15 - i))) 255) <$> seqZ 0 16.

Definition unsafeStringify (arr : list Z) : string :=
  byteToHex (arr !!! 0%nat) +:+ byteToHex (arr !!! 1%nat) +:+
  byteToHex (arr !!! 2%nat) +:+ byteToHex (arr !!! 3%nat) +:+ "-" +:+
  byteToHex (arr !!! 4%nat) +:+ byteToHex (arr !!! 5%nat) +:+ "-" +:+
  byteToHex (arr !!! 6%nat) +:+ byteToHex (arr !!! 7%nat) +:+ "-" +:+
  byteToHex (arr !!! 8%nat) +:+ byteToHex (arr !!! 9%nat) +:+ "-" +:+
  byteToHex (arr !!! 10%nat) +:+ byteToHex (arr !!! 11%nat) +:+
  byteToHex (arr !!! 12%nat) +:+ byteToHex (arr !!! 13%nat) +:+
  byteToHex (arr !!! 14%nat) +:+ byteToHex (arr !!! 15%nat).

(** [v4] on the random bytes [rnds]: the version and variant bits are
    set, then the bytes are written in hexadecimal. *)
Definition v4 (rnds : list Z) : string :=
  let rnds := <[6%nat := Z.lor (Z.land (rnds !!! 6%nat) 0x0f) 0x40]> rnds in
  let rnds := <[8%nat := Z.lor (Z.land (rnds !!! 8%nat) 0x3f) 0x80]> rnds in
  unsafeStringify rnds.

End uuid.

(** ** The world the program runs in

    The file system maps a path to what is there; paths are the strings the
    program passes. An entry of directory [d] is a path that [path.join]
    builds from [d] and a file name. What a subdirectory contains is not
    followed: a rename moves the one node at its path, and a write does not
    look at the directory above the file. Failures that come from outside
    (permissions, I/O errors) are those that [fault] injects. Every call of
    [fs] is recorded in a trace together with the console output, in the
    order it happens. *)

Inductive node : Type :=
| File (data : string)
| Directory.

Record error : Type := SystemError { code : string; syscall : string; epath : string }.

Inductive call : Type :=
| stat (p : string)
| readdir (p : string)
| rename (oldPath newPath : string)
| writeFile (file data : string).

Inductive message : Type :=
| DirectoryDoesNotExist (directoryPath : string)
| ErrorWhileReadingFiles (directoryPath : string) (e : error)
| StartedRenaming
| Processing (fileName : string) (done total : Z)
| ErrorWhileRenaming (fileName : string) (e : error)
| RenamingCompleted
| ErrorInRenameProcess (e : error)
| CreatedEmptyFile (fileName : string)
| CreationCompleted (n : Z)
| ErrorInCreateEmptyFiles (e : error).

Inductive event : Type :=
| Fs (c : call) (failure : option error)
| Log (m : message)      (* console.log *)
| Err (m : message).     (* console.error *)

#[global] Instance node_eq_dec : EqDecision node.
Proof. solve_decision. Defined.
#[global] Instance error_eq_dec : EqDecision error.
Proof. solve_decision. Defined.
#[global] Instance call_eq_dec : EqDecision call.
Proof. solve_decision. Defined.
#[global] Instance message_eq_dec : EqDecision message.
Proof. solve_decision. Defined.
#[global] Instance event_eq_dec : EqDecision event.
Proof. solve_decision. Defined.

Record World : Type := {
  files : gmap string node;
  (** a failure the environment injects into a call (permissions, I/O) *)
  fault : call → option error;
  (** the 128-bit values of the random source, and how many were drawn *)
  entropy : nat → Z;
  drawn : nat;
  trace : list event
}.

Definition set_files (m : gmap string node) (w : World) : World :=
  {| files := m; fault := fault w; entropy := entropy w;
     drawn := drawn w; trace := trace w |}.

Definition emit (e : event) (w : World) : World :=
  {| files := files w; fault := fault w; entropy := entropy w;
     drawn := drawn w; trace := trace w ++ [e] |}.

Definition draw (w : World) : World :=
  {| files := files w; fault := fault w; entropy := entropy w;
     drawn := S (drawn w); trace := trace w |}.

(** *** Computations: a state over [World] with exceptions

    An [async] function is run to completion: [await] is sequencing, a
    rejected promise is [Throw]. *)

Inductive outcome (A : Type) : Type :=
| Return (a : A)
| Throw (e : error).
Arguments Return {A} a.
Arguments Throw {A} e.

Definition M (A : Type) : Type := World → outcome A * World.

Definition ret {A} (a : A) : M A := λ w, (Return a, w).
Definition throw {A} (e : error) : M A := λ w, (Throw e, w).
Definition bind {A B} (m : M A) (k : A → M B) : M B :=
  λ w, match m w with
       | (Return a, w') => k a w'
       | (Throw e, w') => (Throw e, w')
       end.
(** [try { m } catch (error) { h error }] *)
Definition try_catch {A} (m : M A) (h : error → M A) : M A :=
  λ w, match m w with
       | (Return a, w') => (Return a, w')
       | (Throw e, w') => h e w'
       end.

#[global] Instance M_ret : MRet M := @ret.
#[global] Instance M_bind : MBind M := λ A B k m, bind m k.

(** *** [fs/promises] *)

Module fs.

(** The file name that a path ends with. *)
Definition leaf (p : string) : string := List.last (path.split p) "".

(** A file name as a directory lists it. *)
Definition entry_name (n : string) : bool :=
  (0 <? String.length n)%nat
  && Str.no_slash n
  && negb (bool_decide (n = ".")) && negb (bool_decide (n = "..")).

(** The names of the entries of directory [d]. *)
Definition entries (d : string) (m : gmap string node) : list string :=
  omap (λ kv, let n := leaf kv.1 in
              if entry_name n && bool_decide (path.join [d; n] = kv.1)
              then Some n else None)
       (map_to_list m).

(** A call either fails with an error or returns a value and leaves the
    files in a new state; both are recorded in the trace. *)
Definition perform {A} (c : call)
    (result : World → error + A * gmap string node) : M A :=
  λ w, match result w with
       | inl e => (Throw e, emit (Fs c (Some e)) w)
       | inr (a, m) => (Return a, emit (Fs c None) (set_files m w))
       end.

Definition stat_result (p : string) (w : World) : error + node * gmap string node :=
  match fault w (stat p), files w !! p with
  | Some e, _ => inl e
  | None, None => inl (SystemError "ENOENT" "stat" p)
  | None, Some nd => inr (nd, files w)
  end.

Definition stat (p : string) : M node := perform (stat p) (stat_result p).

Definition isDirectory (nd : node) : bool :=
  match nd with Directory => true | File _ => false end.

Definition readdir_result (p : string) (w : World)
    : error + list string * gmap string node :=
  match fault w (readdir p), files w !! p with
  | Some e, _ => inl e
  | None, None => inl (SystemError "ENOENT" "scandir" p)
  | None, Some (File _) => inl (SystemError "ENOTDIR" "scandir" p)
  | None, Some Directory => inr (entries p (files w), files w)
  end.

Definition readdir (p : string) : M (list string) :=
  perform (readdir p) (readdir_result p).

(** [rename] moves what is at [oldPath] to [newPath], replacing what was
    there when it is of the same kind. *)
Definition rename_result (oldPath newPath : string) (w : World)
    : error + unit * gmap string node :=
  match fault w (rename oldPath newPath), files w !! oldPath with
  | Some e, _ => inl e
  | None, None => inl (SystemError "ENOENT" "rename" oldPath)
  | None, Some nd =>
      match nd, files w !! newPath with
      | File _, Some Directory => inl (SystemError "EISDIR" "rename" oldPath)
      | Directory, Some (File _) => inl (SystemError "ENOTDIR" "rename" oldPath)
      | _, _ => inr (tt, <[newPath := nd]> (delete oldPath (files w)))
      end
  end.

Definition rename (oldPath newPath : string) : M unit :=
  perform (rename oldPath newPath) (rename_result oldPath newPath).

(** [writeFile] creates the file or replaces its content. *)
Definition writeFile_result (file data : string) (w : World)
    : error + unit * gmap string node :=
  match fault w (writeFile file data), files w !! file with
  | Some e, _ => inl e
  | None, Some Directory => inl (SystemError "EISDIR" "open" file)
  | None, _ => inr (tt, <[file := File data]> (files w))
  end.

Definition writeFile (file data : string) : M unit :=
  perform (writeFile file data) (writeFile_result file data).

End fs.

Module console.
Definition log (m : message) : M unit := λ w, (Return tt, emit (Log m) w).
Definition error (m : message) : M unit := λ w, (Return tt, emit (Err m) w).
End console.

(** The identifier made from the [i]-th value of the random source. *)
Definition nth_uuid (entropy : nat → Z) (i : nat) : string :=
  uuid.v4 (uuid.rng (entropy i)).

(** [uuid()]: a version 4 identifier from the next value of the random
    source. *)
Definition uuid : M string :=
  λ w, (Return (nth_uuid (entropy w) (drawn w)), draw w).

(** ** The program *)

Section Program.

(** The directory of the running script. *)
Variable __dirname : string.

Definition getFiles (directoryPath : string) : M (list string) :=
  try_catch
    (fileNames ← fs.readdir directoryPath;
     mret fileNames)
    (λ error,
      console.error (ErrorWhileReadingFiles directoryPath error);;
      throw error).

Definition getNewFilename (fileExtension : string) : M string :=
  id ← uuid;
  mret (id +:+ fileExtension).

Definition hex : list (ascii * ascii) :=
  [("0", "9"); ("a", "f"); ("A", "F")]%char.

Definition isUUID_regex : RegExp.pattern :=
  [ RegExp.Repeat (RegExp.Class hex) 8; RegExp.Repeat (RegExp.Char "-") 1;
    RegExp.Repeat (RegExp.Class hex) 4; RegExp.Repeat (RegExp.Char "-") 1;
    RegExp.Repeat (RegExp.Class hex) 4; RegExp.Repeat (RegExp.Char "-") 1;
    RegExp.Repeat (RegExp.Class hex) 4; RegExp.Repeat (RegExp.Char "-") 1;
    RegExp.Repeat (RegExp.Class hex) 12 ].

Definition isUUID (str : string) : bool := RegExp.test isUUID_regex str.

(** [fs.stat(p).then((stat) => stat.isDirectory()).catch(() => false)] *)
Definition directoryExists (directoryPath : string) : M bool :=
  try_catch
    (st ← fs.stat directoryPath; mret (fs.isDirectory st))
    (λ _, mret false).

(** The loop [for (const fileName of fileNames)] of [renameProcess]; the
    result is the counter [done] when the loop ends. *)
Fixpoint renameProcess_loop (directoryPath : string) (total : Z)
    (fileNames : list string) (done : Z) : M Z :=
  match fileNames with
  | [] => mret done
  | fileName :: rest =>
      done ← try_catch
        (if isUUID (path.name (path.parse fileName)) then mret done
         else
           let fileExtension := path.extname fileName in
           newFileName ← getNewFilename fileExtension;
           fs.rename (path.join [directoryPath; fileName])
                     (path.join [directoryPath; newFileName]);;
           let done := done + 1 in
           console.log (Processing fileName done total);;
           mret done)
        (λ error,
          console.error (ErrorWhileRenaming fileName error);;
          mret done);
      renameProcess_loop directoryPath total rest done
  end.

Definition renameProcess (directoryName : string) : M unit :=
  let directoryPath := path.join [__dirname; "../"; directoryName] in
  try_catch
    (exists_ ← directoryExists directoryPath;
     if negb exists_ then
       console.error (DirectoryDoesNotExist directoryPath)
     else
       fileNames ← getFiles directoryPath;
       let total := Z.of_nat (length fileNames) in
       console.log StartedRenaming;;
       _ ← renameProcess_loop directoryPath total fileNames 0;
       console.log RenamingCompleted)
    (λ error, console.error (ErrorInRenameProcess error)).

Definition startRenameFilesService : M unit :=
  renameProcess "files".

(** The loop [for (let i = 0; i < n; i++)] of [createEmptyFiles], over the
    values that [i] takes. *)
Fixpoint createEmptyFiles_loop (directoryPath fileExtension : string)
    (indices : list Z) : M unit :=
  match indices with
  | [] => mret tt
  | i :: rest =>
      let fileName := pretty i +:+ fileExtension in
      let filePath := path.join [directoryPath; fileName] in
      fs.writeFile filePath " ";;
      console.log (CreatedEmptyFile fileName);;
      createEmptyFiles_loop directoryPath fileExtension rest
  end.

Definition createEmptyFiles (directoryPath : string) (n : Z)
    (fileExtension : string) : M unit :=
  try_catch
    (exists_ ← directoryExists directoryPath;
     if negb exists_ then
       console.error (DirectoryDoesNotExist directoryPath)
     else
       createEmptyFiles_loop directoryPath fileExtension (seqZ 0 n);;
       console.log (CreationCompleted n))
    (λ error, console.error (ErrorInCreateEmptyFiles error)).

End Program.

(** ** Notions the properties are stated with *)

(** A hexadecimal digit, in lower or upper case. *)
Definition is_hex_digit (c : ascii) : bool :=
  match c with
  | "0" | "1" | "2" | "3" | "4" | "5" | "6" | "7" | "8" | "9"
  | "a" | "b" | "c" | "d" | "e" | "f"
  | "A" | "B" | "C" | "D" | "E" | "F" => true
  | _ => false
  end%char.

Definition hex_group (n : nat) (g : string) : Prop :=
  String.length g = n ∧ Str.all is_hex_digit g = true.

(** The identifier pattern as the specification words it: a 36-character
    string of hexadecimal digits in 8-4-4-4-12 grouping. *)
Definition Identifier (s : string) : Prop :=
  String.length s = 36%nat ∧
  ∃ a b c d e,
    s = a +:+ "-" +:+ b +:+ "-" +:+ c +:+ "-" +:+ d +:+ "-" +:+ e ∧
    hex_group 8 a ∧ hex_group 4 b ∧ hex_group 4 c ∧ hex_group 4 d ∧
    hex_group 12 e.

(** The characters of an identifier: hexadecimal digits and dashes. *)
Definition id_char (c : ascii) : bool := is_hex_digit c || Ascii.eqb c "-".

(** An entry that [renameProcess] does not skip: its base name does not
    match the pattern. *)
Definition attempted (fileName : string) : bool :=
  negb (isUUID (path.name (path.parse fileName))).

(** The renames that a run over [fileNames] asks for when [i] identifiers
    were drawn before: each name that is not skipped, in order, with the
    name made of the next identifier and of its extension. *)
Fixpoint planned (entropy : nat → Z) (i : nat) (fileNames : list string)
    : list (string * string) :=
  match fileNames with
  | [] => []
  | fileName :: rest =>
      if attempted fileName
      then (fileName, nth_uuid entropy i +:+ path.extname fileName)
             :: planned entropy (S i) rest
      else planned entropy i rest
  end.

(** What the loop of [renameProcess] adds to the trace: renames, progress
    lines and reports of failed renames. *)
Definition loop_event (ev : event) : Prop :=
  match ev with
  | Fs (rename _ _) _ | Log (Processing _ _ _) | Err (ErrorWhileRenaming _ _) => True
  | _ => False
  end.

(** The [rename] calls of a trace, each with its failure if it failed. *)
Definition renames (t : list event) : list (string * string * option error) :=
  omap (λ e, match e with
             | Fs (rename a b) r => Some (a, b, r)
             | _ => None
             end) t.

Definition failed_renames (t : list event) : list (string * string * option error) :=
  List.filter (λ r, bool_decide (is_Some r.2)) (renames t).

Definition successful_renames (t : list event) : list (string * string * option error) :=
  List.filter (λ r, bool_decide (r.2 = None)) (renames t).

(** The calls of a trace that change the file system. *)
Definition mutations (t : list event) : list call :=
  omap (λ e, match e with
             | Fs (rename a b) _ => Some (rename a b)
             | Fs (writeFile f d) _ => Some (writeFile f d)
             | _ => None
             end) t.

(** The [writeFile] calls of a trace. *)
Definition writes (t : list event) : list (string * string * option error) :=
  omap (λ e, match e with
             | Fs (writeFile f d) r => Some (f, d, r)
             | _ => None
             end) t.

(** What the loop of [renameProcess] adds to the trace for the renames
    [rs], each the name of the entry, its new name and the failure of the
    rename if it failed, when the counter is [done] before. *)
Fixpoint loop_reports (D : string) (total : Z)
    (rs : list (string * string * option error)) (done : Z) : list event :=
  match rs with
  | [] => []
  | (f, g, None) :: rs' =>
      Fs (rename (path.join [D; f]) (path.join [D; g])) None
        :: Log (Processing f (done + 1) total)
        :: loop_reports D total rs' (done + 1)
  | (f, g, Some e) :: rs' =>
      Fs (rename (path.join [D; f]) (path.join [D; g])) (Some e)
        :: Err (ErrorWhileRenaming f e)
        :: loop_reports D total rs' done
  end.

(** The renames of [rs] that succeeded. *)
Definition succeeded (rs : list (string * string * option error))
    : list (string * string * option error) :=
  List.filter (λ r, bool_decide (r.2 = None)) rs.

(** A path directly inside directory [D]. *)
Definition inside (D p : string) : Prop :=
  ∃ n, fs.entry_name n = true ∧ p = path.join [D; n].

(** What the loop of [createEmptyFiles] over [indices] adds to the
    trace: writes of a single space to the numbered files, and the lines
    about them. *)
Definition creation_event (D ext : string) (indices : list Z) (ev : event) : Prop :=
  match ev with
  | Fs (writeFile file data) _ =>
      data = " " ∧ ∃ i, i ∈ indices ∧ file = path.join [D; pretty i +:+ ext]
  | Log (CreatedEmptyFile fileName) => ∃ i, i ∈ indices ∧ fileName = pretty i +:+ ext
  | _ => False
  end.

(** A character that is not the dash of an identifier. *)
Definition not_dash (c : ascii) : Prop := c ≠ "-"%char.

(** ** Sample worlds *)

Definition sample_entropy (i : nat) : Z := Z.of_nat i * 1000003 + 77.

(** A directory [/srv/app/files] of four files, none named by an
    identifier; the script is in [/srv/app/dist]. *)
Definition sample_world : World :=
  {| files := list_to_map
       [ ("/srv/app/files", Directory);
         ("/srv/app/files/photo.jpg", File "jpeg");
         ("/srv/app/files/notes.txt", File "text");
         ("/srv/app/files/report", File "rows");
         ("/srv/app/files/.gitignore", File "rules") ];
     fault := λ _, None;
     entropy := sample_entropy;
     drawn := 0;
     trace := [] |}.

(** The same directory with one more file, named by an identifier in
    mixed case. *)
Definition sample_world_with_identifier : World :=
  set_files
    (<["/srv/app/files/A1b2C3d4-e5f6-47a8-89b0-c1d2e3f4a5b6.png" := File "png"]>
       (files sample_world))
    sample_world.

Definition eacces : error := SystemError "EACCES" "scandir" "/srv/app/files".

(** The same directory when it cannot be listed. *)
Definition unreadable_world : World :=
  {| files := files sample_world;
     fault := λ c, match c with readdir _ => Some eacces | _ => None end;
     entropy := sample_entropy;
     drawn := 0;
     trace := [] |}.

(** The directory of [sample_world] after a run of [renameProcess]. *)
Definition sample_world_renamed : World :=
  (renameProcess "/srv/app/dist" "files" sample_world).2.

(** A directory of three files, the third already named by an identifier. *)
Definition scenario_world : World :=
  {| files := list_to_map
       [ ("/srv/app/files", Directory);
         ("/srv/app/files/photo.jpg", File "jpeg");
         ("/srv/app/files/notes.txt", File "text");
         ("/srv/app/files/a1b2c3d4-e5f6-47a8-89b0-c1d2e3f4a5b6.png", File "png") ];
     fault := λ _, None;
     entropy := sample_entropy;
     drawn := 0;
     trace := [] |}.

Definition ebusy : error :=
  SystemError "EBUSY" "rename" "/srv/app/files/photo.jpg".

(** The directory of [sample_world] when [photo.jpg] cannot be renamed. *)
Definition busy_world : World :=
  {| files := files sample_world;
     fault := λ c, match c with
                   | rename a _ =>
                       if bool_decide (a = "/srv/app/files/photo.jpg")
                       then Some ebusy else None
                   | _ => None
                   end;
     entropy := sample_entropy;
     drawn := 0;
     trace := [] |}.

Definition erofs : error := SystemError "EROFS" "rename" "/srv/app/files".

(** The directory of [sample_world] on a read-only file system. *)
Definition read_only_world : World :=
  {| files := files sample_world;
     fault := λ c, match c with rename _ _ => Some erofs | _ => None end;
     entropy := sample_entropy;
     drawn := 0;
     trace := [] |}.

Definition eio : error := SystemError "EIO" "stat" "/srv/app/files".

(** The same directory when [stat] fails on it. *)
Definition unstatable_world : World :=
  {| files := files sample_world;
     fault := λ c, match c with stat _ => Some eio | _ => None end;
     entropy := sample_entropy;
     drawn := 0;
     trace := [] |}.

(** An empty directory [/srv/app/files]. *)
Definition empty_world : World :=
  {| files := {["/srv/app/files" := Directory]};
     fault := λ _, None;
     entropy := sample_entropy;
     drawn := 0;
     trace := [] |}.



(** * Facts *)

Module StrFacts.
Import Str.

Lemma append_cons (c : ascii) (a b : string) :
  String c a +:+ b = String c (a +:+ b).
Proof. done. Qed.

Lemma append_nil_l (s : string) : "" +:+ s = s.
Proof. done. Qed.

Lemma append_nil_r (s : string) : s +:+ "" = s.
Proof. induction s as [|c s IH]; [done|]. by rewrite append_cons, IH. Qed.

Lemma append_assoc (a b c : string) : (a +:+ b) +:+ c = a +:+ (b +:+ c).
Proof. induction a as [|x a IH]; [done|]. by rewrite !append_cons, IH. Qed.

Lemma length_append (a b : string) :
  String.length (a +:+ b) = (String.length a + String.length b)%nat.
Proof. induction a as [|x a IH]; [done|]. rewrite append_cons. cbn. by rewrite IH. Qed.

Lemma all_append f (a b : string) : all f (a +:+ b) = all f a && all f b.
Proof.
  induction a as [|x a IH]; [done|]. rewrite append_cons. cbn.
  rewrite IH. by rewrite andb_assoc.
Qed.

Lemma all_impl (f g : ascii → bool) (s : string) :
  (∀ c, f c = true → g c = true) → all f s = true → all g s = true.
Proof.
  intros Hfg. induction s as [|c s IH]; [done|]. cbn.
  intros [Hc Hs]%andb_true_iff. by rewrite (Hfg c Hc), IH.
Qed.

Lemma all_ext (f g : ascii → bool) (s : string) :
  (∀ c, f c = g c) → all f s = all g s.
Proof. intros Hfg. induction s as [|c s IH]; [done|]. cbn. by rewrite Hfg, IH. Qed.

(** Equal-length prefixes of equal strings are equal. *)
Lemma append_inv_length (a a' b b' : string) :
  String.length a = String.length a' →
  a +:+ b = a' +:+ b' → a = a' ∧ b = b'.
Proof.
  revert a'. induction a as [|x a IH]; intros [|x' a'] Hlen Heq;
    rewrite ?append_cons in Heq; simplify_eq/=; [done|].
  destruct (IH a') as [-> ->]; [lia|done|done].
Qed.

Lemma append_inv_tail (a a' b : string) : a +:+ b = a' +:+ b → a = a'.
Proof.
  intros Heq. apply (append_inv_length a a' b b); [|done].
  apply (f_equal String.length) in Heq. rewrite !length_append in Heq. lia.
Qed.

Lemma to_list_append (a b : string) :
  to_list (a +:+ b) = to_list a ++ to_list b.
Proof.
  unfold to_list. induction a as [|x a IH]; [done|].
  rewrite append_cons. cbn. by rewrite IH.
Qed.

Lemma length_to_list (s : string) : length (to_list s) = String.length s.
Proof. unfold to_list. induction s as [|c s IH]; [done|]. cbn. by rewrite IH. Qed.

Lemma all_Forall f (s : string) : all f s = true ↔ Forall (λ c, f c = true) (to_list s).
Proof.
  unfold to_list. induction s as [|c s IH]; cbn; [by split; [constructor|]|].
  by rewrite andb_true_iff, Forall_cons, IH.
Qed.

(** [slice] of a string built by concatenation. *)
Lemma substring_append (a b c : string) :
  String.substring (String.length a) (String.length b) (a +:+ b +:+ c) = b.
Proof.
  induction a as [|x a IH]; cbn.
  - rewrite append_nil_l. revert c. induction b as [|y b IHb]; intros c; cbn.
    + by destruct c.
    + rewrite append_cons. cbn. by rewrite IHb.
  - rewrite append_cons. cbn. apply IH.
Qed.

Lemma slice_middle (a b c : string) :
  slice (a +:+ b +:+ c) (Z.of_nat (String.length a))
        (Z.of_nat (String.length a + String.length b)) = b.
Proof.
  unfold slice.
  replace (Z.to_nat (Z.of_nat (String.length a))) with (String.length a) by lia.
  replace (Z.to_nat _) with (String.length b) by lia.
  apply substring_append.
Qed.

Lemma slice_prefix (a b : string) :
  slice (a +:+ b) 0 (Z.of_nat (String.length a)) = a.
Proof.
  pose proof (slice_middle "" a b) as H. rewrite !append_nil_l in H. exact H.
Qed.

Lemma slice_suffix (a b : string) :
  slice (a +:+ b) (Z.of_nat (String.length a))
        (Z.of_nat (String.length (a +:+ b))) = b.
Proof.
  pose proof (slice_middle a b "") as H. rewrite append_nil_r in H.
  rewrite length_append. exact H.
Qed.

Lemma slice_all (a : string) : slice a 0 (Z.of_nat (String.length a)) = a.
Proof. pose proof (slice_prefix a "") as H. by rewrite append_nil_r in H. Qed.

End StrFacts.

Module RegExpFacts.
Import RegExp.

Lemma eat_Some (a : atom) (n : nat) (s r : string) :
  eat a n s = Some r ↔
  ∃ p, s = p +:+ r ∧ String.length p = n ∧ Str.all (atom_matches a) p = true.
Proof.
  revert s. induction n as [|n IH]; intros s; cbn.
  - split.
    + intros [= ->]. by exists "".
    + intros ([|c p] & -> & Hlen & _); [done|discriminate].
  - destruct s as [|c s].
    + split; [done|]. intros ([|c p] & Hs & Hlen & _); discriminate.
    + destruct (atom_matches a c) eqn:Hc.
      * rewrite IH. split.
        -- intros (p & -> & <- & Hp). exists (String c p). cbn. by rewrite Hc, Hp.
        -- intros ([|c' p] & Hs & Hlen & Hp); [discriminate|].
           rewrite StrFacts.append_cons in Hs. cbn in Hlen, Hp. simplify_eq.
           apply andb_true_iff in Hp as [_ Hp]. by exists p.
      * split; [done|]. intros ([|c' p] & Hs & Hlen & Hp); [discriminate|].
        rewrite StrFacts.append_cons in Hs. cbn in Hp. simplify_eq.
        rewrite Hc in Hp. discriminate.
Qed.

Lemma eat_app (a : atom) (p r : string) :
  Str.all (atom_matches a) p = true → eat a (String.length p) (p +:+ r) = Some r.
Proof. intros Hp. apply eat_Some. by exists p. Qed.

Lemma eat_char (c : ascii) (s r : string) :
  eat (Char c) 1 s = Some r ↔ s = String c r.
Proof.
  cbn. destruct s as [|c' s]; [done|].
  destruct (Ascii.eqb_spec c' c) as [->|Hne]; split; intros H; by simplify_eq.
Qed.

End RegExpFacts.

(** *** The pattern of [isUUID] and the identifiers of [uuid] *)

Module IdentifierFacts.
Import RegExp StrFacts RegExpFacts.

Lemma class_hex (c : ascii) : atom_matches (Class hex) c = is_hex_digit c.
Proof. by destruct c as [[] [] [] [] [] [] [] []]. Qed.

Lemma eat_hex (n : nat) (s r : string) :
  eat (Class hex) n s = Some r ↔ ∃ g, s = g +:+ r ∧ hex_group n g.
Proof.
  rewrite eat_Some. unfold hex_group.
  by setoid_rewrite (all_ext _ _ _ class_hex).
Qed.

Lemma eat_dash (s r : string) : eat (Char "-") 1 s = Some r ↔ s = "-" +:+ r.
Proof. apply eat_char. Qed.

Ltac next_piece H :=
  match type of H with
  | context [eat ?a ?n ?s] =>
      let E := fresh "E" in
      destruct (eat a n s) as [?|] eqn:E; [|discriminate H];
      first [ apply eat_dash in E | apply eat_hex in E as (? & ? & ?) ];
      subst
  end.

Lemma run_isUUID_regex (s r : string) :
  run isUUID_regex s = Some r ↔
  ∃ a b c d e,
    s = a +:+ "-" +:+ b +:+ "-" +:+ c +:+ "-" +:+ d +:+ "-" +:+ e +:+ r ∧
    hex_group 8 a ∧ hex_group 4 b ∧ hex_group 4 c ∧ hex_group 4 d ∧
    hex_group 12 e.
Proof.
  unfold isUUID_regex. cbn [run]. split.
  - intros H. do 9 next_piece H. simplify_eq. by eexists _, _, _, _, _.
  - intros (a & b & c & d & e & -> & Ha & Hb & Hc & Hd & He).
    repeat match goal with
    | |- context [eat (Class hex) ?n (?g +:+ ?t)] =>
        replace (eat (Class hex) n (g +:+ t)) with (Some t)
          by (symmetry; apply eat_hex; by exists g)
    | |- context [eat (Char "-") 1 ("-" +:+ ?t)] =>
        replace (eat (Char "-") 1 ("-" +:+ t)) with (Some t)
          by (symmetry; by apply eat_dash)
    end.
    done.
Qed.

Lemma hex_group_length n g : hex_group n g → String.length g = n.
Proof. by intros [? _]. Qed.

Lemma isUUID_Identifier (str : string) : isUUID str = true ↔ Identifier str.
Proof.
  unfold isUUID, test, Identifier. split.
  - destruct (run isUUID_regex str) as [[|]|] eqn:E; [|done..].
    intros _. apply run_isUUID_regex in E
      as (a & b & c & d & e & -> & Ha & Hb & Hc & Hd & He).
    rewrite !append_nil_r. split; [|by eexists _, _, _, _, _].
    rewrite !length_append.
    rewrite (hex_group_length _ _ Ha), (hex_group_length _ _ Hb),
      (hex_group_length _ _ Hc), (hex_group_length _ _ Hd),
      (hex_group_length _ _ He). done.
  - intros (_ & a & b & c & d & e & -> & Ha & Hb & Hc & Hd & He).
    assert (run isUUID_regex
              (a +:+ "-" +:+ b +:+ "-" +:+ c +:+ "-" +:+ d +:+ "-" +:+ e)
            = Some "") as ->; [|done].
    apply run_isUUID_regex. exists a, b, c, d, e. by rewrite append_nil_r.
Qed.

Lemma isUUID_false (str : string) : isUUID str = false ↔ ¬ Identifier str.
Proof. rewrite <-isUUID_Identifier. by destruct (isUUID str). Qed.

Lemma Identifier_length (s : string) : Identifier s → String.length s = 36%nat.
Proof. by intros [? _]. Qed.

Lemma hex_group_id_chars n g : hex_group n g → Str.all id_char g = true.
Proof.
  intros [_ H]. eapply all_impl; [|exact H].
  intros c Hc. unfold id_char. by rewrite Hc.
Qed.

Lemma Identifier_chars (s : string) : Identifier s → Str.all id_char s = true.
Proof.
  intros (_ & a & b & c & d & e & -> & Ha & Hb & Hc & Hd & He).
  rewrite !all_append.
  rewrite (hex_group_id_chars _ _ Ha), (hex_group_id_chars _ _ Hb),
    (hex_group_id_chars _ _ Hc), (hex_group_id_chars _ _ Hd),
    (hex_group_id_chars _ _ He). done.
Qed.

Lemma hex_digit_class (d : Z) :
  atom_matches (Class hex) (uuid.hex_digit d) = true.
Proof.
  unfold uuid.hex_digit. generalize (Z.to_nat d) as n. intros n.
  do 16 (destruct n as [|n]; [reflexivity|]). by destruct n.
Qed.

Lemma isUUID_unsafeStringify (arr : list Z) :
  isUUID (uuid.unsafeStringify arr) = true.
Proof.
  unfold isUUID, test, isUUID_regex, uuid.unsafeStringify, uuid.byteToHex.
  cbv [String.append].
  repeat first
    [ rewrite hex_digit_class
    | progress change (atom_matches (Char "-") "-"%char) with true
    | progress cbn -[atom_matches uuid.hex_digit lookup_total] ].
  done.
Qed.

Lemma isUUID_v4 (rnds : list Z) : isUUID (uuid.v4 rnds) = true.
Proof. apply isUUID_unsafeStringify. Qed.

Lemma Identifier_v4 (rnds : list Z) : Identifier (uuid.v4 rnds).
Proof. apply isUUID_Identifier, isUUID_v4. Qed.

End IdentifierFacts.

(** *** [path.extname] and [path.parse] on names without separator *)

Module PathFacts.
Import path StrFacts.

Lemma is_dot_eq (c : ascii) : Str.is_dot c = true ↔ c = "."%char.
Proof. apply Ascii.eqb_eq. Qed.

Lemma is_slash_eq (c : ascii) : Str.is_slash c = true ↔ c = "/"%char.
Proof. apply Ascii.eqb_eq. Qed.

Lemma no_slash_Forall (s : string) :
  Str.no_slash s = true ↔ Forall Str.not_slash (Str.to_list s).
Proof.
  unfold Str.no_slash. rewrite all_Forall. apply Forall_proper; [|done].
  intros c. unfold Str.not_slash. by destruct (Str.is_slash c).
Qed.

Lemma plain_Forall (s : string) :
  Str.no_slash s = true ∧ Str.no_dot s = true ↔ Forall Str.plain (Str.to_list s).
Proof.
  unfold Str.no_slash, Str.no_dot. rewrite !all_Forall, <-Forall_and.
  apply Forall_proper; [|done].
  intros c. unfold Str.plain.
  destruct (Str.is_slash c), (Str.is_dot c); cbn; intuition congruence.
Qed.

Lemma last_rev {A} (l : list A) : last (rev l) = head l.
Proof. rewrite rev_alt. apply last_reverse. Qed.

(** A step on a code unit that is not a separator never leaves the loop. *)
Lemma scan_step_not_slash (c : ascii) (i sd sp e : Z) (ms : bool) (pds : Z) :
  Str.not_slash c →
  scan_step c i (Scan sd sp e ms pds) =
  inr (Scan (if Str.is_dot c && (sd =? -1) then i else sd) sp
            (if e =? -1 then i + 1 else e)
            (if e =? -1 then false else ms)
            (if sd =? -1 then pds else if Str.is_dot c then 1 else -1)).
Proof.
  intros Hc. unfold scan_step. rewrite Hc. cbn.
  destruct (e =? -1); cbn; destruct (Str.is_dot c); cbn;
    destruct (sd =? -1); cbn; try done.
  all: destruct (Z.eqb_spec pds 1) as [->|]; done.
Qed.

Lemma scan_loop_app (a b : list ascii) (i : Z) (st : scan) :
  Forall Str.not_slash a →
  scan_loop (a ++ b) i st = scan_loop b (i - Z.of_nat (length a)) (scan_loop a i st).
Proof.
  intros Ha. revert i st.
  induction Ha as [|c a Hc Ha IH]; intros i [sd sp e ms pds];
    cbn [length app scan_loop].
  - f_equal. lia.
  - rewrite scan_step_not_slash by done. rewrite IH. f_equal. lia.
Qed.

(** Before a dot is seen: the first code unit marks the end. *)
Lemma scan_before_dot (codes : list ascii) (i : Z) (sp e : Z) (ms : bool) (pds : Z) :
  Forall Str.plain codes → codes ≠ [] → e ≠ -1 ∨ 0 ≤ i →
  scan_loop codes i (Scan (-1) sp e ms pds) =
  if e =? -1 then Scan (-1) sp (i + 1) false pds else Scan (-1) sp e ms pds.
Proof.
  intros Hall. revert i e ms. induction Hall as [|c codes [Hs Hd] Hall IH];
    intros i e ms Hne Hi; [done|].
  cbn [scan_loop]. rewrite scan_step_not_slash by done. rewrite Hd. cbn.
  destruct (decide (codes = [])) as [->|Hcodes].
  - by destruct (e =? -1).
  - destruct (Z.eqb_spec e (-1)) as [->|He].
    + rewrite IH; [|done|left; lia].
      destruct (Z.eqb_spec (i + 1) (-1)); [lia|done].
    + rewrite IH; [|done|by left].
      destruct (Z.eqb_spec e (-1)); done.
Qed.

(** After the dot: the state before the dot is that of the code unit seen
    last. *)
Lemma scan_after_dot (codes : list ascii) (i : Z) (sd sp e : Z) (ms : bool) (pds : Z) :
  Forall Str.not_slash codes → sd ≠ -1 → e ≠ -1 →
  scan_loop codes i (Scan sd sp e ms pds) =
  Scan sd sp e ms
    (match last codes with
     | Some c => if Str.is_dot c then 1 else -1
     | None => pds
     end).
Proof.
  intros Hall Hsd He. revert i pds.
  induction Hall as [|c codes Hc Hall IH]; intros i pds; [done|].
  cbn [scan_loop]. rewrite scan_step_not_slash by done.
  destruct (Z.eqb_spec e (-1)); [done|].
  destruct (Z.eqb_spec sd (-1)); [done|].
  rewrite andb_false_r, IH, last_cons. by destruct (last codes).
Qed.

Lemma scan_from_plain (p : string) :
  Str.no_slash p = true → Str.no_dot p = true → p ≠ "" →
  scan_from 0 p = Scan (-1) 0 (Z.of_nat (String.length p)) false 0.
Proof.
  intros Hs Hd Hne. unfold scan_from, scan0. rewrite drop_0.
  rewrite scan_before_dot.
  - cbn. f_equal. lia.
  - apply Forall_rev, plain_Forall. done.
  - destruct p; [done|]. cbn. intros Hnil.
    apply (f_equal length) in Hnil. rewrite length_app in Hnil. cbn in Hnil. lia.
  - right. destruct p; [done|]. cbn. lia.
Qed.

Lemma scan_from_dotted (pre r : string) :
  Str.no_slash pre = true → Str.no_slash r = true → Str.no_dot r = true →
  scan_from 0 (pre +:+ "." +:+ r) =
  Scan (Z.of_nat (String.length pre)) 0
       (Z.of_nat (String.length (pre +:+ "." +:+ r))) false
       (match pre with
        | EmptyString => 0
        | String c _ => if Str.is_dot c then 1 else -1
        end).
Proof.
  intros Hpre Hrs Hrd. unfold scan_from, scan0. rewrite drop_0.
  rewrite !to_list_append, !rev_app_distr. cbn [Str.to_list list_ascii_of_string rev app].
  rewrite <-!app_assoc. cbn [app].
  rewrite !length_append. cbn [String.length].
  assert (Forall Str.plain (rev (Str.to_list r))) as Hr
    by (by apply Forall_rev, plain_Forall).
  assert (Forall Str.not_slash (rev (Str.to_list pre))) as Hp
    by (by apply Forall_rev, no_slash_Forall).
  rewrite scan_loop_app by (eapply Forall_impl; [exact Hr|by intros ? []]).
  rewrite length_rev, length_to_list.
  set (n := String.length pre). set (m := String.length r).
  assert (scan_loop (rev (Str.to_list r)) (Z.of_nat (n + (1 + m)) - 1)
            (Scan (-1) 0 (-1) true 0) =
          if (m =? 0)%nat then Scan (-1) 0 (-1) true 0
          else Scan (-1) 0 (Z.of_nat (n + (1 + m))) false 0) as ->.
  { destruct r as [|c r]; [done|].
    rewrite scan_before_dot; [cbn; f_equal; lia|done| |right; lia].
    cbn. intros Hnil. apply (f_equal length) in Hnil.
    rewrite length_app in Hnil. cbn in Hnil. lia. }
  cbn [scan_loop].
  destruct (Nat.eqb_spec m 0) as [Hm|Hm];
    rewrite scan_step_not_slash by done;
    change (Str.is_dot ".") with true; cbn.
  - rewrite scan_after_dot; [|done|lia|lia].
    rewrite last_rev. f_equal; try lia. by destruct pre.
  - destruct (Z.eqb_spec (Z.of_nat (n + S m)) (-1)); [lia|].
    rewrite scan_after_dot; [|done|lia|lia].
    rewrite last_rev. f_equal; try lia. by destruct pre.
Qed.

Lemma isAbsolute_no_slash (p : string) :
  Str.no_slash p = true → isAbsolute p = false.
Proof.
  destruct p as [|c p]; [done|]. cbn.
  intros [Hc _]%andb_true_iff. by destruct (Str.is_slash c).
Qed.

Lemma no_slash_dotted (pre r : string) :
  Str.no_slash pre = true → Str.no_slash r = true →
  Str.no_slash (pre +:+ "." +:+ r) = true.
Proof.
  intros Hpre Hr. unfold Str.no_slash in *.
  by rewrite !all_append, Hpre, Hr.
Qed.

(** A name without dot has no extension and is its own base name. *)
Lemma extname_no_dot (p : string) :
  Str.no_slash p = true → Str.no_dot p = true → extname p = "".
Proof.
  intros Hs Hd. unfold extname. destruct (decide (p = "")) as [->|Hne]; [done|].
  rewrite scan_from_plain by done. unfold no_extension. cbn.
  by rewrite orb_true_r.
Qed.

Lemma name_no_dot (p : string) :
  Str.no_slash p = true → Str.no_dot p = true → name (parse p) = p.
Proof.
  intros Hs Hd. unfold parse. destruct (decide (p = "")) as [->|Hne]; [done|].
  destruct (Nat.eqb_spec (String.length p) 0) as [Hlen|Hlen];
    [by destruct p|].
  rewrite isAbsolute_no_slash by done. rewrite scan_from_plain by done. cbn.
  destruct (Z.eqb_spec (Z.of_nat (String.length p)) (-1)); [lia|]. cbn.
  apply slice_all.
Qed.

(** The scan of a name whose last dot is preceded by [pre] and followed by
    [r] finds no extension exactly when [pre] is empty, or the name is
    [".."]. *)
Lemma no_extension_dotted (pre r : string) :
  Str.no_slash pre = true → Str.no_slash r = true → Str.no_dot r = true →
  no_extension (scan_from 0 (pre +:+ "." +:+ r)) =
  match pre with
  | EmptyString => true
  | String c pre' =>
      Str.is_dot c && (String.length pre' =? 0)%nat && (String.length r =? 0)%nat
  end.
Proof.
  intros Hpre Hrs Hrd. rewrite scan_from_dotted by done.
  unfold no_extension. cbn [startDot preDotState end_ startPart].
  rewrite !length_append. cbn [String.length].
  destruct (Z.eqb_spec (Z.of_nat (String.length pre)) (-1)); [lia|].
  destruct pre as [|c pre']; [done|]. cbn [String.length orb].
  destruct (Str.is_dot c); cbn; [|done].
  destruct (Nat.eqb_spec (String.length r) 0) as [Hr0|Hr0],
    (Nat.eqb_spec (String.length pre') 0) as [Hp0|Hp0]; cbn.
  - apply andb_true_iff; split; apply Z.eqb_eq; lia.
  - apply andb_false_iff; right; apply Z.eqb_neq; lia.
  - apply andb_false_iff; left; apply Z.eqb_neq; lia.
  - apply andb_false_iff; left; apply Z.eqb_neq; lia.
Qed.

Lemma extname_dotted (pre r : string) :
  Str.no_slash pre = true → Str.no_slash r = true → Str.no_dot r = true →
  extname (pre +:+ "." +:+ r) =
  if no_extension (scan_from 0 (pre +:+ "." +:+ r)) then "" else "." +:+ r.
Proof.
  intros Hpre Hrs Hrd. unfold extname.
  destruct (no_extension _) eqn:Hne; [by rewrite orb_true_r|].
  rewrite scan_from_dotted by done. cbn [end_ startDot].
  destruct (Z.eqb_spec (Z.of_nat (String.length (pre +:+ "." +:+ r))) (-1));
    [lia|]. cbn. apply slice_suffix.
Qed.

Lemma name_dotted (pre r : string) :
  Str.no_slash pre = true → Str.no_slash r = true → Str.no_dot r = true →
  name (parse (pre +:+ "." +:+ r)) =
  if no_extension (scan_from 0 (pre +:+ "." +:+ r))
  then pre +:+ "." +:+ r else pre.
Proof.
  intros Hpre Hrs Hrd. unfold parse.
  destruct (Nat.eqb_spec (String.length (pre +:+ "." +:+ r)) 0) as [Hlen|Hlen].
  { rewrite !length_append in Hlen. cbn in Hlen. lia. }
  rewrite isAbsolute_no_slash by by apply no_slash_dotted.
  destruct (no_extension _) eqn:Hne;
    rewrite scan_from_dotted by done; cbn [end_ startDot startPart];
    destruct (Z.eqb_spec (Z.of_nat (String.length (pre +:+ "." +:+ r))) (-1));
    try lia; cbn.
  - apply slice_all.
  - apply slice_prefix.
Qed.

(** Every string either has no dot or splits at its last dot. *)
Lemma last_dot (s : string) :
  Str.no_dot s = true ∨
  ∃ pre r, s = pre +:+ "." +:+ r ∧ Str.no_dot r = true.
Proof.
  induction s as [|c s [IH|(pre & r & -> & Hr)]].
  - by left.
  - destruct (Str.is_dot c) eqn:Hc.
    + right. exists "", s. apply is_dot_eq in Hc as ->. done.
    + left. unfold Str.no_dot in *. cbn. by rewrite Hc, IH.
  - right. by exists (String c pre), r.
Qed.

(** The extension of a file name is empty, or a dot followed by
    characters that are neither dots nor separators. *)
Lemma extname_form (f : string) :
  Str.no_slash f = true →
  path.extname f = "" ∨
  ∃ r, path.extname f = "." +:+ r ∧ Str.no_slash r = true ∧ Str.no_dot r = true.
Proof.
  intros Hf. destruct (last_dot f) as [Hd|(pre & r & -> & Hr)].
  - left. by apply extname_no_dot.
  - unfold Str.no_slash in Hf. rewrite !all_append in Hf.
    apply andb_true_iff in Hf as [Hpre [_ Hrs]%andb_true_iff].
    rewrite extname_dotted by done.
    destruct (no_extension _); [by left|right]. by exists r.
Qed.

(** A base name that starts with no dot, followed by an extension: the
    base name and the extension are found again. *)
Lemma name_with_extension (u f : string) :
  Str.no_slash u = true → (∃ c u', u = String c u' ∧ Str.is_dot c = false) →
  Str.no_dot u = true → Str.no_slash f = true →
  name (parse (u +:+ extname f)) = u ∧ extname (u +:+ extname f) = extname f.
Proof.
  intros Hus (c & u' & -> & Hc) Hud Hf.
  destruct (extname_form f Hf) as [->|(r & -> & Hrs & Hrd)].
  - rewrite append_nil_r. split; [by apply name_no_dot|by apply extname_no_dot].
  - rewrite name_dotted, extname_dotted, no_extension_dotted by done.
    by rewrite Hc.
Qed.

End PathFacts.

(** *** [path.join] of a directory and a file name *)

Module JoinFacts.
Import path StrFacts PathFacts.

Lemma split_nonempty (s : string) : split s ≠ [].
Proof.
  induction s as [|c s IH]; [done|]. cbn.
  destruct (Str.is_slash c); [done|]. by destruct (split s).
Qed.

Lemma split_no_slash (n : string) : Str.no_slash n = true → split n = [n].
Proof.
  unfold Str.no_slash. induction n as [|c n IH]; [done|]. cbn.
  intros [Hc Hn]%andb_true_iff. rewrite IH by done.
  by destruct (Str.is_slash c).
Qed.

Lemma split_append (a b : string) :
  split (a +:+ "/" +:+ b) = split a ++ split b.
Proof.
  induction a as [|c a IH]; [done|]. rewrite append_cons. cbn. rewrite IH.
  destruct (Str.is_slash c); [done|].
  pose proof (split_nonempty a). by destruct (split a).
Qed.

Lemma concat_snoc (l : list string) (n : string) :
  l ≠ [] → String.concat "/" (l ++ [n]) = String.concat "/" l +:+ "/" +:+ n.
Proof.
  induction l as [|x l IH]; [done|]. intros _.
  destruct l as [|y l]; [done|].
  change (String.concat "/" ((x :: y :: l) ++ [n]))
    with (x +:+ "/" +:+ String.concat "/" ((y :: l) ++ [n])).
  rewrite IH by done.
  change (String.concat "/" (x :: y :: l))
    with (x +:+ "/" +:+ String.concat "/" (y :: l)).
  by rewrite !append_assoc.
Qed.

Lemma entry_name_inv (n : string) :
  fs.entry_name n = true →
  n ≠ "" ∧ Str.no_slash n = true ∧ n ≠ "." ∧ n ≠ "..".
Proof.
  unfold fs.entry_name. rewrite !andb_true_iff, !negb_true_iff.
  intros [[[Hlen Hs] Hd] Hdd].
  apply bool_decide_eq_false in Hd, Hdd. by destruct n.
Qed.

Lemma normalize_step_entry (allow : bool) (res : list string) (n : string) :
  fs.entry_name n = true → normalize_step allow res n = n :: res.
Proof.
  intros (Hne & _ & Hd & Hdd)%entry_name_inv. unfold normalize_step.
  rewrite bool_decide_eq_false_2 by (by intros [?|?]).
  by rewrite bool_decide_eq_false_2.
Qed.

Lemma trailingSeparator_append (a n : string) :
  n ≠ "" → Str.no_slash n = true → trailingSeparator (a +:+ n) = false.
Proof.
  intros Hne Hn. unfold trailingSeparator.
  rewrite to_list_append, rev_app_distr.
  apply no_slash_Forall, Forall_rev in Hn.
  destruct (rev (Str.to_list n)) as [|c l] eqn:Hrev.
  - apply (f_equal length) in Hrev. rewrite length_rev, length_to_list in Hrev.
    by destruct n.
  - cbn. by inversion Hn.
Qed.

(** A path that is normalised after a file name was added to it ends
    with that file name. *)
Lemma normalize_entry (a n : string) :
  fs.entry_name n = true → a = "" ∨ (∃ d, a = d +:+ "/") →
  normalize (a +:+ n) = n ∨ ∃ y, normalize (a +:+ n) = y +:+ "/" +:+ n.
Proof.
  intros Hn Ha. pose proof (entry_name_inv n Hn) as (Hne & Hs & _ & _).
  unfold normalize.
  destruct (Nat.eqb_spec (String.length (a +:+ n)) 0) as [Hlen|_].
  { rewrite length_append in Hlen. destruct n; [done|]. cbn in Hlen. lia. }
  rewrite trailingSeparator_append by done.
  unfold normalizeString.
  assert (∃ segs, split (a +:+ n) = segs ++ [n]) as [segs ->].
  { destruct Ha as [->|[d ->]].
    - exists []. by rewrite append_nil_l, split_no_slash.
    - exists (split d). by rewrite append_assoc, split_append, (split_no_slash n). }
  rewrite fold_left_app. cbn [fold_left].
  rewrite normalize_step_entry by done. cbn [rev].
  set (kept := rev (fold_left _ segs [])).
  destruct (decide (kept = [])) as [->|Hkept].
  - cbn [app String.concat].
    destruct (Nat.eqb_spec (String.length n) 0) as [Hlen|_]; [by destruct n|].
    destruct (isAbsolute _); [right; by exists ""|by left].
  - rewrite concat_snoc by done.
    destruct (Nat.eqb_spec
                (String.length (String.concat "/" kept +:+ "/" +:+ n)) 0)
      as [Hlen|_].
    { rewrite !length_append in Hlen. cbn in Hlen. lia. }
    right. destruct (isAbsolute _); [|by eexists].
    exists ("/" +:+ String.concat "/" kept). by rewrite !append_assoc.
Qed.

Lemma join_entry (d n : string) :
  fs.entry_name n = true →
  join [d; n] = n ∨ ∃ y, join [d; n] = y +:+ "/" +:+ n.
Proof.
  intros Hn. pose proof (entry_name_inv n Hn) as (Hne & _).
  unfold join. cbn [List.filter].
  destruct (Nat.ltb_spec 0 (String.length n)) as [_|Hlen];
    [|destruct n; [done|cbn in Hlen; lia]].
  destruct (Nat.ltb_spec 0 (String.length d)) as [Hd|Hd].
  - change (String.concat "/" [d; n]) with (d +:+ "/" +:+ n).
    rewrite <-append_assoc. apply normalize_entry; [done|]. right. by exists d.
  - change (String.concat "/" [n]) with ("" +:+ n).
    apply normalize_entry; [done|by left].
Qed.

Lemma leaf_join (d n : string) :
  fs.entry_name n = true → fs.leaf (join [d; n]) = n.
Proof.
  intros Hn. pose proof (entry_name_inv n Hn) as (_ & Hs & _).
  unfold fs.leaf. destruct (join_entry d n Hn) as [->|[y ->]].
  - by rewrite split_no_slash.
  - rewrite split_append, (split_no_slash n) by done. apply last_last.
Qed.

Lemma join_inj (d n m : string) :
  fs.entry_name n = true → fs.entry_name m = true →
  join [d; n] = join [d; m] → n = m.
Proof.
  intros Hn Hm Heq. by rewrite <-(leaf_join d n), <-(leaf_join d m), Heq.
Qed.

(** [path.join] onto the parent of a directory. *)

Lemma isAbsolute_append (b s : string) :
  b ≠ "" → path.isAbsolute (b +:+ s) = path.isAbsolute b.
Proof. by destruct b. Qed.

Lemma trailingSeparator_suffix (a d : string) :
  d ≠ "" → path.trailingSeparator (a +:+ d) = path.trailingSeparator d.
Proof.
  intros Hd. unfold path.trailingSeparator.
  rewrite to_list_append, rev_app_distr.
  destruct (rev (Str.to_list d)) as [|c l] eqn:Hrev; [|done].
  apply (f_equal length) in Hrev. rewrite length_rev, length_to_list in Hrev.
  by destruct d.
Qed.

Lemma normalize_same (q1 q2 : string) :
  q1 ≠ "" → q2 ≠ "" →
  path.isAbsolute q1 = path.isAbsolute q2 →
  path.trailingSeparator q1 = path.trailingSeparator q2 →
  (∀ allow, fold_left (path.normalize_step allow) (path.split q1) [] =
            fold_left (path.normalize_step allow) (path.split q2) []) →
  path.normalize q1 = path.normalize q2.
Proof.
  intros H1 H2 Ha Ht Hf. unfold path.normalize, path.normalizeString.
  rewrite Ha, Ht, Hf. by destruct q1, q2.
Qed.

Lemma normalize_step_empty (allow : bool) (res : list string) :
  path.normalize_step allow res "" = res.
Proof.
  unfold path.normalize_step. by rewrite bool_decide_eq_true_2 by (by left).
Qed.

Lemma normalize_step_up (allow : bool) (res : list string) (x : string) :
  x ≠ ".." → path.normalize_step allow (x :: res) ".." = res.
Proof.
  intros Hx. unfold path.normalize_step.
  rewrite bool_decide_eq_false_2 by (by intros [?|?]).
  rewrite (bool_decide_eq_true_2 (".." = "..")) by done.
  by rewrite bool_decide_eq_false_2.
Qed.

(** Joining [d] onto the directory above [b/x] is joining it onto [b]. *)
Lemma join_parent (b x d : string) :
  b ≠ "" → fs.entry_name x = true → d ≠ "" →
  path.join [b +:+ "/" +:+ x; "../"; d] = path.join [b; d].
Proof.
  intros Hb Hx Hd. pose proof (entry_name_inv x Hx) as (_ & Hxs & _ & Hdd).
  unfold path.join. cbn [List.filter].
  assert ((0 <? String.length (b +:+ "/" +:+ x))%nat = true) as ->
    by (apply Nat.ltb_lt; rewrite !length_append; cbn; lia).
  assert ((0 <? String.length b)%nat = true) as ->
    by (apply Nat.ltb_lt; destruct b; [done|cbn; lia]).
  assert ((0 <? String.length d)%nat = true) as ->
    by (apply Nat.ltb_lt; destruct d; [done|cbn; lia]).
  change (0 <? String.length "../")%nat with true. cbn iota.
  change (String.concat "/" [b +:+ "/" +:+ x; "../"; d])
    with ((b +:+ "/" +:+ x) +:+ "/" +:+ "../" +:+ "/" +:+ d).
  change (String.concat "/" [b; d]) with (b +:+ "/" +:+ d).
  apply normalize_same.
  - by destruct b.
  - by destruct b.
  - rewrite !append_assoc. by rewrite !isAbsolute_append.
  - rewrite <-(append_assoc b "/" d), (trailingSeparator_suffix (b +:+ "/") d) by done.
    rewrite <-!append_assoc. by rewrite trailingSeparator_suffix.
  - intros allow.
    change ("../" +:+ "/" +:+ d) with (".." +:+ "/" +:+ "" +:+ "/" +:+ d).
    rewrite !split_append, (split_no_slash x) by done.
    change (path.split "..") with [".."]. change (path.split "") with [""].
    rewrite !fold_left_app. cbn [fold_left].
    rewrite (normalize_step_entry allow _ x) by done.
    by rewrite normalize_step_up, normalize_step_empty.
Qed.

(** A leading separator of the second part is of no effect. *)
Lemma join_leading_separator (b d : string) :
  b ≠ "" → d ≠ "" → path.join [b; "/" +:+ d] = path.join [b; d].
Proof.
  intros Hb Hd. unfold path.join. cbn [List.filter].
  assert ((0 <? String.length b)%nat = true) as ->
    by (apply Nat.ltb_lt; destruct b; [done|cbn; lia]).
  assert ((0 <? String.length d)%nat = true) as ->
    by (apply Nat.ltb_lt; destruct d; [done|cbn; lia]).
  assert ((0 <? String.length ("/" +:+ d))%nat = true) as -> by done.
  change (String.concat "/" [b; "/" +:+ d]) with (b +:+ "/" +:+ "" +:+ "/" +:+ d).
  change (String.concat "/" [b; d]) with (b +:+ "/" +:+ d).
  apply normalize_same.
  - by destruct b.
  - by destruct b.
  - by rewrite !isAbsolute_append.
  - rewrite <-(append_assoc b "/" d), (trailingSeparator_suffix (b +:+ "/") d) by done.
    rewrite <-!append_assoc. by rewrite trailingSeparator_suffix.
  - intros allow. rewrite !split_append. change (path.split "") with [""].
    rewrite !fold_left_app. cbn [fold_left].
    by rewrite normalize_step_empty.
Qed.

End JoinFacts.

(** *** The file system *)

Module FsFacts.
Import JoinFacts.

Lemma entries_spec (d : string) (m : gmap string node) (n : string) :
  n ∈ fs.entries d m ↔
  fs.entry_name n = true ∧ is_Some (m !! path.join [d; n]).
Proof.
  unfold fs.entries. rewrite list_elem_of_omap. split.
  - intros ([k v] & Hkv%elem_of_map_to_list & Hf). cbn [fst] in Hf.
    destruct (fs.entry_name (fs.leaf k)) eqn:He; cbn [andb] in Hf; [|done].
    case_bool_decide as Hj; [|done]. simplify_eq. split; [done|].
    rewrite Hj. by exists v.
  - intros [Hn [v Hv]]. exists (path.join [d; n], v). split.
    + by apply elem_of_map_to_list.
    + cbn [fst]. rewrite leaf_join by done. rewrite Hn. cbn [andb].
      by rewrite bool_decide_eq_true_2.
Qed.

Lemma entries_entry_name (d : string) (m : gmap string node) (n : string) :
  n ∈ fs.entries d m → fs.entry_name n = true.
Proof. by intros [? _]%entries_spec. Qed.

Lemma NoDup_omap_inj {A B} (f : A → option B) (l : list A) :
  NoDup l →
  (∀ x y z, x ∈ l → y ∈ l → f x = Some z → f y = Some z → x = y) →
  NoDup (omap f l).
Proof.
  induction 1 as [|x l Hx Hl IH]; intros Hinj; cbn; [constructor|].
  destruct (f x) as [z|] eqn:Hfx.
  - constructor.
    + intros (y & Hy & Hfy)%list_elem_of_omap.
      assert (x = y) as <-; [|done].
      apply (Hinj x y z); [left|by right|done|done].
    + apply IH. intros x' y' z' ????. apply (Hinj x' y' z'); by try right.
  - apply IH. intros x' y' z' ????. apply (Hinj x' y' z'); by try right.
Qed.

Lemma entries_NoDup (d : string) (m : gmap string node) :
  NoDup (fs.entries d m).
Proof.
  unfold fs.entries. apply NoDup_omap_inj; [apply NoDup_map_to_list|].
  intros [k1 v1] [k2 v2] z H1%elem_of_map_to_list H2%elem_of_map_to_list.
  cbn [fst]. intros Hf1 Hf2.
  destruct (fs.entry_name (fs.leaf k1)); cbn [andb] in Hf1; [|done].
  destruct (fs.entry_name (fs.leaf k2)); cbn [andb] in Hf2; [|done].
  repeat case_bool_decide; simplify_eq.
  assert (k1 = k2) as -> by congruence. congruence.
Qed.

End FsFacts.

(** *** Runs of the program *)

Module RunFacts.
Import StrFacts PathFacts JoinFacts FsFacts IdentifierFacts.

Ltac unfold_M :=
  unfold mbind, mret, M_bind, M_ret, bind, ret, throw, try_catch,
    console.log, console.error.

Lemma set_files_same (w : World) : set_files (files w) w = w.
Proof. by destruct w. Qed.

Lemma renames_app (t1 t2 : list event) :
  renames (t1 ++ t2) = renames t1 ++ renames t2.
Proof. apply omap_app. Qed.

Lemma successful_renames_app (t1 t2 : list event) :
  successful_renames (t1 ++ t2) = successful_renames t1 ++ successful_renames t2.
Proof. unfold successful_renames. by rewrite renames_app, List.filter_app. Qed.

Lemma failed_renames_app (t1 t2 : list event) :
  failed_renames (t1 ++ t2) = failed_renames t1 ++ failed_renames t2.
Proof. unfold failed_renames. by rewrite renames_app, List.filter_app. Qed.

Lemma mutations_app (t1 t2 : list event) :
  mutations (t1 ++ t2) = mutations t1 ++ mutations t2.
Proof. apply omap_app. Qed.

Lemma writes_app (t1 t2 : list event) :
  writes (t1 ++ t2) = writes t1 ++ writes t2.
Proof. apply omap_app. Qed.

(** One iteration of the loop of [renameProcess]. *)
Lemma loop_cons (D : string) (total : Z) (f : string) (rest : list string)
    (done : Z) (w : World) :
  renameProcess_loop D total (f :: rest) done w =
  if attempted f then
    let a := path.join [D; f] in
    let b := path.join [D; nth_uuid (entropy w) (drawn w) +:+ path.extname f] in
    match fs.rename_result a b (draw w) with
    | inr (_, m) =>
        renameProcess_loop D total rest (done + 1)
          (emit (Log (Processing f (done + 1) total))
             (emit (Fs (rename a b) None) (set_files m (draw w))))
    | inl e =>
        renameProcess_loop D total rest done
          (emit (Err (ErrorWhileRenaming f e))
             (emit (Fs (rename a b) (Some e)) (draw w)))
    end
  else renameProcess_loop D total rest done w.
Proof.
  unfold attempted. cbn [renameProcess_loop]. unfold_M.
  destruct (isUUID (path.name (path.parse f))); cbn [negb]; [done|].
  unfold getNewFilename, uuid, fs.rename, fs.perform. unfold_M.
  by destruct (fs.rename_result _ _ (draw w)) as [e|[[] m]].
Qed.

Lemma rename_result_inr (a b : string) (w : World) (m : gmap string node) :
  fs.rename_result a b w = inr (tt, m) →
  ∃ nd, files w !! a = Some nd ∧ m = <[b := nd]> (delete a (files w)).
Proof.
  unfold fs.rename_result. intros H.
  destruct (fault w (rename a b)); [done|].
  destruct (files w !! a) as [nd|]; [|done]. exists nd. split; [done|].
  destruct nd, (files w !! b) as [[]|]; by simplify_eq.
Qed.

Lemma renames_failed (a b : string) (e : error) (m : message) :
  renames [Fs (rename a b) (Some e); Err m] = [(a, b, Some e)] ∧
  successful_renames [Fs (rename a b) (Some e); Err m] = [] ∧
  failed_renames [Fs (rename a b) (Some e); Err m] = [(a, b, Some e)] ∧
  writes [Fs (rename a b) (Some e); Err m] = [].
Proof. done. Qed.

Lemma renames_succeeded (a b : string) (m : message) :
  renames [Fs (rename a b) None; Log m] = [(a, b, None)] ∧
  successful_renames [Fs (rename a b) None; Log m] = [(a, b, None)] ∧
  failed_renames [Fs (rename a b) None; Log m] = [] ∧
  writes [Fs (rename a b) None; Log m] = [].
Proof. done. Qed.

(** The loop always runs to its end. It asks for exactly the planned
    renames, in order, whatever fails, and counts the successful ones. *)
Lemma loop_run (D : string) (total : Z) (fileNames : list string) :
  ∀ (done : Z) (w : World), ∃ done' new w',
    renameProcess_loop D total fileNames done w = (Return done', w') ∧
    trace w' = trace w ++ new ∧
    fault w' = fault w ∧ entropy w' = entropy w ∧
    (renames new).*1 =
      (λ fg, (path.join [D; fg.1], path.join [D; fg.2]))
        <$> planned (entropy w) (drawn w) fileNames ∧
    done' = done + Z.of_nat (length (successful_renames new)) ∧
    writes new = [] ∧
    (∀ a b e, (a, b, Some e) ∈ renames new →
       ∃ f, f ∈ fileNames ∧ a = path.join [D; f] ∧
            Err (ErrorWhileRenaming f e) ∈ new).
Proof.
  induction fileNames as [|f rest IH]; intros done w.
  - exists done, [], w. cbn. rewrite app_nil_r.
    repeat split; [lia|]. intros a b e Hin. by apply elem_of_nil in Hin.
  - rewrite loop_cons. cbn [planned]. fold (attempted f).
    destruct (attempted f); cbn zeta.
    + set (a := path.join [D; f]).
      set (b := path.join [D; nth_uuid (entropy w) (drawn w) +:+ path.extname f]).
      destruct (fs.rename_result a b (draw w)) as [e|[[] m]].
      * edestruct IH as (done' & new & w' & -> & Ht & Hf & He & Hr & Hd & Hw & Hrep).
        cbn [trace fault entropy drawn emit draw] in Ht, Hf, He, Hr.
        exists done', ([Fs (rename a b) (Some e); Err (ErrorWhileRenaming f e)] ++ new), w'.
        split; [done|]. split; [by rewrite Ht, <-!app_assoc|].
        split; [done|]. split; [done|].
        rewrite renames_app, successful_renames_app, writes_app.
        destruct (renames_failed a b e (ErrorWhileRenaming f e))
          as (-> & -> & _ & ->).
        split; [by rewrite fmap_app, Hr|]. split; [exact Hd|]. split; [done|].
        intros a' b' e' [Hin|Hin]%elem_of_app.
        -- apply list_elem_of_singleton in Hin. simplify_eq.
           exists f. split; [left|]. split; [done|].
           apply elem_of_app. left. right. left.
        -- destruct (Hrep a' b' e' Hin) as (f' & Hf' & -> & Herr).
           exists f'. split; [by right|]. split; [done|].
           apply elem_of_app. by right.
      * edestruct IH as (done' & new & w' & -> & Ht & Hf & He & Hr & Hd & Hw & Hrep).
        cbn [trace fault entropy drawn emit draw set_files] in Ht, Hf, He, Hr.
        exists done',
          ([Fs (rename a b) None; Log (Processing f (done + 1) total)] ++ new), w'.
        split; [done|]. split; [by rewrite Ht, <-!app_assoc|].
        split; [done|]. split; [done|].
        rewrite renames_app, successful_renames_app, writes_app.
        destruct (renames_succeeded a b (Processing f (done + 1) total))
          as (-> & -> & _ & ->).
        split; [by rewrite fmap_app, Hr|].
        split; [rewrite Hd, length_app; cbn; lia|]. split; [done|].
        intros a' b' e' [Hin|Hin]%elem_of_app.
        -- apply list_elem_of_singleton in Hin. simplify_eq.
        -- destruct (Hrep a' b' e' Hin) as (f' & Hf' & -> & Herr).
           exists f'. split; [by right|]. split; [done|].
           apply elem_of_app. by right.
    + edestruct IH as (done' & new & w' & -> & Ht & Hf & He & Hr & Hd & Hw & Hrep).
      exists done', new, w'. repeat split; try done.
      intros a b e' Hin. destruct (Hrep a b e' Hin) as (f' & Hf' & -> & Herr).
      exists f'. split; [by right|]. done.
Qed.

(** The facts of [loop_run] for a run that is known. *)
Lemma loop_run_of (D : string) (total : Z) (fileNames : list string)
    (done done' : Z) (w w' : World) (new : list event) :
  renameProcess_loop D total fileNames done w = (Return done', w') →
  trace w' = trace w ++ new →
  fault w' = fault w ∧ entropy w' = entropy w ∧
  (renames new).*1 =
    (λ fg, (path.join [D; fg.1], path.join [D; fg.2]))
      <$> planned (entropy w) (drawn w) fileNames ∧
  done' = done + Z.of_nat (length (successful_renames new)) ∧
  writes new = [] ∧
  (∀ a b e, (a, b, Some e) ∈ renames new →
     ∃ f, f ∈ fileNames ∧ a = path.join [D; f] ∧
          Err (ErrorWhileRenaming f e) ∈ new).
Proof.
  intros Hrun Ht.
  destruct (loop_run D total fileNames done w)
    as (done2 & new2 & w2 & Hrun2 & Ht2 & Hrest).
  rewrite Hrun in Hrun2. simplify_eq.
  rewrite Ht in Ht2. apply app_inv_head in Ht2 as ->. done.
Qed.

(** The loop adds nothing else to the trace than its own events. *)
Lemma loop_events (D : string) (total : Z) (fileNames : list string) :
  ∀ done w done' w' new,
    renameProcess_loop D total fileNames done w = (Return done', w') →
    trace w' = trace w ++ new →
    Forall loop_event new.
Proof.
  induction fileNames as [|f rest IH]; intros done w done' w' new Hrun Ht.
  - assert (w' = w) as -> by by inversion Hrun.
    rewrite <-(app_nil_r (trace w)) in Ht at 1. by apply app_inv_head in Ht as <-.
  - rewrite loop_cons in Hrun. destruct (attempted f); [|by eapply IH].
    cbn zeta in Hrun.
    destruct (fs.rename_result _ _ (draw w)) as [e|[[] m]];
      match type of Hrun with
      | renameProcess_loop _ _ _ ?d ?w0 = _ =>
          destruct (loop_run D total rest d w0) as (d2 & new2 & w2 & Hrun2 & Ht2 & _)
      end;
      rewrite Hrun2 in Hrun; simplify_eq;
      specialize (IH _ _ _ _ _ Hrun2 Ht2);
      cbn [trace emit draw set_files] in Ht2;
      rewrite <-!app_assoc in Ht2; cbn [app] in Ht2;
      rewrite Ht in Ht2; apply app_inv_head in Ht2 as ->;
      by repeat constructor.
Qed.

(** *** The names that the loop makes *)

Lemma id_char_plain (c : ascii) :
  id_char c = true → Str.is_slash c = false ∧ Str.is_dot c = false.
Proof. by destruct c as [[] [] [] [] [] [] [] []]. Qed.

Lemma Identifier_plain (u : string) :
  Identifier u →
  Str.no_slash u = true ∧ Str.no_dot u = true ∧
  ∃ c u', u = String c u' ∧ Str.is_dot c = false.
Proof.
  intros Hu. pose proof (Identifier_chars u Hu) as Hc.
  pose proof (Identifier_length u Hu) as Hlen.
  split; [|split].
  - eapply all_impl; [|exact Hc]. intros c [-> _]%id_char_plain. done.
  - eapply all_impl; [|exact Hc]. intros c [_ ->]%id_char_plain. done.
  - destruct u as [|c u']; [done|]. exists c, u'. split; [done|].
    cbn in Hc. apply andb_true_iff in Hc as [Hc _].
    by apply id_char_plain in Hc as [_ ?].
Qed.

(** The name made of an identifier and of the extension of a file name is
    a file name again, and one that the loop skips. *)
Lemma new_name (u f : string) :
  Identifier u → fs.entry_name f = true →
  fs.entry_name (u +:+ path.extname f) = true ∧
  path.name (path.parse (u +:+ path.extname f)) = u ∧
  path.extname (u +:+ path.extname f) = path.extname f ∧
  attempted (u +:+ path.extname f) = false.
Proof.
  intros Hu Hf. pose proof (entry_name_inv f Hf) as (_ & Hfs & _).
  pose proof (Identifier_plain u Hu) as (Hus & Hud & Hfirst).
  pose proof (Identifier_length u Hu) as Hlen.
  destruct (name_with_extension u f Hus Hfirst Hud Hfs) as [Hname Hext].
  split; [|split; [done|split; [done|]]].
  - unfold fs.entry_name. rewrite !andb_true_iff, !negb_true_iff.
    assert (36 ≤ String.length (u +:+ path.extname f))%nat as Hge
      by (rewrite length_append; lia).
    repeat split.
    + apply Nat.ltb_lt. lia.
    + destruct (extname_form f Hfs) as [->|(r & -> & Hr & _)];
        unfold Str.no_slash in *; rewrite all_append, Hus; [done|].
      by rewrite all_append, Hr.
    + apply bool_decide_eq_false. intros Heq. rewrite Heq in Hge. cbn in Hge. lia.
    + apply bool_decide_eq_false. intros Heq. rewrite Heq in Hge. cbn in Hge. lia.
  - unfold attempted. rewrite Hname.
    by rewrite (proj2 (isUUID_Identifier u) Hu).
Qed.

Lemma Identifier_nth_uuid (entropy : nat → Z) (i : nat) :
  Identifier (nth_uuid entropy i).
Proof. apply Identifier_v4. Qed.

Lemma planned_spec (entropy : nat → Z) (fileNames : list string) :
  ∀ i f g, (f, g) ∈ planned entropy i fileNames →
    f ∈ fileNames ∧ attempted f = true ∧
    ∃ j, (i ≤ j)%nat ∧ g = nth_uuid entropy j +:+ path.extname f.
Proof.
  induction fileNames as [|f0 rest IH]; intros i f g Hin; cbn in Hin.
  - by apply elem_of_nil in Hin.
  - fold (attempted f0) in Hin. destruct (attempted f0) eqn:Hf0.
    + apply elem_of_cons in Hin as [Heq|Hin].
      * simplify_eq. split; [left|]. split; [done|]. by exists i.
      * destruct (IH _ _ _ Hin) as (? & ? & j & ? & ?).
        split; [by right|]. split; [done|]. exists j. split; [lia|done].
    + destruct (IH _ _ _ Hin) as (? & ? & j & ? & ?).
      split; [by right|]. split; [done|]. by exists j.
Qed.

Lemma planned_all_attempted (entropy : nat → Z) (fileNames : list string) :
  Forall (λ f, attempted f = true) fileNames →
  ∀ i, (planned entropy i fileNames).*1 = fileNames.
Proof.
  induction 1 as [|f rest Hf _ IH]; intros i; cbn; [done|].
  fold (attempted f). rewrite Hf. cbn. by rewrite IH.
Qed.

Lemma planned_none_attempted (entropy : nat → Z) (fileNames : list string) :
  Forall (λ f, attempted f = false) fileNames →
  ∀ i, planned entropy i fileNames = [].
Proof.
  induction 1 as [|f rest Hf _ IH]; intros i; cbn; [done|].
  fold (attempted f). by rewrite Hf.
Qed.

(** *** The entries of the directory during the loop *)

Lemma entries_rename (D f g : string) (nd : node) (m : gmap string node) (n : string) :
  fs.entry_name f = true → fs.entry_name g = true →
  n ∈ fs.entries D (<[path.join [D; g] := nd]> (delete (path.join [D; f]) m)) ↔
  n = g ∨ (n ∈ fs.entries D m ∧ n ≠ f).
Proof.
  intros Hf Hg. rewrite !entries_spec. split.
  - intros [Hn Hsome].
    destruct (decide (path.join [D; g] = path.join [D; n])) as [Heq|Hne].
    { left. symmetry. by apply (join_inj D). }
    right. rewrite lookup_insert_ne in Hsome by done.
    destruct (decide (path.join [D; f] = path.join [D; n])) as [Heq|Hne'].
    { rewrite Heq, lookup_delete_eq in Hsome. by destruct Hsome. }
    rewrite lookup_delete_ne in Hsome by done.
    split; [done|]. by intros ->.
  - intros [->|[[Hn Hsome] Hne]].
    + split; [done|]. by rewrite lookup_insert_eq.
    + split; [done|].
      destruct (decide (path.join [D; g] = path.join [D; n])) as [Heq|Hne'].
      { by rewrite Heq, lookup_insert_eq. }
      rewrite lookup_insert_ne by done. rewrite lookup_delete_ne; [done|].
      intros Heq. apply Hne. symmetry. by apply (join_inj D).
Qed.

Lemma failed_renames_failed (a b : string) (e : error) (m : message)
    (t : list event) :
  failed_renames (Fs (rename a b) (Some e) :: Err m :: t) =
  (a, b, Some e) :: failed_renames t.
Proof. done. Qed.

Lemma failed_renames_succeeded (a b : string) (m : message) (t : list event) :
  failed_renames (Fs (rename a b) None :: Log m :: t) = failed_renames t.
Proof. done. Qed.

Lemma failed_renames_grow (t t' : list event) :
  failed_renames (t ++ t') = failed_renames t → failed_renames t' = [].
Proof.
  rewrite failed_renames_app. intros H.
  apply (f_equal length) in H. rewrite length_app in H.
  apply length_zero_iff_nil. lia.
Qed.

Lemma loop_files (D : string) (total : Z) (fileNames : list string) :
  Forall (λ f, fs.entry_name f = true) fileNames →
  ∀ done w done' w',
    renameProcess_loop D total fileNames done w = (Return done', w') →
    (∀ n, n ∈ fs.entries D (files w) → attempted n = false →
          n ∈ fs.entries D (files w')) ∧
    (∀ n, n ∈ fs.entries D (files w') →
          n ∈ fs.entries D (files w) ∨
          n ∈ (planned (entropy w) (drawn w) fileNames).*2) ∧
    (failed_renames (trace w') = failed_renames (trace w) →
       (∀ n, n ∈ fs.entries D (files w') → attempted n = true →
             n ∈ fs.entries D (files w) ∧ n ∉ fileNames) ∧
       (∀ g, g ∈ (planned (entropy w) (drawn w) fileNames).*2 →
             g ∈ fs.entries D (files w'))).
Proof.
  induction 1 as [|f rest Hf _ IH]; intros done w done' w' Hrun.
  - assert (w' = w) as -> by (by inversion Hrun). cbn [planned fmap list_fmap].
    split; [done|]. split; [by left|]. intros _. split.
    + intros n Hn _. split; [done|]. apply not_elem_of_nil.
    + intros g Hin. by apply elem_of_nil in Hin.
  - rewrite loop_cons in Hrun. cbn [planned]. fold (attempted f).
    destruct (attempted f) eqn:Hatt; cbn zeta in Hrun.
    + set (g := nth_uuid (entropy w) (drawn w) +:+ path.extname f) in *.
      destruct (new_name (nth_uuid (entropy w) (drawn w)) f
                  (Identifier_nth_uuid _ _) Hf) as (Hg & _ & _ & Hgatt).
      fold g in Hg, Hgatt.
      destruct (fs.rename_result _ _ (draw w)) as [e|[[] m]] eqn:Hres.
      * (* the rename failed: the files stay as they are *)
        destruct (loop_run D total rest done
                    (emit (Err (ErrorWhileRenaming f e))
                       (emit (Fs (rename (path.join [D; f]) (path.join [D; g]))
                                (Some e)) (draw w))))
          as (d2 & new & w2 & Hrun2 & Ht & _).
        rewrite Hrun in Hrun2. simplify_eq.
        destruct (IH _ _ _ _ Hrun) as (HA & HB & HCD).
        cbn [files entropy drawn trace emit draw] in HA, HB, HCD, Ht.
        rewrite <-!app_assoc in Ht. cbn [app] in Ht.
        split; [exact HA|]. split.
        { intros n Hn. destruct (HB n Hn) as [?|?]; [by left|].
          right. rewrite fmap_cons. by right. }
        intros Hnofail. exfalso. rewrite Ht in Hnofail.
        apply failed_renames_grow in Hnofail.
        by rewrite failed_renames_failed in Hnofail.
      * (* the rename succeeded *)
        apply rename_result_inr in Hres as (nd & Hnd & ->).
        cbn [files draw] in Hnd.
        destruct (loop_run D total rest (done + 1)
                    (emit (Log (Processing f (done + 1) total))
                       (emit (Fs (rename (path.join [D; f]) (path.join [D; g])) None)
                          (set_files (<[path.join [D; g] := nd]>
                                        (delete (path.join [D; f]) (files (draw w))))
                             (draw w)))))
          as (d2 & new & w2 & Hrun2 & Ht & _).
        rewrite Hrun in Hrun2. simplify_eq.
        destruct (IH _ _ _ _ Hrun) as (HA & HB & HCD).
        cbn [files entropy drawn trace emit draw set_files] in HA, HB, HCD, Ht.
        rewrite <-!app_assoc in Ht. cbn [app] in Ht.
        split; [|split].
        { intros n Hn Hnatt. apply HA; [|done].
          apply (entries_rename D f g nd _ n Hf Hg). right. split; [done|].
          intros ->. congruence. }
        { intros n Hn. destruct (HB n Hn) as [Hn'|Hn'].
          - apply (entries_rename D f g nd _ n Hf Hg) in Hn' as [->|[? _]];
              [|by left].
            right. rewrite fmap_cons. left.
          - right. rewrite fmap_cons. by right. }
        intros Hnofail.
        destruct HCD as [HC HD].
        { rewrite Ht in Hnofail. apply failed_renames_grow in Hnofail.
          rewrite failed_renames_succeeded in Hnofail.
          rewrite Ht. change (?t ++ ?e1 :: ?e2 :: new) with (t ++ [e1; e2] ++ new).
          rewrite !app_assoc, (failed_renames_app _ new), Hnofail, app_nil_r.
          by rewrite <-app_assoc. }
        split.
        { intros n Hn Hnatt. destruct (HC n Hn Hnatt) as [Hn' Hrest].
          apply (entries_rename D f g nd _ n Hf Hg) in Hn' as [->|[Hn' Hne]];
            [congruence|].
          split; [done|]. intros [->|?]%elem_of_cons; done. }
        { intros g' Hg'. rewrite fmap_cons in Hg'.
          apply elem_of_cons in Hg' as [->|Hg']; [|by apply HD].
          apply HA; [|done]. apply (entries_rename D f g nd _ g Hf Hg). by left. }
    + (* the entry is skipped *)
      destruct (IH _ _ _ _ Hrun) as (HA & HB & HCD).
      split; [done|]. split; [done|]. intros Hnofail.
      destruct (HCD Hnofail) as [HC HD]. split; [|done].
      intros n Hn Hnatt. destruct (HC n Hn Hnatt) as [? ?]. split; [done|].
      intros [->|?]%elem_of_cons; [congruence|done].
Qed.

(** *** [renameProcess] as a whole *)

Lemma stat_result_inr (p : string) (w : World) (nd : node) (m : gmap string node) :
  fs.stat_result p w = inr (nd, m) →
  fault w (stat p) = None ∧ files w !! p = Some nd ∧ m = files w.
Proof.
  unfold fs.stat_result. destruct (fault w (stat p)); [done|].
  destruct (files w !! p); [|done]. by intros [= -> ->].
Qed.

Lemma directoryExists_run (p : string) (w : World) :
  directoryExists p w =
  match fs.stat_result p w with
  | inl e => (Return false, emit (Fs (stat p) (Some e)) w)
  | inr (nd, _) => (Return (fs.isDirectory nd), emit (Fs (stat p) None) w)
  end.
Proof.
  unfold directoryExists, fs.stat, fs.perform. unfold_M.
  destruct (fs.stat_result p w) as [e|[nd m]] eqn:Hres; [done|].
  apply stat_result_inr in Hres as (_ & _ & ->). by rewrite set_files_same.
Qed.

(** When the path is not a directory, or [stat] fails. *)
Lemma directoryExists_false (p : string) (w : World) :
  files w !! p ≠ Some Directory ∨ is_Some (fault w (stat p)) →
  ∃ r, directoryExists p w = (Return false, emit (Fs (stat p) r) w).
Proof.
  intros H. rewrite directoryExists_run. unfold fs.stat_result.
  destruct (fault w (stat p)) as [e|]; [by eexists|].
  destruct H as [H|[? ?]]; [|done].
  destruct (files w !! p) as [[]|]; [by exists None|done|by eexists].
Qed.

Lemma directoryExists_true (p : string) (w : World) :
  files w !! p = Some Directory → fault w (stat p) = None →
  directoryExists p w = (Return true, emit (Fs (stat p) None) w).
Proof.
  intros Hp Hf. rewrite directoryExists_run. unfold fs.stat_result.
  by rewrite Hf, Hp.
Qed.

Lemma readdir_result_inr (p : string) (w : World) (names : list string)
    (m : gmap string node) :
  fs.readdir_result p w = inr (names, m) →
  names = fs.entries p (files w) ∧ m = files w.
Proof.
  unfold fs.readdir_result. destruct (fault w (readdir p)); [done|].
  destruct (files w !! p) as [[]|]; [done| |done]. by intros [= <- <-].
Qed.

Lemma getFiles_run (p : string) (w : World) :
  getFiles p w =
  match fs.readdir_result p w with
  | inl e => (Throw e, emit (Err (ErrorWhileReadingFiles p e))
                         (emit (Fs (readdir p) (Some e)) w))
  | inr (names, _) => (Return names, emit (Fs (readdir p) None) w)
  end.
Proof.
  unfold getFiles, fs.readdir, fs.perform. unfold_M.
  destruct (fs.readdir_result p w) as [e|[names m]] eqn:Hres; [done|].
  apply readdir_result_inr in Hres as (_ & ->). by rewrite set_files_same.
Qed.

(** [renameProcess] when the path is not a directory. *)
Lemma renameProcess_no_directory (dirname d : string) (w : World) :
  let D := path.join [dirname; "../"; d] in
  files w !! D ≠ Some Directory ∨ is_Some (fault w (stat D)) →
  ∃ r, renameProcess dirname d w =
       (Return tt, emit (Err (DirectoryDoesNotExist D)) (emit (Fs (stat D) r) w)).
Proof.
  intros D H. destruct (directoryExists_false D w H) as [r Hr]. exists r.
  unfold renameProcess. fold D. unfold_M. by rewrite Hr.
Qed.

(** [renameProcess] when the directory cannot be listed. *)
Lemma renameProcess_no_listing (dirname d : string) (w : World) (e : error) :
  let D := path.join [dirname; "../"; d] in
  files w !! D = Some Directory → fault w (stat D) = None →
  fault w (readdir D) = Some e →
  renameProcess dirname d w =
  (Return tt,
   emit (Err (ErrorInRenameProcess e))
     (emit (Err (ErrorWhileReadingFiles D e))
        (emit (Fs (readdir D) (Some e)) (emit (Fs (stat D) None) w)))).
Proof.
  intros D Hd Hs Hr. unfold renameProcess. fold D. unfold_M.
  rewrite directoryExists_true by done. cbn [negb].
  rewrite getFiles_run. unfold fs.readdir_result. cbn [fault emit].
  by rewrite Hr.
Qed.

(** [renameProcess] when the directory is listed: the loop runs over the
    entries, between the two messages. *)
Lemma renameProcess_listing (dirname d : string) (w : World) :
  let D := path.join [dirname; "../"; d] in
  let names := fs.entries D (files w) in
  let w0 := emit (Log StartedRenaming)
              (emit (Fs (readdir D) None) (emit (Fs (stat D) None) w)) in
  files w !! D = Some Directory → fault w (stat D) = None →
  fault w (readdir D) = None →
  ∃ done new w3,
    renameProcess_loop D (Z.of_nat (length names)) names 0 w0 = (Return done, w3) ∧
    trace w3 = trace w0 ++ new ∧
    renameProcess dirname d w = (Return tt, emit (Log RenamingCompleted) w3).
Proof.
  intros D names w0 Hd Hs Hr.
  destruct (loop_run D (Z.of_nat (length names)) names 0 w0)
    as (done & new & w3 & Hloop & Ht & _).
  exists done, new, w3. split; [done|]. split; [done|].
  unfold renameProcess. fold D. unfold_M.
  rewrite directoryExists_true by done. cbn [negb].
  rewrite getFiles_run. unfold fs.readdir_result. cbn [fault files emit].
  rewrite Hr, Hd. fold names. fold w0. by rewrite Hloop.
Qed.

(** The three ways in which [renameProcess] runs. *)
Lemma renameProcess_cases (dirname d : string) (w : World) :
  let D := path.join [dirname; "../"; d] in
  (files w !! D ≠ Some Directory ∨ is_Some (fault w (stat D))) ∨
  (files w !! D = Some Directory ∧ fault w (stat D) = None ∧
   is_Some (fault w (readdir D))) ∨
  (files w !! D = Some Directory ∧ fault w (stat D) = None ∧
   fault w (readdir D) = None).
Proof.
  intros D. destruct (fault w (stat D)); [left; right; by eexists|].
  destruct (decide (files w !! D = Some Directory)); [|by left; left].
  destruct (fault w (readdir D)); [|by right; right].
  right. left. split; [done|]. split; [done|]. by eexists.
Qed.

Lemma renameProcess_returns (dirname d : string) (w : World) :
  ∃ w', renameProcess dirname d w = (Return tt, w').
Proof.
  destruct (renameProcess_cases dirname d w) as [H|[(Hd & Hs & [e He])|(Hd & Hs & Hr)]].
  - destruct (renameProcess_no_directory dirname d w H) as [r ->]. by eexists.
  - rewrite (renameProcess_no_listing dirname d w e) by done. by eexists.
  - destruct (renameProcess_listing dirname d w Hd Hs Hr) as (? & ? & ? & _ & _ & ->).
    by eexists.
Qed.

Lemma renames_elem_of (t : list event) (a b : string) (r : option error) :
  (a, b, r) ∈ renames t ↔ Fs (rename a b) r ∈ t.
Proof.
  unfold renames. rewrite list_elem_of_omap. split.
  - intros (ev & Hev & Heq). destruct ev as [[]| |]; by simplify_eq.
  - intros Hin. by exists (Fs (rename a b) r).
Qed.

(** What a run of [renameProcess] adds to the trace, in each of the three
    ways in which it runs. *)
Lemma renameProcess_trace (dirname d : string) (w : World) :
  let D := path.join [dirname; "../"; d] in
  ∃ new w',
    renameProcess dirname d w = (Return tt, w') ∧ trace w' = trace w ++ new ∧
    ((∃ r, new = [Fs (stat D) r; Err (DirectoryDoesNotExist D)]) ∨
     (∃ e, new = [Fs (stat D) None; Fs (readdir D) (Some e);
                  Err (ErrorWhileReadingFiles D e); Err (ErrorInRenameProcess e)] ∧
           files w !! D = Some Directory ∧ fault w (readdir D) = Some e) ∨
     (∃ new_loop,
        new = [Fs (stat D) None; Fs (readdir D) None; Log StartedRenaming]
                ++ new_loop ++ [Log RenamingCompleted] ∧
        Forall loop_event new_loop ∧
        (renames new_loop).*1 =
          (λ fg, (path.join [D; fg.1], path.join [D; fg.2]))
            <$> planned (entropy w) (drawn w) (fs.entries D (files w)))).
Proof.
  intros D.
  destruct (renameProcess_cases dirname d w)
    as [H|[(Hd & Hs & [e He])|(Hd & Hs & Hr)]].
  - destruct (renameProcess_no_directory dirname d w H) as [r ->]. fold D.
    eexists [_; _], _. split; [done|]. cbn [trace emit].
    split; [by rewrite <-app_assoc|]. left. by exists r.
  - rewrite (renameProcess_no_listing dirname d w e) by done. fold D.
    eexists [_; _; _; _], _. split; [done|]. cbn [trace emit].
    split; [by rewrite <-!app_assoc|]. right. left. by exists e.
  - destruct (renameProcess_listing dirname d w Hd Hs Hr)
      as (done & new & w3 & Hloop & Ht & ->). fold D in Hloop, Ht.
    exists ([Fs (stat D) None; Fs (readdir D) None; Log StartedRenaming]
              ++ new ++ [Log RenamingCompleted]), (emit (Log RenamingCompleted) w3).
    split; [done|]. cbn [trace emit]. rewrite Ht. cbn [trace emit].
    split; [by rewrite <-!app_assoc|]. right. right. exists new.
    split; [done|]. split; [by eapply loop_events|].
    by destruct (loop_run_of _ _ _ _ _ _ _ _ Hloop Ht) as (_ & _ & ? & _).
Qed.

Lemma loop_skip_all (D : string) (total : Z) (fileNames : list string)
    (done : Z) (w : World) :
  Forall (λ f, attempted f = false) fileNames →
  renameProcess_loop D total fileNames done w = (Return done, w).
Proof.
  induction 1 as [|f rest Hf _ IH]; [done|]. by rewrite loop_cons, Hf.
Qed.

Lemma planned_fst (entropy : nat → Z) (fileNames : list string) :
  ∀ i, (planned entropy i fileNames).*1 = List.filter attempted fileNames.
Proof.
  induction fileNames as [|f rest IH]; intros i; cbn; [done|].
  fold (attempted f). destruct (attempted f); cbn; by rewrite IH.
Qed.

(** *** [createEmptyFiles] *)

Lemma pretty_N_char_plain (x : N) : Str.plain (pretty_N_char x).
Proof. unfold pretty_N_char. by repeat case_match. Qed.

Lemma pretty_N_go_plain (x : N) :
  ∀ s, Forall Str.plain (Str.to_list s) →
       Forall Str.plain (Str.to_list (pretty_N_go x s)) ∧
       ((0 < x)%N → pretty_N_go x s ≠ "").
Proof.
  induction x as [x IH] using (well_founded_induction N.lt_wf_0). intros s Hs.
  destruct (decide (x = 0%N)) as [->|Hx].
  - rewrite pretty_N_go_0. split; [done|]. intros H. exfalso. lia.
  - rewrite pretty_N_go_step by lia.
    assert (x `div` 10 < x)%N as Hlt by (apply N.div_lt; lia).
    destruct (IH _ Hlt (String (pretty_N_char (x `mod` 10)) s)) as [Hall Hne].
    { cbn. constructor; [apply pretty_N_char_plain|done]. }
    split; [done|]. intros _.
    destruct (decide (x `div` 10 = 0)%N) as [Hz|Hz];
      [|by apply Hne, N.neq_0_lt_0].
    by rewrite Hz, pretty_N_go_0.
Qed.

Lemma pretty_nonneg (i : Z) :
  0 ≤ i → pretty i ≠ "" ∧ Forall Str.plain (Str.to_list (pretty i)).
Proof.
  intros Hi. destruct i as [|p|p]; [|clear Hi|lia].
  - split; [done|]. do 2 constructor; done.
  - change (pretty (Z.pos p)) with (pretty_N_go (N.pos p) "").
    destruct (pretty_N_go_plain (N.pos p) "") as [Hall Hne]; [constructor|].
    split; [apply Hne; lia|done].
Qed.

Lemma numbered_entry_name (i : Z) (ext : string) :
  0 ≤ i → Str.no_slash ext = true → fs.entry_name (pretty i +:+ ext) = true.
Proof.
  intros Hi Hext. destruct (pretty_nonneg i Hi) as [Hne Hall].
  apply plain_Forall in Hall as [Hs Hd].
  destruct (pretty i) as [|c s] eqn:Hp; [done|].
  assert (Str.is_dot c = false) as Hc.
  { unfold Str.no_dot in Hd. cbn in Hd. apply andb_true_iff in Hd as [Hd _].
    by destruct (Str.is_dot c). }
  unfold fs.entry_name. rewrite !andb_true_iff, !negb_true_iff. repeat split.
  - unfold Str.no_slash in *. by rewrite all_append, Hs, Hext.
  - apply bool_decide_eq_false. rewrite append_cons. intros [= -> _]. done.
  - apply bool_decide_eq_false. rewrite append_cons. intros [= -> _]. done.
Qed.

Lemma numbered_inj (i j : Z) (ext : string) :
  pretty i +:+ ext = pretty j +:+ ext → i = j.
Proof. intros H%append_inv_tail. by apply (inj pretty). Qed.

Lemma createEmptyFiles_loop_run (D ext : string) (indices : list Z) :
  ∀ w,
    (∀ i, i ∈ indices →
       fault w (writeFile (path.join [D; pretty i +:+ ext]) " ") = None ∧
       files w !! path.join [D; pretty i +:+ ext] ≠ Some Directory) →
    ∃ w',
      createEmptyFiles_loop D ext indices w = (Return tt, w') ∧
      trace w' = trace w ++
        List.flat_map (λ i, [Fs (writeFile (path.join [D; pretty i +:+ ext]) " ") None;
                             Log (CreatedEmptyFile (pretty i +:+ ext))]) indices ∧
      fault w' = fault w ∧
      (∀ k, files w' !! k =
            if bool_decide (k ∈ (λ i, path.join [D; pretty i +:+ ext]) <$> indices)
            then Some (File " ") else files w !! k).
Proof.
  induction indices as [|i rest IH]; intros w Hok.
  - exists w. cbn. by rewrite app_nil_r.
  - cbn [createEmptyFiles_loop]. unfold fs.writeFile, fs.perform. unfold_M.
    set (p := path.join [D; pretty i +:+ ext]).
    destruct (Hok i) as [Hfault Hnd]; [left|]. fold p in Hfault, Hnd.
    assert (fs.writeFile_result p " " w = inr (tt, <[p := File " "]> (files w)))
      as ->.
    { unfold fs.writeFile_result. rewrite Hfault.
      by destruct (files w !! p) as [[]|]. }
    edestruct (IH (emit (Log (CreatedEmptyFile (pretty i +:+ ext)))
                     (emit (Fs (writeFile p " ") None)
                        (set_files (<[p := File " "]> (files w)) w))))
      as (w' & -> & Ht & Hf & Hfiles).
    { intros j Hj. cbn [fault files emit set_files].
      destruct (Hok j) as [? ?]; [by right|]. split; [done|].
      destruct (decide (p = path.join [D; pretty j +:+ ext])) as [<-|Hne].
      - by rewrite lookup_insert_eq.
      - by rewrite lookup_insert_ne. }
    exists w'. split; [done|].
    cbn [trace fault files emit set_files] in Ht, Hf, Hfiles.
    split; [by rewrite Ht, <-!app_assoc|]. split; [done|].
    intros k. rewrite Hfiles, fmap_cons. fold p.
    destruct (decide (k = p)) as [->|Hne].
    + rewrite (bool_decide_eq_true_2 (p ∈ p :: _)) by left.
      rewrite lookup_insert_eq. by case_bool_decide.
    + rewrite lookup_insert_ne by done.
      case_bool_decide as Hin.
      * rewrite bool_decide_eq_true_2; [done|by right].
      * rewrite bool_decide_eq_false_2; [done|].
        by intros [?|?]%elem_of_cons.
Qed.

Lemma createEmptyFiles_no_directory (D : string) (n : Z) (ext : string) (w : World) :
  files w !! D ≠ Some Directory ∨ is_Some (fault w (stat D)) →
  ∃ r, createEmptyFiles D n ext w =
       (Return tt, emit (Err (DirectoryDoesNotExist D)) (emit (Fs (stat D) r) w)).
Proof.
  intros H. destruct (directoryExists_false D w H) as [r Hr]. exists r.
  unfold createEmptyFiles. unfold_M. by rewrite Hr.
Qed.

Lemma writes_created (D ext : string) (indices : list Z) :
  writes (List.flat_map
            (λ i, [Fs (writeFile (path.join [D; pretty i +:+ ext]) " ") None;
                   Log (CreatedEmptyFile (pretty i +:+ ext))]) indices) =
  (λ i, (path.join [D; pretty i +:+ ext], " ", None)) <$> indices.
Proof. induction indices as [|i rest IH]; [done|]. cbn. by rewrite <-IH. Qed.

(** *** Runs in which no rename fails *)

Lemma no_failed_renames (t : list event) :
  failed_renames t = [] →
  renames t = (λ p, (p, None)) <$> (renames t).*1 ∧
  successful_renames t = renames t.
Proof.
  unfold failed_renames, successful_renames.
  induction (renames t) as [|[[a b] [e|]] l IH]; cbn; [done|done|].
  intros H. destruct (IH H) as [H1 H2]. by rewrite <-H1, H2.
Qed.

Lemma failed_renames_prefix (t new : list event) :
  failed_renames new = [] → failed_renames (t ++ new) = failed_renames t.
Proof. intros H. by rewrite failed_renames_app, H, app_nil_r. Qed.

(** After a run of the loop over the entries of the directory in which
    no rename failed, the entries are the planned names and the entries
    that were skipped. *)
Lemma loop_entries_after (D : string) (total done done' : Z) (w w' : World) :
  let names := fs.entries D (files w) in
  renameProcess_loop D total names done w = (Return done', w') →
  failed_renames (trace w') = failed_renames (trace w) →
  ∀ n, n ∈ fs.entries D (files w') ↔
       (n ∈ names ∧ attempted n = false) ∨
       n ∈ (planned (entropy w) (drawn w) names).*2.
Proof.
  intros names Hrun Hnofail.
  assert (Forall (λ f, fs.entry_name f = true) names) as Hentries.
  { apply Forall_forall. intros f Hf. by apply entries_entry_name in Hf. }
  destruct (loop_files D total names Hentries done w done' w' Hrun)
    as (HA & HB & HCD).
  destruct (HCD Hnofail) as [HC HD]. intros n. split.
  - intros Hn. destruct (HB n Hn) as [Hold|?]; [|by right].
    destruct (attempted n) eqn:Hatt; [|by left].
    by destruct (HC n Hn Hatt).
  - intros [[Hn Hatt]|Hn]; [by apply HA|by apply HD].
Qed.

Lemma planned_not_attempted (entropy : nat → Z) (i : nat) (fileNames : list string)
    (g : string) :
  Forall (λ f, fs.entry_name f = true) fileNames →
  g ∈ (planned entropy i fileNames).*2 → attempted g = false.
Proof.
  intros Hentries ([f g'] & -> & Hin)%list_elem_of_fmap.
  apply planned_spec in Hin as (Hf & _ & j & _ & ->).
  rewrite Forall_forall in Hentries.
  by destruct (new_name (nth_uuid entropy j) f (Identifier_nth_uuid _ _)
                 (Hentries f Hf)) as (_ & _ & _ & ?).
Qed.

(** *** When no rename can fail

    With no failure injected into a rename, a loop over different entries
    that are all files, in a directory whose entries are all files, has no
    rename that fails. *)

Lemma rename_result_file (a b data : string) (w : World) :
  fault w (rename a b) = None →
  files w !! a = Some (File data) →
  files w !! b ≠ Some Directory →
  fs.rename_result a b w = inr (tt, <[b := File data]> (delete a (files w))).
Proof.
  intros Hfault Ha Hb. unfold fs.rename_result. rewrite Hfault, Ha.
  by destruct (files w !! b) as [[]|].
Qed.

Lemma loop_succeeds (D : string) (total : Z) (fileNames : list string) :
  NoDup fileNames →
  Forall (λ f, fs.entry_name f = true) fileNames →
  Forall (λ f, attempted f = true) fileNames →
  ∀ done w done' w' new,
    (∀ a b, fault w (rename a b) = None) →
    (∀ f, f ∈ fileNames → ∃ data, files w !! path.join [D; f] = Some (File data)) →
    (∀ n, fs.entry_name n = true → files w !! path.join [D; n] ≠ Some Directory) →
    renameProcess_loop D total fileNames done w = (Return done', w') →
    trace w' = trace w ++ new →
    failed_renames new = [].
Proof.
  induction 1 as [|f rest Hnotin Hnodup IH];
    intros Hentries Hatt done w done' w' new Hfault Hfiles Hdir Hrun Ht.
  - cbn in Hrun. assert (w' = w) as -> by by inversion Hrun.
    rewrite <-(app_nil_r (trace w)) in Ht at 1. by apply app_inv_head in Ht as <-.
  - apply Forall_cons in Hentries as [Hf Hentries].
    apply Forall_cons in Hatt as [Hfatt Hatt].
    rewrite loop_cons, Hfatt in Hrun. cbn zeta in Hrun.
    set (g := nth_uuid (entropy w) (drawn w) +:+ path.extname f) in *.
    destruct (new_name (nth_uuid (entropy w) (drawn w)) f
                (Identifier_nth_uuid _ _) Hf) as (Hg & _ & _ & Hgatt).
    fold g in Hg, Hgatt.
    destruct (Hfiles f) as [data Hdata]; [left|].
    pose proof (rename_result_file (path.join [D; f]) (path.join [D; g]) data
                  (draw w) (Hfault _ _) Hdata (Hdir g Hg)) as Hres.
    cbn [files draw] in Hres. rewrite Hres in Hrun.
    destruct (loop_run D total rest (done + 1)
                (emit (Log (Processing f (done + 1) total))
                   (emit (Fs (rename (path.join [D; f]) (path.join [D; g])) None)
                      (set_files (<[path.join [D; g] := File data]>
                                    (delete (path.join [D; f]) (files w)))
                         (draw w)))))
      as (d2 & new2 & w2 & Hrun2 & Ht2 & _).
    rewrite Hrun in Hrun2. simplify_eq.
    cbn [trace emit draw set_files] in Ht2.
    rewrite <-!app_assoc in Ht2. cbn [app] in Ht2.
    rewrite Ht in Ht2. apply app_inv_head in Ht2 as ->.
    rewrite failed_renames_succeeded.
    pose proof (proj1 (Forall_forall _ _) Hentries) as Hentries'.
    pose proof (proj1 (Forall_forall _ _) Hatt) as Hatt'.
    apply (IH Hentries Hatt _ _ _ _ new2) in Hrun; [done|done| | |].
    + intros f' Hf'. cbn [files emit set_files].
      destruct (Hfiles f') as [data' Hdata']; [by right|]. exists data'.
      rewrite lookup_insert_ne, lookup_delete_ne; [done| |].
      * intros Heq. apply (join_inj D) in Heq; [|done|by apply Hentries'].
        by subst f'.
      * intros Heq. apply (join_inj D) in Heq; [|done|by apply Hentries'].
        subst f'. specialize (Hatt' g Hf'). cbn beta in Hatt'. congruence.
    + intros n Hn. cbn [files emit set_files].
      destruct (decide (path.join [D; g] = path.join [D; n])) as [<-|Hne].
      * by rewrite lookup_insert_eq.
      * rewrite lookup_insert_ne by done.
        destruct (decide (path.join [D; f] = path.join [D; n])) as [<-|Hne'].
        -- by rewrite lookup_delete_eq.
        -- rewrite lookup_delete_ne by done. by apply Hdir.
    + cbn [trace emit draw set_files]. by rewrite <-!app_assoc.
Qed.

(** *** A run over a directory whose entries are all skipped *)

Lemma renameProcess_all_skipped (dirname d : string) (w : World) :
  let D := path.join [dirname; "../"; d] in
  let names := fs.entries D (files w) in
  let w0 := emit (Log StartedRenaming)
              (emit (Fs (readdir D) None) (emit (Fs (stat D) None) w)) in
  files w !! D = Some Directory → fault w (stat D) = None →
  fault w (readdir D) = None →
  Forall (λ f, attempted f = false) names →
  renameProcess_loop D (Z.of_nat (length names)) names 0 w0 = (Return 0, w0) ∧
  renameProcess dirname d w = (Return tt, emit (Log RenamingCompleted) w0).
Proof.
  intros D names w0 Hd Hs Hr Hskip.
  destruct (renameProcess_listing dirname d w Hd Hs Hr)
    as (done & new & w3 & Hloop & _ & ->).
  fold D names w0 in Hloop. rewrite loop_skip_all in Hloop by done.
  injection Hloop as <- <-. split; [by apply loop_skip_all|done].
Qed.

Lemma renameProcess_no_renames (dirname d : string) (w : World) :
  let D := path.join [dirname; "../"; d] in
  (files w !! D = Some Directory → fault w (stat D) = None →
   fault w (readdir D) = None →
   Forall (λ f, attempted f = false) (fs.entries D (files w))) →
  ∃ new w', renameProcess dirname d w = (Return tt, w') ∧
            trace w' = trace w ++ new ∧ renames new = [] ∧ files w' = files w.
Proof.
  intros D Hskip.
  destruct (renameProcess_cases dirname d w)
    as [H|[(Hd & Hs & [e He])|(Hd & Hs & Hr)]].
  - destruct (renameProcess_no_directory dirname d w H) as [r ->]. fold D.
    eexists [_; _], _. split; [done|]. cbn [trace files emit].
    by rewrite <-app_assoc.
  - rewrite (renameProcess_no_listing dirname d w e) by done. fold D.
    eexists [_; _; _; _], _. split; [done|]. cbn [trace files emit].
    by rewrite <-!app_assoc.
  - destruct (renameProcess_all_skipped dirname d w Hd Hs Hr (Hskip Hd Hs Hr))
      as [_ ->]. fold D.
    eexists [_; _; _; _], _. split; [done|]. cbn [trace files emit].
    by rewrite <-!app_assoc.
Qed.

(** After a run of [renameProcess] in which no rename failed, a run that
    lists the directory again finds only entries that it skips. *)
Lemma renameProcess_leaves_skipped (dirname d : string) (w w1 : World) :
  let D := path.join [dirname; "../"; d] in
  renameProcess dirname d w = (Return tt, w1) →
  failed_renames (trace w1) = failed_renames (trace w) →
  files w1 !! D = Some Directory → fault w1 (stat D) = None →
  fault w1 (readdir D) = None →
  Forall (λ f, attempted f = false) (fs.entries D (files w1)).
Proof.
  intros D Hrun Hnofail Hd1 Hs1 Hr1.
  destruct (renameProcess_cases dirname d w)
    as [H|[(Hd & Hs & [e He])|(Hd & Hs & Hr)]]; fold D in H || idtac.
  - destruct (renameProcess_no_directory dirname d w H) as [r Hr].
    rewrite Hr in Hrun. simplify_eq. cbn [files fault emit] in Hd1, Hs1.
    destruct H as [?|[? ?]]; [done|]. fold D in H. congruence.
  - rewrite (renameProcess_no_listing dirname d w e) in Hrun by done.
    simplify_eq. cbn [files fault emit] in Hr1. fold D in He. congruence.
  - destruct (renameProcess_listing dirname d w Hd Hs Hr)
      as (done & new & w3 & Hloop & Ht & Hrun').
    rewrite Hrun in Hrun'. simplify_eq. fold D in Hloop, Ht.
    set (w0 := emit (Log StartedRenaming) _) in *.
    cbn [files trace emit] in *.
    assert (failed_renames (trace w3) = failed_renames (trace w0)) as Hnofail'.
    { rewrite failed_renames_app in Hnofail. cbn in Hnofail.
      rewrite app_nil_r in Hnofail. rewrite Hnofail.
      unfold w0. cbn [trace emit]. by rewrite !failed_renames_app, !app_nil_r. }
    apply Forall_forall. intros n Hn.
    apply (loop_entries_after D _ 0 done w0 w3 Hloop Hnofail') in Hn
      as [[_ ?]|Hn]; [done|].
    eapply planned_not_attempted; [|exact Hn].
    apply Forall_forall. intros f Hf. by apply entries_entry_name in Hf.
Qed.

End RunFacts.

(** *** File names: base name, extension and the names that are skipped *)

Module NameFacts.
Import StrFacts PathFacts JoinFacts FsFacts IdentifierFacts RunFacts.

Lemma no_slash_append (a b : string) :
  Str.no_slash (a +:+ b) = true ↔ Str.no_slash a = true ∧ Str.no_slash b = true.
Proof. unfold Str.no_slash. by rewrite all_append, andb_true_iff. Qed.

Lemma no_dot_append (a b : string) :
  Str.no_dot (a +:+ b) = true ↔ Str.no_dot a = true ∧ Str.no_dot b = true.
Proof. unfold Str.no_dot. by rewrite all_append, andb_true_iff. Qed.

(** A string splits at its last dot in one way only. *)
Lemma last_dot_unique (pre pre' r r' : string) :
  Str.no_dot r = true → Str.no_dot r' = true →
  pre +:+ "." +:+ r = pre' +:+ "." +:+ r' → pre = pre' ∧ r = r'.
Proof.
  intros Hr Hr'. revert pre'.
  induction pre as [|c pre IH]; intros [|c' pre'] Heq;
    rewrite ?append_cons, ?append_nil_l in Heq.
  - by simplify_eq.
  - exfalso. injection Heq as <- ->.
    by apply no_dot_append in Hr as [_ Hr].
  - exfalso. injection Heq as -> <-.
    by apply no_dot_append in Hr' as [_ Hr'].
  - injection Heq as <- Heq. by destruct (IH _ Heq) as [-> ->].
Qed.

(** The base name and the extension of a file name make up the name. *)
Lemma name_extname (f : string) :
  Str.no_slash f = true →
  path.name (path.parse f) +:+ path.extname f = f.
Proof.
  intros Hf. destruct (last_dot f) as [Hd|(pre & r & -> & Hr)].
  - by rewrite name_no_dot, extname_no_dot, append_nil_r.
  - apply no_slash_append in Hf as [Hpre [_ Hrs]%no_slash_append].
    rewrite name_dotted, extname_dotted by done.
    destruct (path.no_extension _); [by rewrite append_nil_r|done].
Qed.

Lemma Identifier_no_dot (u : string) : Identifier u → Str.no_dot u = true.
Proof. by intros (_ & ? & _)%Identifier_plain. Qed.

(** The names that the loop skips, told from the name itself. *)
Lemma attempted_false_iff (f : string) :
  Str.no_slash f = true →
  attempted f = false ↔
  Identifier f ∨
  ∃ id r, Identifier id ∧ Str.no_dot r = true ∧ f = id +:+ "." +:+ r.
Proof.
  intros Hf. unfold attempted. rewrite negb_false_iff, isUUID_Identifier.
  destruct (last_dot f) as [Hd|(pre & r & -> & Hr)].
  - rewrite name_no_dot by done. split; [by left|].
    intros [?|(id & r & _ & _ & ->)]; [done|].
    apply no_dot_append in Hd as [_ Hd]. by rewrite append_cons in Hd.
  - pose proof Hf as Hf'.
    apply no_slash_append in Hf as [Hpre [_ Hrs]%no_slash_append].
    assert (¬ Identifier (pre +:+ "." +:+ r)) as Hnot.
    { intros Hd%Identifier_no_dot.
      apply no_dot_append in Hd as [_ Hd]. by rewrite append_cons in Hd. }
    rewrite name_dotted, no_extension_dotted by done.
    destruct pre as [|c pre'].
    + split; [done|]. intros [?|(id & r' & Hid & Hr' & Heq)]; [done|].
      change ("." +:+ r) with ("" +:+ "." +:+ r) in Heq.
      apply last_dot_unique in Heq as [<- _]; [|done..].
      by apply Identifier_length in Hid.
    + destruct (Str.is_dot c && _ && _) eqn:Hdd.
      * split; [done|]. intros [?|(id & r' & Hid & Hr' & Heq)]; [done|].
        apply last_dot_unique in Heq as [<- _]; [|done..].
        apply Identifier_plain in Hid as (_ & _ & c0 & u' & [= <- <-] & Hc0).
        apply andb_true_iff in Hdd as [[Hdd _]%andb_true_iff _]. congruence.
      * split.
        -- intros Hid. right. by exists (String c pre'), r.
        -- intros [?|(id & r' & Hid & Hr' & Heq)]; [done|].
           by apply last_dot_unique in Heq as [-> _].
Qed.

(** A name with two dots or more: the base name is all that is before
    the last dot, so it is not an identifier. *)
Lemma attempted_inner_dot (pre r : string) :
  fs.entry_name (pre +:+ "." +:+ r) = true →
  Str.no_dot pre = false → Str.no_dot r = true →
  path.name (path.parse (pre +:+ "." +:+ r)) = pre ∧
  path.extname (pre +:+ "." +:+ r) = "." +:+ r ∧
  attempted (pre +:+ "." +:+ r) = true.
Proof.
  intros (_ & Hf & _ & Hup)%entry_name_inv Hpd Hr.
  apply no_slash_append in Hf as [Hpre [_ Hrs]%no_slash_append].
  assert (path.no_extension (path.scan_from 0 (pre +:+ "." +:+ r)) = false) as Hne.
  { rewrite no_extension_dotted by done. destruct pre as [|c pre']; [done|].
    destruct (Str.is_dot c) eqn:Hc; [|done]. apply is_dot_eq in Hc as ->.
    destruct pre' as [|c' pre'']; [|done]. destruct r; [done|done]. }
  assert (path.name (path.parse (pre +:+ "." +:+ r)) = pre) as Hname.
  { by rewrite name_dotted, Hne. }
  split; [done|]. split; [by rewrite extname_dotted, Hne|].
  unfold attempted. rewrite Hname. apply negb_true_iff, isUUID_false.
  intros Hid%Identifier_no_dot. congruence.
Qed.

Lemma pretty_N_char_not_dash (x : N) : not_dash (pretty_N_char x).
Proof. unfold pretty_N_char. by repeat case_match. Qed.

Lemma pretty_N_go_not_dash (x : N) :
  ∀ s, Forall not_dash (Str.to_list s) →
       Forall not_dash (Str.to_list (pretty_N_go x s)).
Proof.
  induction x as [x IH] using (well_founded_induction N.lt_wf_0). intros s Hs.
  destruct (decide (x = 0%N)) as [->|Hx].
  - by rewrite pretty_N_go_0.
  - rewrite pretty_N_go_step by lia. apply IH; [apply N.div_lt; lia|].
    cbn. constructor; [apply pretty_N_char_not_dash|done].
Qed.

Lemma pretty_not_dash (i : Z) : 0 ≤ i → Forall not_dash (Str.to_list (pretty i)).
Proof.
  intros Hi. destruct i as [|p|p]; [|clear Hi|lia].
  - by repeat constructor.
  - change (pretty (Z.pos p)) with (pretty_N_go (N.pos p) "").
    apply pretty_N_go_not_dash. constructor.
Qed.

(** An identifier has a dash; a decimal number has none. *)
Lemma pretty_not_Identifier (i : Z) : 0 ≤ i → ¬ Identifier (pretty i).
Proof.
  intros Hi (_ & a & b & c & d & e & Heq & _).
  pose proof (pretty_not_dash i Hi) as Hall. rewrite Heq in Hall.
  rewrite to_list_append in Hall. apply Forall_app in Hall as [_ Hall].
  rewrite append_cons in Hall. cbn in Hall. by apply Forall_cons in Hall as [? _].
Qed.

(** The files that [createEmptyFiles] makes with an extension [.e] are
    files that [renameProcess] does not skip, and their extension is
    [.e]. *)
Lemma numbered_attempted (i : Z) (e : string) :
  0 ≤ i → Str.no_slash e = true → Str.no_dot e = true →
  attempted (pretty i +:+ "." +:+ e) = true ∧
  path.extname (pretty i +:+ "." +:+ e) = "." +:+ e.
Proof.
  intros Hi Hes Hed. destruct (pretty_nonneg i Hi) as [Hne Hall].
  apply plain_Forall in Hall as [Hs Hd].
  assert (path.no_extension (path.scan_from 0 (pretty i +:+ "." +:+ e)) = false) as Hno.
  { rewrite no_extension_dotted by done.
    destruct (pretty i) as [|c s]; [done|].
    unfold Str.no_dot in Hd. cbn in Hd. apply andb_true_iff in Hd as [Hd _].
    by destruct (Str.is_dot c). }
  split; [|by rewrite extname_dotted, Hno].
  unfold attempted. rewrite name_dotted, Hno by done.
  apply negb_true_iff, isUUID_false. by apply pretty_not_Identifier.
Qed.

End NameFacts.

(** *** The loop of [renameProcess]: its reports and the files it moves *)

Module LoopFacts.
Import StrFacts PathFacts JoinFacts FsFacts IdentifierFacts RunFacts.

(** The loop always runs to its end, and what it adds to the trace is the
    reports of the planned renames, in order. *)
Lemma loop_reports_run (D : string) (total : Z) (fileNames : list string) :
  ∀ (done : Z) (w : World), ∃ rs done' w',
    renameProcess_loop D total fileNames done w = (Return done', w') ∧
    rs.*1 = planned (entropy w) (drawn w) fileNames ∧
    trace w' = trace w ++ loop_reports D total rs done ∧
    done' = done + Z.of_nat (length (succeeded rs)) ∧
    drawn w' = (drawn w + length rs)%nat.
Proof.
  induction fileNames as [|f rest IH]; intros done w.
  - exists [], done, w. cbn. rewrite app_nil_r. repeat split; lia.
  - rewrite loop_cons. cbn [planned]. fold (attempted f).
    destruct (attempted f); cbn zeta.
    + set (g := nth_uuid (entropy w) (drawn w) +:+ path.extname f).
      destruct (fs.rename_result _ _ (draw w)) as [e|[[] m]].
      * edestruct IH as (rs & done' & w' & -> & Hrs & Ht & Hd & Hdr).
        cbn [trace entropy drawn emit draw] in Hrs, Ht, Hdr.
        exists ((f, g, Some e) :: rs), done', w'.
        split; [done|]. split; [by rewrite fmap_cons, Hrs|].
        split; [by rewrite Ht, <-!app_assoc|].
        split; [exact Hd|]. cbn [length]. lia.
      * edestruct IH as (rs & done' & w' & -> & Hrs & Ht & Hd & Hdr).
        cbn [trace entropy drawn emit draw set_files] in Hrs, Ht, Hdr.
        exists ((f, g, None) :: rs), done', w'.
        split; [done|]. split; [by rewrite fmap_cons, Hrs|].
        split; [by rewrite Ht, <-!app_assoc|].
        split; [|cbn [length]; lia].
        rewrite Hd. unfold succeeded. cbn. lia.
    + apply IH.
Qed.

(** The progress lines carry [total] and count on from the counter. *)
Lemma loop_reports_progress (D : string) (total : Z)
    (rs : list (string * string * option error)) :
  ∀ done f k t,
    Log (Processing f k t) ∈ loop_reports D total rs done →
    t = total ∧ done < k ≤ done + Z.of_nat (length (succeeded rs)).
Proof.
  induction rs as [|[[f0 g0] [e|]] rs IH]; intros done f k t Hin.
  - by apply elem_of_nil in Hin.
  - cbn in Hin. do 2 (apply elem_of_cons in Hin as [Hin|Hin]; [done|]).
    apply IH in Hin as [-> ?]. split; [done|]. unfold succeeded in *. cbn. lia.
  - cbn in Hin. apply elem_of_cons in Hin as [Hin|Hin]; [done|].
    apply elem_of_cons in Hin as [Hin|Hin].
    + simplify_eq. split; [done|]. unfold succeeded. cbn. lia.
    + apply IH in Hin as [-> ?]. split; [done|]. unfold succeeded in *. cbn.
      lia.
Qed.

Lemma planned_length (entropy : nat → Z) (fileNames : list string) (i : nat) :
  length (planned entropy i fileNames) = length (List.filter attempted fileNames).
Proof. by rewrite <-(length_fmap fst), planned_fst. Qed.

Lemma filter_split_length {A} (P : A → bool) (l : list A) :
  length l = (length (List.filter P l) + length (List.filter (λ x, negb (P x)) l))%nat.
Proof. induction l as [|x l IH]; [done|]. cbn. destruct (P x); cbn; lia. Qed.

Lemma renames_loop_reports (D : string) (total : Z)
    (rs : list (string * string * option error)) :
  ∀ done,
    renames (loop_reports D total rs done) =
    (λ r, (path.join [D; r.1.1], path.join [D; r.1.2], r.2)) <$> rs.
Proof.
  induction rs as [|[[f g] [e|]] rs IH]; intros k; [reflexivity| |];
    cbn; by rewrite IH.
Qed.

Lemma failed_length (rs : list (string * string * option error)) (D : string) :
  length (List.filter (λ r : string * string * option error, bool_decide (is_Some r.2))
            ((λ r, (path.join [D; r.1.1], path.join [D; r.1.2], r.2)) <$> rs))
  = (length rs - length (succeeded rs))%nat ∧
  (length (succeeded rs) ≤ length rs)%nat.
Proof.
  unfold succeeded. induction rs as [|[[f g] [e|]] rs [IH1 IH2]]; cbn; [done| |].
  - rewrite IH1. split; lia.
  - rewrite IH1. split; lia.
Qed.

(** The loop when every rename is refused. *)
Lemma loop_all_fail (D : string) (total : Z) (fileNames : list string) :
  ∀ done w,
    (∀ a b, is_Some (fault w (rename a b))) →
    ∃ rs w',
      renameProcess_loop D total fileNames done w = (Return done, w') ∧
      rs.*1 = planned (entropy w) (drawn w) fileNames ∧
      Forall (λ r, is_Some r.2) rs ∧
      trace w' = trace w ++ loop_reports D total rs done ∧
      files w' = files w.
Proof.
  induction fileNames as [|f rest IH]; intros done w Hfault.
  - exists [], w. cbn. by rewrite app_nil_r.
  - rewrite loop_cons. cbn [planned]. fold (attempted f).
    destruct (attempted f); cbn zeta; [|by apply IH].
    set (g := nth_uuid (entropy w) (drawn w) +:+ path.extname f).
    destruct (Hfault (path.join [D; f]) (path.join [D; g])) as [e He].
    unfold fs.rename_result. cbn [fault draw]. rewrite He.
    edestruct IH as (rs & w' & -> & Hrs & Hall & Ht & Hfiles).
    { cbn [fault emit draw]. exact Hfault. }
    cbn [trace files entropy drawn emit draw] in Hrs, Ht, Hfiles.
    exists ((f, g, Some e) :: rs), w'. split; [done|].
    split; [by rewrite fmap_cons, Hrs|]. split; [by constructor|].
    split; [|done]. by rewrite Ht, <-!app_assoc.
Qed.

(** The loop moves nodes inside the directory and touches nothing else. *)
Lemma loop_frame (D : string) (total : Z) (fileNames : list string) :
  Forall (λ f, fs.entry_name f = true) fileNames →
  ∀ done w done' w',
    renameProcess_loop D total fileNames done w = (Return done', w') →
    (∀ p, ¬ inside D p → files w' !! p = files w !! p) ∧
    (∀ p nd, inside D p → files w' !! p = Some nd →
       ∃ q, inside D q ∧ files w !! q = Some nd) ∧
    (size (files w') ≤ size (files w))%nat.
Proof.
  induction 1 as [|f rest Hf _ IH]; intros done w done' w' Hrun.
  - assert (w' = w) as -> by (by inversion Hrun).
    split; [done|]. split; [|done]. intros p nd Hp Hnd. by exists p.
  - rewrite loop_cons in Hrun.
    destruct (attempted f) eqn:Hatt; cbn zeta in Hrun; [|by eapply IH].
    set (g := nth_uuid (entropy w) (drawn w) +:+ path.extname f) in *.
    destruct (new_name (nth_uuid (entropy w) (drawn w)) f
                (Identifier_nth_uuid _ _) Hf) as (Hg & _).
    fold g in Hg.
    destruct (fs.rename_result _ _ (draw w)) as [e|[[] m]] eqn:Hres.
    + destruct (IH _ _ _ _ Hrun) as (HA & HB & HC).
      cbn [files emit draw] in HA, HB, HC. done.
    + apply rename_result_inr in Hres as (nd0 & Hnd0 & ->).
      cbn [files draw] in Hnd0.
      destruct (IH _ _ _ _ Hrun) as (HA & HB & HC).
      cbn [files emit draw set_files] in HA, HB, HC.
      split; [|split].
      * intros p Hp. rewrite HA by done.
        rewrite lookup_insert_ne, lookup_delete_ne; [done| |].
        -- intros <-. apply Hp. by exists f.
        -- intros <-. apply Hp. by exists g.
      * intros p nd Hp Hnd. destruct (HB p nd Hp Hnd) as (q & Hq & Hqnd).
        destruct (decide (path.join [D; g] = q)) as [<-|Hne].
        -- rewrite lookup_insert_eq in Hqnd. simplify_eq.
           exists (path.join [D; f]). split; [by exists f|done].
        -- rewrite lookup_insert_ne in Hqnd by done.
           exists q. split; [done|].
           destruct (decide (path.join [D; f] = q)) as [<-|Hne'].
           ++ by rewrite lookup_delete_eq in Hqnd.
           ++ by rewrite lookup_delete_ne in Hqnd.
      * etrans; [exact HC|].
        destruct (delete (path.join [D; f]) (files w) !! path.join [D; g]) eqn:Hlk.
        -- rewrite map_size_insert_Some by done.
           rewrite map_size_delete, Hnd0. lia.
        -- rewrite map_size_insert_None by done.
           rewrite map_size_delete, Hnd0.
           assert (size (files w) ≠ 0)%nat; [|lia].
           intros Hz%map_size_empty_inv. by rewrite Hz in Hnd0.
Qed.

(** An entry that the loop does not skip and that is still there after the
    loop is one whose rename failed. *)
Lemma loop_failed_remain (D : string) (total : Z) (fileNames : list string) :
  Forall (λ f, fs.entry_name f = true) fileNames →
  NoDup fileNames →
  ∀ done w done' w' new n,
    renameProcess_loop D total fileNames done w = (Return done', w') →
    trace w' = trace w ++ new →
    n ∈ fileNames → attempted n = true → n ∈ fs.entries D (files w') →
    ∃ b e, (path.join [D; n], b, Some e) ∈ renames new.
Proof.
  induction 1 as [|f rest Hf Hrest IH]; intros Hnd done w done' w' new n Hrun Ht Hn Hatt Hin.
  - by apply elem_of_nil in Hn.
  - apply NoDup_cons in Hnd as [Hfrest Hnd].
    rewrite loop_cons in Hrun.
    destruct (attempted f) eqn:Hattf; cbn zeta in Hrun.
    + set (g := nth_uuid (entropy w) (drawn w) +:+ path.extname f) in *.
      destruct (new_name (nth_uuid (entropy w) (drawn w)) f
                  (Identifier_nth_uuid _ _) Hf) as (Hg & _ & _ & Hgatt).
      fold g in Hg, Hgatt.
      destruct (fs.rename_result _ _ (draw w)) as [e|[[] m]] eqn:Hres.
      * match type of Hrun with
        | renameProcess_loop _ _ _ ?d ?w0 = _ =>
            destruct (loop_run D total rest d w0) as (d2 & new2 & w2 & Hrun2 & Ht2 & _)
        end.
        rewrite Hrun in Hrun2. simplify_eq.
        pose proof Ht2 as Ht3.
        cbn [trace emit draw] in Ht2. rewrite <-!app_assoc in Ht2. cbn [app] in Ht2.
        rewrite Ht in Ht2. apply app_inv_head in Ht2 as ->.
        apply elem_of_cons in Hn as [->|Hn].
        -- exists (path.join [D; g]), e. cbn. left.
        -- destruct (IH Hnd _ _ _ _ new2 n Hrun Ht3 Hn Hatt Hin) as (b & e' & Hbe).
           exists b, e'. cbn. by right.
      * apply rename_result_inr in Hres as (nd0 & Hnd0 & ->).
        cbn [files draw] in Hnd0.
        match type of Hrun with
        | renameProcess_loop _ _ _ ?d ?w0 = _ =>
            destruct (loop_run D total rest d w0) as (d2 & new2 & w2 & Hrun2 & Ht2 & _)
        end.
        rewrite Hrun in Hrun2. simplify_eq.
        pose proof Ht2 as Ht3.
        cbn [trace emit draw set_files] in Ht2.
        rewrite <-!app_assoc in Ht2. cbn [app] in Ht2.
        rewrite Ht in Ht2. apply app_inv_head in Ht2 as ->.
        apply elem_of_cons in Hn as [->|Hn].
        -- exfalso.
           destruct (loop_files D total rest Hrest _ _ _ _ Hrun) as (_ & HB & _).
           cbn [files entropy drawn emit draw set_files] in HB.
           destruct (HB _ Hin) as [Hin'|Hin'].
           ++ apply (entries_rename D f g nd0 _ f Hf Hg) in Hin' as [Heq|[_ ?]];
                [congruence|done].
           ++ apply planned_not_attempted in Hin'; [congruence|done].
        -- destruct (IH Hnd _ _ _ _ new2 n Hrun Ht3 Hn Hatt Hin) as (b & e' & Hbe).
           exists b, e'. cbn. by right.
    + apply elem_of_cons in Hn as [->|Hn]; [congruence|]. by eapply IH.
Qed.

(** A path that is neither the old nor the new path of a planned rename
    is what it was after the loop. *)
Lemma loop_untouched (D : string) (total : Z) (fileNames : list string) :
  ∀ done w done' w' p,
    renameProcess_loop D total fileNames done w = (Return done', w') →
    (∀ f g, (f, g) ∈ planned (entropy w) (drawn w) fileNames →
            p ≠ path.join [D; f] ∧ p ≠ path.join [D; g]) →
    files w' !! p = files w !! p.
Proof.
  induction fileNames as [|f rest IH]; intros done w done' w' p Hrun Hp.
  - by inversion Hrun.
  - rewrite loop_cons in Hrun. cbn [planned] in Hp. fold (attempted f) in Hp.
    destruct (attempted f); cbn zeta in Hrun; [|by eapply IH].
    set (g := nth_uuid (entropy w) (drawn w) +:+ path.extname f) in *.
    destruct (Hp f g) as [Hpf Hpg]; [left|].
    destruct (fs.rename_result _ _ (draw w)) as [e|[[] m]] eqn:Hres.
    + rewrite (IH _ _ _ _ p Hrun); [done|].
      intros f' g' Hin. apply Hp. by right.
    + apply rename_result_inr in Hres as (nd0 & Hnd0 & ->).
      rewrite (IH _ _ _ _ p Hrun).
      * cbn [files emit set_files draw].
        by rewrite lookup_insert_ne, lookup_delete_ne.
      * intros f' g' Hin. apply Hp. by right.
Qed.

(** When no rename fails and the new names are all different, what was
    at the old path of each rename is at its new path after the loop. *)
Lemma loop_contents (D : string) (total : Z) (fileNames : list string) :
  Forall (λ f, fs.entry_name f = true) fileNames →
  NoDup fileNames →
  ∀ done w done' w',
    NoDup (planned (entropy w) (drawn w) fileNames).*2 →
    renameProcess_loop D total fileNames done w = (Return done', w') →
    failed_renames (trace w') = failed_renames (trace w) →
    ∀ f g, (f, g) ∈ planned (entropy w) (drawn w) fileNames →
      is_Some (files w !! path.join [D; f]) ∧
      files w' !! path.join [D; g] = files w !! path.join [D; f] ∧
      files w' !! path.join [D; f] = None.
Proof.
  induction 1 as [|f0 rest Hf0 Hrest IH];
    intros Hnd done w done' w' Hnew Hrun Hnofail f g Hfg.
  - by apply elem_of_nil in Hfg.
  - apply NoDup_cons in Hnd as [Hf0rest Hnd].
    rewrite loop_cons in Hrun. cbn [planned] in Hfg, Hnew.
    fold (attempted f0) in Hfg, Hnew.
    destruct (attempted f0) eqn:Hatt0; cbn zeta in Hrun; [|by eapply IH].
    set (g0 := nth_uuid (entropy w) (drawn w) +:+ path.extname f0) in *.
    destruct (new_name (nth_uuid (entropy w) (drawn w)) f0
                (Identifier_nth_uuid _ _) Hf0) as (Hg0 & _ & _ & Hg0att).
    fold g0 in Hg0, Hg0att.
    rewrite fmap_cons in Hnew. apply NoDup_cons in Hnew as [Hg0new Hnew].
    match type of Hrun with
    | context [fs.rename_result ?a ?b ?w0] =>
        destruct (fs.rename_result a b w0) as [e|[[] m]] eqn:Hres
    end.
    + exfalso.
      match type of Hrun with
      | renameProcess_loop _ _ _ ?d ?w0 = _ =>
          destruct (loop_run D total rest d w0) as (d2 & new2 & w2 & Hrun2 & Ht2 & _)
      end.
      rewrite Hrun in Hrun2. simplify_eq. cbn [trace emit draw] in Ht2.
      rewrite <-!app_assoc in Ht2. cbn [app] in Ht2.
      rewrite Ht2 in Hnofail. apply failed_renames_grow in Hnofail.
      by rewrite failed_renames_failed in Hnofail.
    + apply rename_result_inr in Hres as (nd0 & Hnd0 & ->).
      cbn [files draw] in Hnd0.
      assert (∀ f' g', (f', g') ∈ planned (entropy w) (S (drawn w)) rest →
                f' ∈ rest ∧ attempted f' = true ∧ fs.entry_name f' = true ∧
                fs.entry_name g' = true ∧ attempted g' = false) as Hplan.
      { intros f' g' Hin. pose proof Hin as Hin'.
        apply planned_spec in Hin as (Hf' & Hatt' & j & _ & ->).
        rewrite Forall_forall in Hrest. specialize (Hrest _ Hf').
        destruct (new_name (nth_uuid (entropy w) j) f'
                    (Identifier_nth_uuid _ _) Hrest) as (? & _ & _ & ?).
        done. }
      assert (failed_renames (trace w') =
              failed_renames (trace (emit (Log (Processing f0 (done + 1) total))
                (emit (Fs (rename (path.join [D; f0]) (path.join [D; g0])) None)
                   (set_files (<[path.join [D; g0] := nd0]>
                                 (delete (path.join [D; f0]) (files (draw w))))
                      (draw w)))))) as Hnofail'.
      { match type of Hrun with
        | renameProcess_loop _ _ _ ?d ?w0 = _ =>
            destruct (loop_run D total rest d w0) as (d2 & new2 & w2 & Hrun2 & Ht2 & _)
        end.
        rewrite Hrun in Hrun2. simplify_eq. rewrite Ht2, failed_renames_app.
        cbn [trace emit draw set_files] in Ht2 |- *.
        rewrite <-!app_assoc in Ht2. cbn [app] in Ht2.
        rewrite Ht2 in Hnofail. apply failed_renames_grow in Hnofail.
        rewrite failed_renames_succeeded in Hnofail. by rewrite Hnofail, app_nil_r. }
      apply elem_of_cons in Hfg as [[= -> ->]|Hfg].
      * split; [by rewrite Hnd0|].
        rewrite !(loop_untouched D total rest _ _ _ _ _ Hrun);
          cbn [files entropy drawn emit set_files draw].
        -- rewrite lookup_insert_eq, Hnd0. split; [done|].
           rewrite lookup_insert_ne, lookup_delete_eq; [done|].
           intros Heq%(join_inj D); [congruence|done..].
        -- intros f' g' Hin. destruct (Hplan f' g' Hin) as (Hf' & Hatt' & He' & Hg' & Hgatt').
           split; intros Heq%(join_inj D); try done; congruence.
        -- intros f' g' Hin. destruct (Hplan f' g' Hin) as (Hf' & Hatt' & He' & Hg' & Hgatt').
           split; intros Heq%(join_inj D); try done; [congruence|].
           apply Hg0new. rewrite Heq. apply list_elem_of_fmap. by exists (f', g').
      * destruct (Hplan f g Hfg) as (Hf & Hattf & Hef & Hg & Hgatt).
        match type of Hrun with
        | renameProcess_loop _ _ _ ?d ?w0 = _ =>
            destruct (IH Hnd d w0 done' w' Hnew Hrun Hnofail' f g Hfg)
              as (Hsome & Hcont & Hgone)
        end.
        cbn [files emit set_files draw] in Hsome, Hcont.
        assert (path.join [D; g0] ≠ path.join [D; f]) as Hne1.
        { intros Heq%(join_inj D); [congruence|done..]. }
        assert (path.join [D; f0] ≠ path.join [D; f]) as Hne2.
        { intros Heq%(join_inj D); [congruence|done..]. }
        rewrite lookup_insert_ne, lookup_delete_ne in Hsome, Hcont by done.
        done.
Qed.

End LoopFacts.

(** *** The loop of [createEmptyFiles] in any world *)

Module CreateFacts.
Import StrFacts PathFacts JoinFacts FsFacts IdentifierFacts RunFacts.

Lemma entries_nil (D : string) (m : gmap string node) (n : string) :
  fs.entries D m = [] → fs.entry_name n = true → m !! path.join [D; n] = None.
Proof.
  intros Hnil Hn. destruct (m !! path.join [D; n]) as [nd|] eqn:Hlk; [|done].
  assert (n ∈ fs.entries D m) as Hin by (apply entries_spec; by rewrite Hlk).
  rewrite Hnil in Hin. by apply elem_of_nil in Hin.
Qed.

Lemma creation_event_mono (D ext : string) (l1 l2 : list Z) (ev : event) :
  l1 ⊆ l2 → creation_event D ext l1 ev → creation_event D ext l2 ev.
Proof.
  intros Hsub. destruct ev as [[]|[]|]; cbn; try done.
  - intros [-> (i & Hi & ->)]. split; [done|]. exists i. split; [by apply Hsub|done].
  - intros (i & Hi & ->). exists i. split; [by apply Hsub|done].
Qed.

(** One iteration of the loop of [createEmptyFiles]. *)
Lemma createEmptyFiles_loop_cons (D ext : string) (i : Z) (rest : list Z) (w : World) :
  let fileName := pretty i +:+ ext in
  let p := path.join [D; fileName] in
  createEmptyFiles_loop D ext (i :: rest) w =
  match fs.writeFile_result p " " w with
  | inr (_, m) =>
      createEmptyFiles_loop D ext rest
        (emit (Log (CreatedEmptyFile fileName))
           (emit (Fs (writeFile p " ") None) (set_files m w)))
  | inl e => (Throw e, emit (Fs (writeFile p " ") (Some e)) w)
  end.
Proof.
  cbn [createEmptyFiles_loop]. unfold fs.writeFile, fs.perform. unfold_M.
  by destruct (fs.writeFile_result _ _ w) as [e|[[] m]].
Qed.

Lemma writeFile_result_inr (p data : string) (w : World) (m : gmap string node) :
  fs.writeFile_result p data w = inr (tt, m) → m = <[p := File data]> (files w).
Proof.
  unfold fs.writeFile_result. destruct (fault w (writeFile p data)); [done|].
  destruct (files w !! p) as [[]|]; by intros [= <-].
Qed.

(** The loop of [createEmptyFiles] in any world: it stops at the first
    write that fails, and what it did before is writes of a space to
    numbered files. *)
Lemma createEmptyFiles_loop_any (D ext : string) (indices : list Z) :
  ∀ w, ∃ r new w',
    createEmptyFiles_loop D ext indices w = (r, w') ∧
    trace w' = trace w ++ new ∧
    Forall (creation_event D ext indices) new ∧
    (length (writes new) ≤ length indices)%nat ∧
    (∀ e, r = Throw e →
       ∃ front file, new = front ++ [Fs (writeFile file " ") (Some e)]) ∧
    (∀ q, files w' !! q = files w !! q ∨
          files w' !! q = Some (File " ") ∧
          ∃ i, i ∈ indices ∧ q = path.join [D; pretty i +:+ ext]).
Proof.
  induction indices as [|i rest IH]; intros w.
  - exists (Return tt), [], w. cbn. rewrite app_nil_r.
    split; [done|]. split; [done|]. split; [done|]. split; [done|].
    split; [done|]. by left.
  - rewrite createEmptyFiles_loop_cons. cbn zeta.
    set (p := path.join [D; pretty i +:+ ext]).
    destruct (fs.writeFile_result p " " w) as [e|[[] m]] eqn:Hres.
    + exists (Throw e), [Fs (writeFile p " ") (Some e)], (emit (Fs (writeFile p " ") (Some e)) w).
      split; [done|]. split; [done|]. split.
      { constructor; [|done]. cbn. split; [done|]. exists i. split; [left|done]. }
      split; [cbn; lia|]. split.
      { intros e' [= <-]. by exists [], p. }
      intros q. by left.
    + apply writeFile_result_inr in Hres as ->.
      edestruct IH as (r & new & w' & -> & Ht & Hev & Hlen & Hthrow & Hfiles).
      cbn [trace files emit set_files] in Ht, Hfiles.
      exists r, ([Fs (writeFile p " ") None; Log (CreatedEmptyFile (pretty i +:+ ext))] ++ new), w'.
      split; [done|]. split; [by rewrite Ht, <-!app_assoc|]. split.
      { constructor; [|constructor].
        - cbn. split; [done|]. exists i. split; [left|done].
        - cbn. exists i. split; [left|done].
        - eapply Forall_impl; [exact Hev|]. intros ev.
          apply creation_event_mono. set_solver. }
      split; [rewrite writes_app; cbn; lia|]. split.
      { intros e Hr. destruct (Hthrow e Hr) as (front & file & ->).
        eexists (_ :: _ :: front), file. done. }
      intros q. destruct (Hfiles q) as [Hq|[Hq (j & Hj & ->)]].
      * destruct (decide (q = p)) as [->|Hne].
        -- right. rewrite Hq, lookup_insert_eq. split; [done|].
           exists i. split; [left|done].
        -- left. by rewrite Hq, lookup_insert_ne.
      * right. split; [done|]. exists j. split; [by right|done].
Qed.



End CreateFacts.

(** ** The definitions on concrete inputs *)

Module Examples.

(** The values that Node's documentation gives for [path.extname]. *)
Example extname_values :
  map path.extname
    ["index.html"; "index.coffee.md"; "index."; "index"; ".index"; ".index.md"]
  = [".html"; ".md"; "."; ""; ""; ".md"].
Proof. reflexivity. Qed.

Example parse_value :
  path.parse "/home/user/dir/file.txt"
  = {| path.root := "/"; path.dir := "/home/user/dir";
       path.base := "file.txt"; path.ext := ".txt"; path.name := "file" |}.
Proof. reflexivity. Qed.

Example join_values :
  path.join ["/foo"; "bar"; "baz/asdf"; "quux"; ".."] = "/foo/bar/baz/asdf" ∧
  path.join ["/srv/app/dist"; "../"; "files"] = "/srv/app/files" ∧
  path.join ["/srv/app/files"; "0.txt"] = "/srv/app/files/0.txt" ∧
  path.join [""; ""] = ".".
Proof. repeat split; reflexivity. Qed.

Example isUUID_values :
  map isUUID
    ["a1b2c3d4-e5f6-47a8-89b0-c1d2e3f4a5b6";
     "A1B2C3D4-E5F6-07A8-F9B0-C1D2E3F4A5B6";
     "a1b2c3d4e5f647a889b0c1d2e3f4a5b6";
     "a1b2c3d4-e5f6-47a8-89b0-c1d2e3f4a5bg";
     "a1b2c3d4-e5f6-47a8-89b0-c1d2e3f4a5b6 ";
     "photo"; ""]
  = [true; true; false; false; false; false; false].
Proof. reflexivity. Qed.

(** A run over [scenario_world]: the listing is in the order of the keys of
    the map, the two files with other names are renamed, and the third is
    passed over without any observation. *)
Example scenario_run :
  ∃ w,
    renameProcess "/srv/app/dist" "files" scenario_world = (Return tt, w) ∧
    trace w =
      [ Fs (stat "/srv/app/files") None;
        Fs (readdir "/srv/app/files") None;
        Log StartedRenaming;
        Fs (rename "/srv/app/files/notes.txt"
              "/srv/app/files/00000000-0000-4000-8000-00000000004d.txt") None;
        Log (Processing "notes.txt" 1 3);
        Fs (rename "/srv/app/files/photo.jpg"
              "/srv/app/files/00000000-0000-4000-8000-0000000f4290.jpg") None;
        Log (Processing "photo.jpg" 2 3);
        Log RenamingCompleted ] ∧
    fs.entries "/srv/app/files" (files w) =
      [ "a1b2c3d4-e5f6-47a8-89b0-c1d2e3f4a5b6.png";
        "00000000-0000-4000-8000-0000000f4290.jpg";
        "00000000-0000-4000-8000-00000000004d.txt" ].
Proof. eexists. split; [vm_compute; reflexivity|]. split; vm_compute; reflexivity. Qed.

(** [createEmptyFiles] of three files in an empty directory. *)
Example createEmptyFiles_run :
  let w0 :=
    {| files := {["/srv/app/files" := Directory]};
       fault := λ _, None; entropy := sample_entropy;
       drawn := 0; trace := [] |} in
  ∃ w,
    createEmptyFiles "/srv/app/files" 3 ".txt" w0 = (Return tt, w) ∧
    map_to_list (files w) ≡ₚ
      [ ("/srv/app/files", Directory);
        ("/srv/app/files/0.txt", File " ");
        ("/srv/app/files/1.txt", File " ");
        ("/srv/app/files/2.txt", File " ") ].
Proof.
  eexists. split; [vm_compute; reflexivity|].
  refine (bool_decide_unpack _ _). vm_compute. exact I.
Qed.

End Examples.

(** * Properties of the program *)

Import StrFacts PathFacts JoinFacts FsFacts IdentifierFacts RunFacts.

(** C1. In a directory that can be listed and whose file names all have a
    base name that is not an identifier, [renameProcess] runs the loop over
    all of them and returns. No rename of the run fails when no failure is
    injected into a rename and the entries are all files. When no rename
    of the run fails: every file gets one rename, in listing order, to a
    name made of an identifier and of the extension that [path.extname]
    gives for its old name, and that name has this same extension; a name
    without dot, such as [report], gets the identifier alone; the counter
    [done] ends at the number of files; and the entries of the directory
    are then exactly the new names. *)
Theorem renameProcess_renames_every_file (dirname d : string) (w : World) :
  let D := path.join [dirname; "../"; d] in
  let names := fs.entries D (files w) in
  let plan := planned (entropy w) (drawn w) names in
  let w0 := emit (Log StartedRenaming)
              (emit (Fs (readdir D) None) (emit (Fs (stat D) None) w)) in
  files w !! D = Some Directory → fault w (stat D) = None →
  fault w (readdir D) = None →
  Forall (λ f, isUUID (path.name (path.parse f)) = false) names →
  ∃ done new w3,
    renameProcess_loop D (Z.of_nat (length names)) names 0 w0 = (Return done, w3) ∧
    trace w3 = trace w0 ++ new ∧
    renameProcess dirname d w = (Return tt, emit (Log RenamingCompleted) w3) ∧
    ((∀ a b, fault w (rename a b) = None) →
     Forall (λ f, files w !! path.join [D; f] ≠ Some Directory) names →
     failed_renames new = []) ∧
    (failed_renames new = [] →
       plan.*1 = names ∧
       renames new =
         (λ fg, (path.join [D; fg.1], path.join [D; fg.2], None)) <$> plan ∧
       (∀ f g, (f, g) ∈ plan →
          ∃ id, Identifier id ∧ g = id +:+ path.extname f ∧
                path.extname g = path.extname f ∧
                (Str.no_dot f = true → g = id)) ∧
       done = Z.of_nat (length names) ∧
       (∀ n, n ∈ fs.entries D (files w3) ↔ n ∈ plan.*2)).
Proof.
  intros D names plan w0 Hd Hs Hr Hnames.
  destruct (renameProcess_listing dirname d w Hd Hs Hr)
    as (done & new & w3 & Hloop & Ht & Hrun).
  fold D in Hloop, Ht, Hrun. fold names in Hloop. fold w0 in Hloop, Ht.
  exists done, new, w3. split; [done|]. split; [done|]. split; [done|].
  assert (Forall (λ f, attempted f = true) names) as Hatt.
  { eapply Forall_impl; [exact Hnames|]. intros f Hf. unfold attempted. by rewrite Hf. }
  assert (Forall (λ f, fs.entry_name f = true) names) as Hentries.
  { apply Forall_forall. intros f Hf. by apply entries_entry_name in Hf. }
  split.
  { intros Hfault Hfiles.
    apply (loop_succeeds D (Z.of_nat (length names)) names
             (entries_NoDup D (files w)) Hentries Hatt
             0 w0 done w3 new); [done| | |done|done].
    - intros f Hf. rewrite Forall_forall in Hfiles. specialize (Hfiles f Hf).
      apply entries_spec in Hf as [_ [nd Hnd]]. unfold w0. cbn [files emit].
      rewrite Hnd in Hfiles |- *. destruct nd as [data|]; [by exists data|done].
    - intros n Hn Hdir. unfold w0 in Hdir. cbn [files emit] in Hdir.
      rewrite Forall_forall in Hfiles. apply (Hfiles n); [|done].
      apply entries_spec. split; [done|]. by rewrite Hdir. }
  intros Hnofail.
  destruct (loop_run_of _ _ _ _ _ _ _ _ Hloop Ht) as (_ & _ & Hr1 & Hdone & _).
  change (planned (entropy w0) (drawn w0) names) with plan in Hr1.
  destruct (no_failed_renames new Hnofail) as [Hall Hsucc].
  assert (plan.*1 = names) as Hplan by by apply planned_all_attempted.
  split; [done|]. split; [|split; [|split]].
  - rewrite Hall, Hr1, <-list_fmap_compose. done.
  - intros f g Hfg. apply planned_spec in Hfg as (Hf & _ & j & _ & ->).
    rewrite Forall_forall in Hentries. specialize (Hentries f Hf).
    pose proof (Identifier_nth_uuid (entropy w) j) as Hid.
    destruct (new_name _ f Hid Hentries) as (_ & _ & Hext & _).
    exists (nth_uuid (entropy w) j). split; [done|]. split; [done|]. split; [done|].
    intros Hnd. apply entry_name_inv in Hentries as (_ & Hns & _).
    by rewrite extname_no_dot, append_nil_r.
  - rewrite Hdone, Hsucc.
    rewrite <-(length_fmap fst (renames new)), Hr1, length_fmap.
    rewrite <-(length_fmap fst plan), Hplan. lia.
  - intros n.
    rewrite (loop_entries_after D _ 0 done w0 w3 Hloop)
      by (rewrite Ht; by apply failed_renames_prefix).
    change (planned (entropy w0) (drawn w0) (fs.entries D (files w0))) with plan.
    change (fs.entries D (files w0)) with names.
    split; [|by right]. intros [[Hn Hno]|?]; [|done].
    rewrite Forall_forall in Hatt. specialize (Hatt n Hn). congruence.
Qed.

Lemma renameProcess_renames_every_file_witness :
  ∃ done new w3,
    renameProcess "/srv/app/dist" "files" sample_world =
      (Return tt, emit (Log RenamingCompleted) w3) ∧
    failed_renames new = [] ∧
    done = 4 ∧
    (planned sample_entropy 0 (fs.entries "/srv/app/files" (files sample_world))).*1
      = fs.entries "/srv/app/files" (files sample_world) ∧
    (∀ n, n ∈ fs.entries "/srv/app/files" (files w3) ↔
          n ∈ (planned sample_entropy 0
                 (fs.entries "/srv/app/files" (files sample_world))).*2).
Proof.
  destruct (renameProcess_renames_every_file "/srv/app/dist" "files" sample_world)
    as (done & new & w3 & _ & _ & Hrun & Hnofail & Hok).
  - reflexivity.
  - reflexivity.
  - reflexivity.
  - refine (bool_decide_unpack _ _). vm_compute. exact I.
  - assert (failed_renames new = []) as Hnone.
    { apply Hnofail; [reflexivity|].
      refine (bool_decide_unpack _ _). vm_compute. exact I. }
    exists done, new, w3. split; [exact Hrun|]. split; [exact Hnone|].
    destruct (Hok Hnone) as (Hplan & _ & _ & Hdone & Hafter).
    split; [exact Hdone|]. split; [exact Hplan|exact Hafter].
Defined.

(** C2. An entry whose base name is an identifier, in any mix of lower and
    upper case, is skipped: its iteration of the loop does nothing at all,
    so asks for no rename and leaves the counter as it is; and in a whole
    run of [renameProcess], whatever else happens, no rename is asked for
    it and it is still an entry of the directory afterwards. *)
Theorem renameProcess_skips_identifier_names (dirname d : string) (w : World)
    (f : string) :
  let D := path.join [dirname; "../"; d] in
  f ∈ fs.entries D (files w) → Identifier (path.name (path.parse f)) →
  (∀ total rest done w0,
     renameProcess_loop D total (f :: rest) done w0 =
     renameProcess_loop D total rest done w0) ∧
  ∃ new w',
    renameProcess dirname d w = (Return tt, w') ∧ trace w' = trace w ++ new ∧
    (∀ b r, (path.join [D; f], b, r) ∉ renames new) ∧
    f ∈ fs.entries D (files w').
Proof.
  intros D Hf Hid.
  assert (attempted f = false) as Hatt.
  { unfold attempted. by rewrite (proj2 (isUUID_Identifier _) Hid). }
  split.
  { intros total rest done w0. by rewrite loop_cons, Hatt. }
  destruct (renameProcess_cases dirname d w)
    as [H|[(Hd & Hs & [e He])|(Hd & Hs & Hr)]].
  - destruct (renameProcess_no_directory dirname d w H) as [r ->]. fold D.
    eexists [_; _], _. split; [done|]. cbn [trace files emit].
    split; [by rewrite <-app_assoc|]. split; [|done].
    intros b r' Hin. by apply elem_of_nil in Hin.
  - rewrite (renameProcess_no_listing dirname d w e) by done. fold D.
    eexists [_; _; _; _], _. split; [done|]. cbn [trace files emit].
    split; [by rewrite <-!app_assoc|]. split; [|done].
    intros b r' Hin. by apply elem_of_nil in Hin.
  - destruct (renameProcess_listing dirname d w Hd Hs Hr)
      as (done & new & w3 & Hloop & Ht & ->). fold D in Hloop, Ht.
    set (names := fs.entries D (files w)) in *.
    set (w0 := emit (Log StartedRenaming) _) in *.
    exists ([Fs (stat D) None; Fs (readdir D) None; Log StartedRenaming]
              ++ new ++ [Log RenamingCompleted]), (emit (Log RenamingCompleted) w3).
    split; [done|]. cbn [trace files emit].
    assert (trace w0 = trace w ++
              [Fs (stat D) None; Fs (readdir D) None; Log StartedRenaming]) as Hw0.
    { unfold w0. cbn [trace emit]. by rewrite <-!app_assoc. }
    split; [by rewrite Ht, Hw0, <-!app_assoc|].
    assert (Forall (λ f, fs.entry_name f = true) names) as Hentries.
    { apply Forall_forall. intros f' Hf'. by apply entries_entry_name in Hf'. }
    destruct (loop_run_of _ _ _ _ _ _ _ _ Hloop Ht) as (_ & _ & Hr1 & _).
    split.
    + intros b r Hin. rewrite !renames_app in Hin.
      cbn in Hin. rewrite app_nil_r in Hin.
      assert ((path.join [D; f], b) ∈ (renames new).*1) as Hin'.
      { apply list_elem_of_fmap. by exists (path.join [D; f], b, r). }
      rewrite Hr1 in Hin'.
      apply list_elem_of_fmap in Hin' as ([f' g'] & Heq & Hplan).
      apply planned_spec in Hplan as (Hf' & Hatt' & _). cbn in Heq.
      assert (f = f') as <-; [|congruence].
      rewrite Forall_forall in Hentries.
      apply (join_inj D); [by apply Hentries..|congruence].
    + destruct (loop_files D _ names Hentries 0 w0 done w3 Hloop) as (HA & _).
      by apply HA.
Qed.

Lemma renameProcess_skips_identifier_names_witness :
  ∃ new w',
    renameProcess "/srv/app/dist" "files" sample_world_with_identifier = (Return tt, w') ∧
    trace w' = trace sample_world_with_identifier ++ new ∧
    (∀ b r, ("/srv/app/files/A1b2C3d4-e5f6-47a8-89b0-c1d2e3f4a5b6.png", b, r)
              ∉ renames new) ∧
    "A1b2C3d4-e5f6-47a8-89b0-c1d2e3f4a5b6.png"
      ∈ fs.entries "/srv/app/files" (files w').
Proof.
  apply (renameProcess_skips_identifier_names "/srv/app/dist" "files"
           sample_world_with_identifier "A1b2C3d4-e5f6-47a8-89b0-c1d2e3f4a5b6.png").
  - refine (bool_decide_unpack _ _). vm_compute. exact I.
  - apply isUUID_Identifier. reflexivity.
Defined.

(** C3. A name made of an identifier and of the extension of a file name
    has a base name that [isUUID] accepts. So after a run of
    [renameProcess] in which no rename failed, a run on the same directory
    from the world it left asks for no rename and leaves the files as they
    are; when it lists the directory, it skips every entry, and the counter
    [done] is 0 when its loop ends. *)
Theorem renameProcess_again_renames_nothing :
  (∀ entropy i f,
     fs.entry_name f = true →
     isUUID (path.name (path.parse (nth_uuid entropy i +:+ path.extname f))) = true) ∧
  ∀ dirname d w w1,
    let D := path.join [dirname; "../"; d] in
    let names := fs.entries D (files w1) in
    let w0 := emit (Log StartedRenaming)
                (emit (Fs (readdir D) None) (emit (Fs (stat D) None) w1)) in
    renameProcess dirname d w = (Return tt, w1) →
    failed_renames (trace w1) = failed_renames (trace w) →
    (∃ new w2,
       renameProcess dirname d w1 = (Return tt, w2) ∧ trace w2 = trace w1 ++ new ∧
       renames new = [] ∧ files w2 = files w1) ∧
    (files w1 !! D = Some Directory → fault w1 (stat D) = None →
     fault w1 (readdir D) = None →
     Forall (λ f, isUUID (path.name (path.parse f)) = true) names ∧
     renameProcess_loop D (Z.of_nat (length names)) names 0 w0 = (Return 0, w0) ∧
     renameProcess dirname d w1 = (Return tt, emit (Log RenamingCompleted) w0)).
Proof.
  split.
  { intros entropy i f Hf.
    destruct (new_name _ f (Identifier_nth_uuid entropy i) Hf) as (_ & -> & _).
    apply isUUID_Identifier, Identifier_nth_uuid. }
  intros dirname d w w1 D names w0 Hrun Hnofail.
  pose proof (renameProcess_leaves_skipped dirname d w w1 Hrun Hnofail) as Hskip.
  split; [by apply renameProcess_no_renames|].
  intros Hd Hs Hr. specialize (Hskip Hd Hs Hr). split.
  - eapply Forall_impl; [exact Hskip|]. intros f. unfold attempted.
    by destruct (isUUID _).
  - by apply renameProcess_all_skipped.
Qed.

Lemma renameProcess_again_renames_nothing_witness :
  isUUID (path.name (path.parse (nth_uuid sample_entropy 0 +:+ path.extname "photo.jpg")))
    = true ∧
  ∃ new w2,
    renameProcess "/srv/app/dist" "files" sample_world_renamed = (Return tt, w2) ∧
    trace w2 = trace sample_world_renamed ++ new ∧
    renames new = [] ∧ files w2 = files sample_world_renamed.
Proof.
  destruct renameProcess_again_renames_nothing as [Hname Hagain].
  split; [by apply Hname|].
  apply (Hagain "/srv/app/dist" "files" sample_world sample_world_renamed).
  - vm_compute. reflexivity.
  - vm_compute. reflexivity.
Defined.

(** C4. When the path is not an existing directory, [renameProcess] reports
    it and returns: it calls [stat] and nothing else, so takes no listing
    and asks for no rename, the files are as before, and the caller gets a
    normal return. *)
Theorem renameProcess_without_directory (dirname d : string) (w : World) :
  let D := path.join [dirname; "../"; d] in
  files w !! D ≠ Some Directory →
  ∃ r w',
    renameProcess dirname d w = (Return tt, w') ∧
    trace w' = trace w ++ [Fs (stat D) r; Err (DirectoryDoesNotExist D)] ∧
    files w' = files w ∧
    mutations (trace w') = mutations (trace w).
Proof.
  intros D H. destruct (renameProcess_no_directory dirname d w) as [r Hr];
    [by left|].
  exists r. eexists. split; [exact Hr|]. cbn [trace files emit].
  split; [by rewrite <-app_assoc|]. split; [done|].
  rewrite !mutations_app. cbn. by rewrite !app_nil_r.
Qed.

Lemma renameProcess_without_directory_witness :
  ∃ r w',
    renameProcess "/srv/app/dist" "absent" sample_world = (Return tt, w') ∧
    trace w' = trace sample_world ++
      [Fs (stat "/srv/app/absent") r; Err (DirectoryDoesNotExist "/srv/app/absent")] ∧
    files w' = files sample_world ∧
    mutations (trace w') = mutations (trace sample_world).
Proof.
  apply (renameProcess_without_directory "/srv/app/dist" "absent" sample_world).
  vm_compute. discriminate.
Defined.

(** C5, as the program has it. When the directory cannot be listed,
    [getFiles] reports the failure and raises it again to [renameProcess],
    which catches it, reports it and returns normally: no rename is asked
    for. No error leaves [renameProcess], in this case or any other, and
    the failure of the listing is the only error that reaches its
    handler. *)
Theorem listing_failure_is_caught (dirname d : string) (w : World) (e : error) :
  let D := path.join [dirname; "../"; d] in
  files w !! D = Some Directory → fault w (stat D) = None →
  fault w (readdir D) = Some e →
  (∃ w1, getFiles D (emit (Fs (stat D) None) w) = (Throw e, w1) ∧
         trace w1 = trace w ++ [Fs (stat D) None; Fs (readdir D) (Some e);
                                Err (ErrorWhileReadingFiles D e)]) ∧
  (∃ w', renameProcess dirname d w = (Return tt, w') ∧
         trace w' = trace w ++ [Fs (stat D) None; Fs (readdir D) (Some e);
                                Err (ErrorWhileReadingFiles D e);
                                Err (ErrorInRenameProcess e)] ∧
         files w' = files w) ∧
  (∀ d0 w0,
     let D0 := path.join [dirname; "../"; d0] in
     ∃ new w',
       renameProcess dirname d0 w0 = (Return tt, w') ∧ trace w' = trace w0 ++ new ∧
       ∀ e0, Err (ErrorInRenameProcess e0) ∈ new →
             files w0 !! D0 = Some Directory ∧ fault w0 (readdir D0) = Some e0).
Proof.
  intros D Hd Hs Hr. split; [|split].
  - eexists. rewrite getFiles_run. unfold fs.readdir_result.
    cbn [fault emit]. rewrite Hr. split; [done|].
    cbn [trace emit]. by rewrite <-!app_assoc.
  - eexists. split; [by apply renameProcess_no_listing|].
    cbn [trace files emit]. by rewrite <-!app_assoc.
  - intros d0 w0 D0.
    destruct (renameProcess_trace dirname d0 w0) as (new & w' & Hrun & Ht & Hnew).
    fold D0 in Hnew. exists new, w'. split; [done|]. split; [done|].
    intros e0 Hin.
    destruct Hnew as [[r ->]|[(e1 & -> & Hd0 & Hr0)|(new_loop & -> & Hloop & _)]].
    + by repeat (apply elem_of_cons in Hin as [Hin|Hin]; [done|]);
        apply elem_of_nil in Hin.
    + repeat (apply elem_of_cons in Hin as [Hin|Hin]; [by simplify_eq|]).
      by apply elem_of_nil in Hin.
    + repeat (apply elem_of_cons in Hin as [Hin|Hin]; [done|]).
      apply elem_of_app in Hin as [Hin|Hin].
      * rewrite Forall_forall in Hloop. by apply Hloop in Hin.
      * apply list_elem_of_singleton in Hin. done.
Qed.

Lemma listing_failure_is_caught_witness :
  ∃ w', renameProcess "/srv/app/dist" "files" unreadable_world = (Return tt, w') ∧
        trace w' = trace unreadable_world ++
          [Fs (stat "/srv/app/files") None; Fs (readdir "/srv/app/files") (Some eacces);
           Err (ErrorWhileReadingFiles "/srv/app/files" eacces);
           Err (ErrorInRenameProcess eacces)] ∧
        files w' = files unreadable_world.
Proof.
  apply (listing_failure_is_caught "/srv/app/dist" "files" unreadable_world eacces);
    reflexivity.
Defined.

(** C5, as the specification has it, fails: in a world where listing the
    directory fails, [renameProcess] returns normally instead of raising the
    error of the listing to its caller. *)
Lemma listing_failure_not_raised :
  fs.readdir_result "/srv/app/files" unreadable_world = inl eacces ∧
  (renameProcess "/srv/app/dist" "files" unreadable_world).1 = Return tt ∧
  ¬ ∃ w', renameProcess "/srv/app/dist" "files" unreadable_world = (Throw eacces, w').
Proof.
  split; [reflexivity|]. split; [reflexivity|].
  intros [w' H]. apply (f_equal fst) in H. vm_compute in H. discriminate.
Qed.

(** C6. Whatever the entry names and whatever fails, the loop of
    [renameProcess] runs to its end: it asks for one rename of each entry
    that it does not skip, in listing order; each rename that fails is
    reported with the name of the entry; and the counter [done] grows by
    the number of renames that succeeded. *)
Theorem renameProcess_loop_attempts_each_entry_once
    (D : string) (total : Z) (fileNames : list string) (done : Z) (w : World) :
  ∃ done' new w',
    renameProcess_loop D total fileNames done w = (Return done', w') ∧
    trace w' = trace w ++ new ∧
    (renames new).*1.*1 = (λ f, path.join [D; f]) <$> List.filter attempted fileNames ∧
    done' = done + Z.of_nat (length (successful_renames new)) ∧
    (∀ a b e, (a, b, Some e) ∈ renames new →
       ∃ f, f ∈ fileNames ∧ a = path.join [D; f] ∧
            Err (ErrorWhileRenaming f e) ∈ new).
Proof.
  destruct (loop_run D total fileNames done w)
    as (done' & new & w' & Hrun & Ht & _ & _ & Hr & Hd & _ & Hrep).
  exists done', new, w'. split; [done|]. split; [done|]. split; [|done].
  rewrite Hr, <-(planned_fst (entropy w) fileNames (drawn w)).
  by rewrite <-!list_fmap_compose.
Qed.

(** C7. [isUUID] accepts exactly the identifiers: the 36-character strings
    of hexadecimal digits, in lower or upper case, in 8-4-4-4-12 grouping.
    It rejects every other string, so every string of another length and
    every string that has an identifier as a proper part. *)
Theorem isUUID_accepts_exactly_identifiers :
  (∀ str, isUUID str = true ↔ Identifier str) ∧
  (∀ str, String.length str ≠ 36%nat → isUUID str = false) ∧
  (∀ pre id post,
     Identifier id → pre +:+ post ≠ "" → isUUID (pre +:+ id +:+ post) = false).
Proof.
  split; [exact isUUID_Identifier|]. split.
  - intros str Hlen. apply isUUID_false. intros H%Identifier_length. done.
  - intros pre id post Hid Hne. apply isUUID_false. intros H%Identifier_length.
    apply Identifier_length in Hid.
    rewrite !length_append, Hid in H.
    destruct pre, post; try done; rewrite ?append_cons in H; cbn in H; lia.
Qed.

Lemma isUUID_accepts_exactly_identifiers_witness :
  (isUUID "A1b2C3d4-e5f6-47a8-89b0-c1d2e3f4a5b6" = true ↔
   Identifier "A1b2C3d4-e5f6-47a8-89b0-c1d2e3f4a5b6") ∧
  isUUID "a1b2c3d4-e5f6-47a8-89b0-c1d2e3f4a5b" = false ∧
  isUUID ("x" +:+ "a1b2c3d4-e5f6-47a8-89b0-c1d2e3f4a5b6" +:+ "") = false.
Proof.
  destruct isUUID_accepts_exactly_identifiers as (H1 & H2 & H3).
  split; [apply H1|]. split.
  - apply H2. vm_compute. lia.
  - apply H3; [|done]. apply H1. reflexivity.
Defined.

(** C8. In an existing directory, for an extension without separator and
    when the file system accepts the writes, [createEmptyFiles] writes one
    file per number from 0 to [n - 1], in order and nothing else: the names
    are the number followed by the extension, they are all different, each
    file holds a single space, and the entries of the directory are then
    the old ones and these. When the path is not an existing directory, it
    reports it and returns without a write. *)
Theorem createEmptyFiles_creates_numbered_files
    (D : string) (n : Z) (ext : string) (w : World) :
  let fileName := λ i : Z, pretty i +:+ ext in
  (files w !! D = Some Directory → fault w (stat D) = None →
   Str.no_slash ext = true →
   (∀ i, 0 ≤ i < n →
      fault w (writeFile (path.join [D; fileName i]) " ") = None ∧
      files w !! path.join [D; fileName i] ≠ Some Directory) →
   ∃ new w',
     createEmptyFiles D n ext w = (Return tt, w') ∧
     trace w' = trace w ++ new ∧
     writes new = (λ i, (path.join [D; fileName i], " ", None)) <$> seqZ 0 n ∧
     renames new = [] ∧
     length (seqZ 0 n) = Z.to_nat n ∧
     NoDup (fileName <$> seqZ 0 n) ∧
     (∀ i, 0 ≤ i < n → files w' !! path.join [D; fileName i] = Some (File " ")) ∧
     (∀ name, name ∈ fs.entries D (files w') ↔
              name ∈ fs.entries D (files w) ∨ ∃ i, 0 ≤ i < n ∧ name = fileName i)) ∧
  (files w !! D ≠ Some Directory →
   ∃ r, createEmptyFiles D n ext w =
        (Return tt, emit (Err (DirectoryDoesNotExist D)) (emit (Fs (stat D) r) w))).
Proof.
  intros fileName. split; [|intros H; apply createEmptyFiles_no_directory; by left].
  subst fileName. cbn beta. intros Hd Hs Hext Hok.
  destruct (createEmptyFiles_loop_run D ext (seqZ 0 n) (emit (Fs (stat D) None) w))
    as (w1 & Hloop & Ht & _ & Hfiles).
  { intros i Hi%elem_of_seqZ. cbn [fault files emit]. apply Hok. lia. }
  cbn [trace files emit] in Ht, Hfiles.
  exists ([Fs (stat D) None]
            ++ List.flat_map (λ i, [Fs (writeFile (path.join [D; pretty i +:+ ext]) " ") None;
                                    Log (CreatedEmptyFile (pretty i +:+ ext))]) (seqZ 0 n)
            ++ [Log (CreationCompleted n)]),
         (emit (Log (CreationCompleted n)) w1).
  split.
  { unfold createEmptyFiles. unfold_M. rewrite directoryExists_true by done.
    cbn [negb]. by rewrite Hloop. }
  cbn [trace files emit]. split; [by rewrite Ht, <-!app_assoc|].
  split.
  { rewrite !writes_app. cbn [writes omap list_omap app].
    by rewrite writes_created, app_nil_r. }
  split.
  { rewrite !renames_app. cbn [renames omap list_omap app]. rewrite app_nil_r.
    clear. induction (seqZ 0 n) as [|i l IH]; [done|]. by cbn. }
  split; [apply length_seqZ|]. split.
  { apply NoDup_fmap_2_strong; [|apply NoDup_seqZ].
    intros i j _ _. apply numbered_inj. }
  split.
  { intros i Hi. rewrite Hfiles, bool_decide_eq_true_2; [done|].
    apply list_elem_of_fmap. exists i. split; [done|]. apply elem_of_seqZ. lia. }
  intros name. rewrite !entries_spec, Hfiles. split.
  - intros [Hname Hsome]. case_bool_decide as Hin; [right|by left].
    apply list_elem_of_fmap in Hin as (i & Heq & Hi%elem_of_seqZ).
    exists i. split; [lia|]. apply (join_inj D); [done| |done].
    apply numbered_entry_name; [lia|done].
  - intros [[Hname Hsome]|(i & Hi & ->)].
    + split; [done|]. by case_bool_decide.
    + split; [apply numbered_entry_name; [lia|done]|].
      rewrite bool_decide_eq_true_2; [done|].
      apply list_elem_of_fmap. exists i. split; [done|]. apply elem_of_seqZ. lia.
Qed.

Lemma createEmptyFiles_creates_numbered_files_witness :
  (∃ new w',
     createEmptyFiles "/srv/app/files" 3 ".txt" sample_world = (Return tt, w') ∧
     trace w' = trace sample_world ++ new ∧
     writes new =
       [("/srv/app/files/0.txt", " ", None); ("/srv/app/files/1.txt", " ", None);
        ("/srv/app/files/2.txt", " ", None)]) ∧
  (∃ r, createEmptyFiles "/srv/app/absent" 3 ".txt" sample_world =
        (Return tt, emit (Err (DirectoryDoesNotExist "/srv/app/absent"))
                      (emit (Fs (stat "/srv/app/absent") r) sample_world))).
Proof.
  destruct (createEmptyFiles_creates_numbered_files "/srv/app/files" 3 ".txt" sample_world)
    as [Hcreate _].
  destruct (createEmptyFiles_creates_numbered_files "/srv/app/absent" 3 ".txt" sample_world)
    as [_ Habsent].
  split.
  - destruct Hcreate as (new & w' & Hrun & Ht & Hw & _).
    + reflexivity.
    + reflexivity.
    + reflexivity.
    + intros i Hi. assert (i = 0 ∨ i = 1 ∨ i = 2) as Hcases by lia.
      destruct Hcases as [Hi0|[Hi1|Hi2]]; subst i;
        (split; [reflexivity|vm_compute; discriminate]).
    + exists new, w'. split; [exact Hrun|]. split; [exact Ht|]. exact Hw.
  - apply Habsent. vm_compute. discriminate.
Defined.

(** C9. The entry point runs [renameProcess] on the name [files]. What
    [renameProcess] works on is the join of the directory of the script,
    [..] and its argument: this is the path that it asks [stat] about
    first, and every call that it makes is on it or on a path joined from
    it. For a script in [b/x] it is the argument joined onto [b], one level
    up, also when the argument begins with a separator. *)
Theorem renameProcess_joins_onto_fixed_base :
  (∀ dirname w, startRenameFilesService dirname w = renameProcess dirname "files" w) ∧
  (∀ dirname d w,
     let D := path.join [dirname; "../"; d] in
     ∃ r rest w',
       renameProcess dirname d w = (Return tt, w') ∧
       trace w' = trace w ++ Fs (stat D) r :: rest ∧
       ∀ c r', Fs c r' ∈ rest →
               c = readdir D ∨
               ∃ f g, c = rename (path.join [D; f]) (path.join [D; g])) ∧
  (∀ b x d, b ≠ "" → fs.entry_name x = true → d ≠ "" →
     path.join [b +:+ "/" +:+ x; "../"; d] = path.join [b; d] ∧
     path.join [b +:+ "/" +:+ x; "../"; "/" +:+ d] = path.join [b; d]).
Proof.
  split; [done|]. split.
  - intros dirname d w D.
    destruct (renameProcess_trace dirname d w) as (new & w' & Hrun & Ht & Hnew).
    fold D in Hnew.
    destruct Hnew as [[r ->]|[(e1 & -> & _)|(new_loop & -> & Hloop & Hr)]].
    + eexists r, _, w'. split; [done|]. split; [done|].
      intros c r' Hin.
      apply elem_of_cons in Hin as [Hin|Hin]; [done|]. by apply elem_of_nil in Hin.
    + eexists None, _, w'. split; [done|]. split; [done|].
      intros c r' Hin.
      apply elem_of_cons in Hin as [Hin|Hin]; [left; by simplify_eq|].
      repeat (apply elem_of_cons in Hin as [Hin|Hin]; [done|]).
      by apply elem_of_nil in Hin.
    + eexists None, _, w'. split; [done|]. split; [done|].
      intros c r' Hin.
      apply elem_of_cons in Hin as [Hin|Hin]; [left; by simplify_eq|].
      apply elem_of_cons in Hin as [Hin|Hin]; [done|].
      apply elem_of_app in Hin as [Hin|Hin];
        [|apply list_elem_of_singleton in Hin; done].
      right. rewrite Forall_forall in Hloop. pose proof (Hloop _ Hin) as Hev.
      destruct c as [| |a b0|]; try done.
      apply renames_elem_of in Hin.
      assert ((a, b0) ∈ (renames new_loop).*1) as Hab.
      { apply list_elem_of_fmap. by exists (a, b0, r'). }
      rewrite Hr in Hab. apply list_elem_of_fmap in Hab as ([f g] & Heq & _).
      cbn in Heq. simplify_eq. by exists f, g.
  - intros b x d Hb Hx Hd. split; [by apply join_parent|].
    rewrite join_parent by done. by apply join_leading_separator.
Qed.

Lemma renameProcess_joins_onto_fixed_base_witness :
  path.join ["/srv/app" +:+ "/" +:+ "dist"; "../"; "files"] = path.join ["/srv/app"; "files"] ∧
  path.join ["/srv/app" +:+ "/" +:+ "dist"; "../"; "/" +:+ "etc"] = path.join ["/srv/app"; "etc"].
Proof.
  destruct renameProcess_joins_onto_fixed_base as (_ & _ & H).
  split.
  - apply (H "/srv/app" "dist" "files"); [done|reflexivity|done].
  - apply (H "/srv/app" "dist" "etc"); [done|reflexivity|done].
Defined.

(** C10. A file name that begins with a dot and has no other dot, such as
    [.gitignore], has an empty extension and is its own base name. It never
    matches the identifier pattern, so the loop asks to rename it to a bare
    identifier: the leading-dot form is not kept. *)
Theorem dotfile_renamed_to_bare_identifier (rest : string) :
  Str.no_slash rest = true → Str.no_dot rest = true →
  let f := "." +:+ rest in
  path.extname f = "" ∧
  path.name (path.parse f) = f ∧
  isUUID (path.name (path.parse f)) = false ∧
  ∀ D total others done w,
    let a := path.join [D; f] in
    let b := path.join [D; nth_uuid (entropy w) (drawn w)] in
    Identifier (nth_uuid (entropy w) (drawn w)) ∧
    renameProcess_loop D total (f :: others) done w =
    match fs.rename_result a b (draw w) with
    | inr (_, m) =>
        renameProcess_loop D total others (done + 1)
          (emit (Log (Processing f (done + 1) total))
             (emit (Fs (rename a b) None) (set_files m (draw w))))
    | inl e =>
        renameProcess_loop D total others done
          (emit (Err (ErrorWhileRenaming f e))
             (emit (Fs (rename a b) (Some e)) (draw w)))
    end.
Proof.
  intros Hs Hd f.
  assert (path.extname f = "") as Hext.
  { unfold f. change ("." +:+ rest) with ("" +:+ "." +:+ rest).
    rewrite extname_dotted, no_extension_dotted by done. done. }
  assert (path.name (path.parse f) = f) as Hname.
  { unfold f. change ("." +:+ rest) with ("" +:+ "." +:+ rest).
    rewrite name_dotted, no_extension_dotted by done. done. }
  assert (isUUID (path.name (path.parse f)) = false) as Hno.
  { rewrite Hname. apply isUUID_false.
    intros (_ & _ & c & u' & Heq & Hc)%Identifier_plain.
    unfold f in Heq. rewrite append_cons in Heq. by simplify_eq. }
  split; [done|]. split; [done|]. split; [done|].
  intros D total others done w a b. split; [apply Identifier_nth_uuid|].
  rewrite loop_cons. unfold attempted. rewrite Hno. cbn [negb].
  rewrite Hext, append_nil_r. done.
Qed.

Lemma dotfile_renamed_to_bare_identifier_witness :
  path.extname ".gitignore" = "" ∧
  path.name (path.parse ".gitignore") = ".gitignore" ∧
  isUUID (path.name (path.parse ".gitignore")) = false.
Proof.
  destruct (dotfile_renamed_to_bare_identifier "gitignore") as (H1 & H2 & H3 & _);
    [reflexivity|reflexivity|].
  by split; [|split].
Defined.

(** * Further properties of the program *)

Import NameFacts LoopFacts CreateFacts.

(** X1. Whatever the entry names and whatever fails, the loop of
    [renameProcess] accounts for every entry once: the entries are those
    renamed, those whose rename failed and those skipped. The counter
    [done] never goes down and grows by at most the number of entries; one
    identifier is drawn for each entry that is not skipped, also when its
    rename fails; and every progress line carries [total] and a count above
    the counter before the loop and at most the counter after it. *)
Theorem renameProcess_loop_accounts_for_every_entry
    (D : string) (total : Z) (fileNames : list string) (done : Z) (w : World) :
  ∃ done' new w',
    renameProcess_loop D total fileNames done w = (Return done', w') ∧
    trace w' = trace w ++ new ∧
    Z.of_nat (length fileNames) =
      (done' - done) + Z.of_nat (length (failed_renames new))
      + Z.of_nat (length (List.filter (λ f, negb (attempted f)) fileNames)) ∧
    done ≤ done' ≤ done + Z.of_nat (length fileNames) ∧
    drawn w' = (drawn w + length (List.filter attempted fileNames))%nat ∧
    (∀ f k t, Log (Processing f k t) ∈ new → t = total ∧ done < k ≤ done').
Proof.
  destruct (loop_reports_run D total fileNames done w)
    as (rs & done' & w' & Hrun & Hrs & Ht & Hd & Hdr).
  exists done', (loop_reports D total rs done), w'.
  split; [done|]. split; [done|].
  assert (length rs = length (List.filter attempted fileNames)) as Hlen.
  { by rewrite <-(length_fmap fst rs), Hrs, planned_length. }
  pose proof (filter_split_length attempted fileNames) as Hsplit.
  unfold failed_renames. rewrite renames_loop_reports.
  destruct (failed_length rs D) as [-> Hle].
  split; [lia|]. split; [lia|]. split; [lia|].
  intros f k t Hin. apply loop_reports_progress in Hin. lia.
Qed.

(** X2. When the directory is listed, what [renameProcess] does is, in this
    order: [stat], [readdir], the line that the renaming started, then for
    each entry that is not skipped its rename followed at once by its
    progress line or by the report of its failure, and last the line that
    the renaming is completed, whatever failed. The progress lines count
    from 1 and carry the number of entries listed. For a directory without
    entries nothing comes between the two lines, and the files are as
    before. *)
Theorem renameProcess_reports_in_order (dirname d : string) (w : World) :
  let D := path.join [dirname; "../"; d] in
  let names := fs.entries D (files w) in
  files w !! D = Some Directory → fault w (stat D) = None →
  fault w (readdir D) = None →
  ∃ rs w',
    renameProcess dirname d w = (Return tt, w') ∧
    rs.*1 = planned (entropy w) (drawn w) names ∧
    trace w' = trace w ++
      [Fs (stat D) None; Fs (readdir D) None; Log StartedRenaming]
      ++ loop_reports D (Z.of_nat (length names)) rs 0
      ++ [Log RenamingCompleted] ∧
    (names = [] → rs = [] ∧ files w' = files w).
Proof.
  intros D names Hd Hs Hr.
  destruct (renameProcess_listing dirname d w Hd Hs Hr)
    as (done & new & w3 & Hloop & Ht & Hrun).
  fold D in Hloop, Ht, Hrun. fold names in Hloop.
  set (w0 := emit (Log StartedRenaming) _) in *.
  destruct (loop_reports_run D (Z.of_nat (length names)) names 0 w0)
    as (rs & done2 & w2 & Hloop2 & Hrs & Ht2 & _).
  rewrite Hloop in Hloop2. simplify_eq.
  exists rs, (emit (Log RenamingCompleted) w2).
  split; [done|]. split; [done|]. split.
  { cbn [trace emit]. rewrite Ht2. unfold w0. cbn [trace emit].
    by rewrite <-!app_assoc. }
  intros Hnil. rewrite Hnil in Hrs, Hloop. cbn in Hrs.
  split; [by apply fmap_nil_inv in Hrs|].
  cbn in Hloop. by injection Hloop as _ <-.
Qed.

Lemma renameProcess_reports_in_order_witness :
  ∃ rs w',
    renameProcess "/srv/app/dist" "files" scenario_world = (Return tt, w') ∧
    rs.*1 = planned sample_entropy 0 (fs.entries "/srv/app/files" (files scenario_world)) ∧
    trace w' = trace scenario_world ++
      [Fs (stat "/srv/app/files") None; Fs (readdir "/srv/app/files") None;
       Log StartedRenaming]
      ++ loop_reports "/srv/app/files" 3 rs 0
      ++ [Log RenamingCompleted].
Proof.
  destruct (renameProcess_reports_in_order "/srv/app/dist" "files" scenario_world)
    as (rs & w' & Hrun & Hrs & Ht & _).
  - reflexivity.
  - reflexivity.
  - reflexivity.
  - exists rs, w'. split; [exact Hrun|]. split; [exact Hrs|exact Ht].
Defined.

(** X3. When every rename is refused, as on a read-only file system,
    [renameProcess] still goes through all entries and returns: each entry
    that is not skipped gets a rename that fails and is reported, no
    progress line is written, the line that the renaming is completed is
    written all the same, and the files are as before. *)
Theorem renameProcess_when_every_rename_fails (dirname d : string) (w : World) :
  let D := path.join [dirname; "../"; d] in
  let names := fs.entries D (files w) in
  files w !! D = Some Directory → fault w (stat D) = None →
  fault w (readdir D) = None →
  (∀ a b, is_Some (fault w (rename a b))) →
  ∃ rs w',
    renameProcess dirname d w = (Return tt, w') ∧
    rs.*1 = planned (entropy w) (drawn w) names ∧
    Forall (λ r, is_Some r.2) rs ∧
    trace w' = trace w ++
      [Fs (stat D) None; Fs (readdir D) None; Log StartedRenaming]
      ++ loop_reports D (Z.of_nat (length names)) rs 0
      ++ [Log RenamingCompleted] ∧
    (∀ f k t, Log (Processing f k t) ∉ loop_reports D (Z.of_nat (length names)) rs 0) ∧
    files w' = files w.
Proof.
  intros D names Hd Hs Hr Hfault.
  destruct (renameProcess_listing dirname d w Hd Hs Hr)
    as (done & new & w3 & Hloop & Ht & Hrun).
  fold D in Hloop, Ht, Hrun. fold names in Hloop.
  set (w0 := emit (Log StartedRenaming) _) in *.
  destruct (loop_all_fail D (Z.of_nat (length names)) names 0 w0)
    as (rs & w2 & Hloop2 & Hrs & Hall & Ht2 & Hfiles); [exact Hfault|].
  rewrite Hloop in Hloop2. simplify_eq.
  exists rs, (emit (Log RenamingCompleted) w2).
  split; [done|]. split; [done|]. split; [done|]. split.
  { cbn [trace emit]. rewrite Ht2. unfold w0. cbn [trace emit].
    by rewrite <-!app_assoc. }
  split; [|done].
  intros f k t Hin. apply loop_reports_progress in Hin as [_ Hk].
  assert (succeeded rs = []) as Hnone; [|rewrite Hnone in Hk; cbn in Hk; lia].
  unfold succeeded. clear -Hall.
  induction Hall as [|[[f0 g0] [e|]] rs [e' He'] _ IH]; [done|done|done].
Qed.

Lemma renameProcess_when_every_rename_fails_witness :
  ∃ rs w',
    renameProcess "/srv/app/dist" "files" read_only_world = (Return tt, w') ∧
    length rs = 4%nat ∧
    Forall (λ r : string * string * option error, is_Some r.2) rs ∧
    files w' = files read_only_world.
Proof.
  destruct (renameProcess_when_every_rename_fails "/srv/app/dist" "files"
              read_only_world) as (rs & w' & Hrun & Hrs & Hall & _ & _ & Hfiles).
  - reflexivity.
  - reflexivity.
  - reflexivity.
  - intros a b. exists erofs. reflexivity.
  - exists rs, w'. split; [exact Hrun|]. split.
    + rewrite <-(length_fmap fst rs), Hrs. reflexivity.
    + split; [exact Hall|exact Hfiles].
Defined.

(** X4. Run again on the world that a run left, [renameProcess] asks only
    for renames of entries of the first listing whose rename failed in the
    first run: what was renamed is not renamed again, and what failed is
    tried again. *)
Theorem renameProcess_retries_only_failed
    (dirname d : string) (w w1 w2 : World) (new1 new2 : list event) :
  let D := path.join [dirname; "../"; d] in
  renameProcess dirname d w = (Return tt, w1) → trace w1 = trace w ++ new1 →
  renameProcess dirname d w1 = (Return tt, w2) → trace w2 = trace w1 ++ new2 →
  ∀ a b r, (a, b, r) ∈ renames new2 →
    ∃ f b1 e, f ∈ fs.entries D (files w) ∧ a = path.join [D; f] ∧
              (a, b1, Some e) ∈ renames new1.
Proof.
  intros D Hrun1 Ht1 Hrun2 Ht2 a b r Hin.
  destruct (renameProcess_trace dirname d w1) as (new & w' & Hrun & Ht & Hnew).
  fold D in Hnew. rewrite Hrun2 in Hrun. simplify_eq.
  rewrite Ht2 in Ht. apply app_inv_head in Ht as <-.
  destruct Hnew as [[r0 ->]|[(e1 & -> & _)|(new_loop & -> & _ & Hr2)]];
    [by apply elem_of_nil in Hin|by apply elem_of_nil in Hin|].
  rewrite !renames_app in Hin. cbn [renames omap list_omap app] in Hin.
  rewrite app_nil_r in Hin.
  assert ((a, b) ∈ (renames new_loop).*1) as Hab.
  { apply list_elem_of_fmap. by exists (a, b, r). }
  rewrite Hr2 in Hab. apply list_elem_of_fmap in Hab as ([f g] & Heq & Hplan).
  cbn in Heq. injection Heq as -> ->.
  apply planned_spec in Hplan as (Hf & Hatt & _).
  (* the first run *)
  destruct (renameProcess_cases dirname d w)
    as [H|[(Hd & Hs & [e He])|(Hd & Hs & Hr)]]; fold D in H || fold D in Hd, Hs.
  - exfalso. destruct (renameProcess_no_directory dirname d w H) as [r1 Hr1].
    rewrite Hrun1 in Hr1. injection Hr1 as Hw1.
    destruct (renameProcess_no_directory dirname d w1) as [r2 Hr2'].
    { rewrite Hw1. cbn [files fault emit]. exact H. }
    rewrite Hrun2 in Hr2'. injection Hr2' as Hw2.
    rewrite Hw2 in Ht2. cbn [trace emit] in Ht2. rewrite <-!app_assoc in Ht2.
    apply app_inv_head in Ht2. cbn [app] in Ht2. discriminate.
  - exfalso.
    pose proof (renameProcess_no_listing dirname d w e Hd Hs He) as Hr1.
    rewrite Hrun1 in Hr1. injection Hr1 as Hw1.
    assert (renameProcess dirname d w1 =
            (Return tt,
             emit (Err (ErrorInRenameProcess e))
               (emit (Err (ErrorWhileReadingFiles D e))
                  (emit (Fs (readdir D) (Some e)) (emit (Fs (stat D) None) w1)))))
      as Hr2'.
    { apply renameProcess_no_listing; by rewrite Hw1. }
    rewrite Hrun2 in Hr2'. injection Hr2' as Hw2.
    rewrite Hw2 in Ht2. cbn [trace emit] in Ht2. rewrite <-!app_assoc in Ht2.
    apply app_inv_head in Ht2. cbn [app] in Ht2. discriminate.
  - fold D in Hr.
    destruct (renameProcess_listing dirname d w Hd Hs Hr)
      as (done & newl & w3 & Hloop & Ht3 & Hrun).
    fold D in Hloop, Ht3, Hrun.
    set (names := fs.entries D (files w)) in *.
    set (w0 := emit (Log StartedRenaming) _) in *.
    rewrite Hrun1 in Hrun. injection Hrun as ->. cbn [files emit] in Hf.
    assert (Forall (λ f, fs.entry_name f = true) names) as Hentries.
    { apply Forall_forall. intros f' Hf'. by apply entries_entry_name in Hf'. }
    destruct (loop_files D _ names Hentries 0 w0 done w3 Hloop) as (_ & HB & _).
    assert (f ∈ names) as Hfn.
    { destruct (HB f Hf) as [?|Hp]; [done|].
      apply planned_not_attempted in Hp; [congruence|done]. }
    destruct (loop_failed_remain D _ names Hentries (entries_NoDup D (files w))
                0 w0 done w3 newl f Hloop Ht3 Hfn Hatt Hf) as (b1 & e & Hbe).
    exists f, b1, e. split; [done|]. split; [done|].
    assert (new1 = [Fs (stat D) None; Fs (readdir D) None; Log StartedRenaming]
                     ++ newl ++ [Log RenamingCompleted]) as ->.
    { cbn [trace emit] in Ht1. rewrite Ht3 in Ht1. unfold w0 in Ht1.
      cbn [trace emit] in Ht1. rewrite <-!app_assoc in Ht1.
      by apply app_inv_head in Ht1. }
    rewrite !renames_app. cbn [renames omap list_omap app].
    apply elem_of_app. by left.
Qed.

Lemma renameProcess_retries_only_failed_witness :
  ∃ w1 w2 new2,
    renameProcess "/srv/app/dist" "files" busy_world = (Return tt, w1) ∧
    renameProcess "/srv/app/dist" "files" w1 = (Return tt, w2) ∧
    trace w2 = trace w1 ++ new2 ∧
    (renames new2).*1.*1 = ["/srv/app/files/photo.jpg"] ∧
    Forall (λ r : string * string * option error,
              ∃ f b1 e, f ∈ fs.entries "/srv/app/files" (files busy_world) ∧
                        r.1.1 = path.join ["/srv/app/files"; f] ∧
                        (r.1.1, b1, Some e) ∈ renames (trace w1))
           (renames new2).
Proof.
  set (w1 := (renameProcess "/srv/app/dist" "files" busy_world).2).
  set (w2 := (renameProcess "/srv/app/dist" "files" w1).2).
  exists w1, w2, (drop (length (trace w1)) (trace w2)).
  split; [vm_compute; reflexivity|]. split; [vm_compute; reflexivity|].
  split; [vm_compute; reflexivity|]. split; [vm_compute; reflexivity|].
  apply Forall_forall. intros [[a b] r] Hin.
  apply (renameProcess_retries_only_failed "/srv/app/dist" "files" busy_world w1 w2
           (trace w1) (drop (length (trace w1)) (trace w2))
           ltac:(vm_compute; reflexivity) ltac:(reflexivity)
           ltac:(vm_compute; reflexivity) ltac:(vm_compute; reflexivity)
           a b r Hin).
Defined.


(** X6. In a run of [renameProcess] in which no rename fails, when the new
    names are all different and none is the name of an entry, every entry
    that is not skipped is found under its new name with what it held, and
    no longer under its old name; the skipped entries hold what they
    held. *)
Theorem renameProcess_keeps_contents (dirname d : string) (w : World) :
  let D := path.join [dirname; "../"; d] in
  let names := fs.entries D (files w) in
  let plan := planned (entropy w) (drawn w) names in
  files w !! D = Some Directory → fault w (stat D) = None →
  fault w (readdir D) = None →
  NoDup plan.*2 → Forall (λ g, g ∉ names) plan.*2 →
  ∃ new w',
    renameProcess dirname d w = (Return tt, w') ∧ trace w' = trace w ++ new ∧
    (failed_renames new = [] →
     (∀ f g, (f, g) ∈ plan →
        ∃ nd, files w !! path.join [D; f] = Some nd ∧
              files w' !! path.join [D; g] = Some nd ∧
              files w' !! path.join [D; f] = None) ∧
     (∀ f, f ∈ names → attempted f = false →
        files w' !! path.join [D; f] = files w !! path.join [D; f])).
Proof.
  intros D names plan Hd Hs Hr Hnew Hfresh.
  destruct (renameProcess_listing dirname d w Hd Hs Hr)
    as (done & newl & w3 & Hloop & Ht & Hrun).
  fold D in Hloop, Ht, Hrun. fold names in Hloop.
  set (w0 := emit (Log StartedRenaming) _) in *.
  exists ([Fs (stat D) None; Fs (readdir D) None; Log StartedRenaming]
            ++ newl ++ [Log RenamingCompleted]), (emit (Log RenamingCompleted) w3).
  split; [done|]. split.
  { cbn [trace emit]. rewrite Ht. unfold w0. cbn [trace emit].
    by rewrite <-!app_assoc. }
  intros Hnofail. rewrite !failed_renames_app in Hnofail.
  cbn in Hnofail. rewrite app_nil_r in Hnofail.
  assert (Forall (λ f, fs.entry_name f = true) names) as Hentries.
  { apply Forall_forall. intros f Hf. by apply entries_entry_name in Hf. }
  cbn [files emit]. split.
  - intros f g Hfg.
    assert (failed_renames (trace w3) = failed_renames (trace w0)) as Hnofail'.
    { by rewrite Ht, failed_renames_app, Hnofail, app_nil_r. }
    destruct (loop_contents D _ names Hentries (entries_NoDup D (files w))
                0 w0 done w3 Hnew Hloop Hnofail' f g Hfg)
      as ([nd Hnd] & Hcont & Hgone).
    change (files w0) with (files w) in Hnd, Hcont.
    exists nd. by rewrite Hcont.
  - intros f Hf Hatt.
    rewrite (loop_untouched D _ names 0 w0 done w3 _ Hloop); [done|].
    intros f' g' Hin. change (planned (entropy w0) (drawn w0) names) with plan in Hin.
    pose proof Hin as Hin'. apply planned_spec in Hin' as (Hf' & Hatt' & j & _ & Hg').
    rewrite Forall_forall in Hentries.
    assert (fs.entry_name g' = true) as Hg'e.
    { rewrite Hg'. apply new_name; [apply Identifier_nth_uuid|by apply Hentries]. }
    split; intros Heq%(join_inj D); try (by apply Hentries); try done.
    + congruence.
    + rewrite Forall_forall in Hfresh. apply (Hfresh g'); [|by rewrite <-Heq].
      apply list_elem_of_fmap. by exists (f', g').
Qed.

Lemma renameProcess_keeps_contents_witness :
  ∃ w',
    renameProcess "/srv/app/dist" "files" sample_world_with_identifier = (Return tt, w') ∧
    files w' !! "/srv/app/files/00000000-0000-4000-8000-00000000004d.txt" = Some (File "text") ∧
    files w' !! "/srv/app/files/notes.txt" = None ∧
    files w' !! "/srv/app/files/A1b2C3d4-e5f6-47a8-89b0-c1d2e3f4a5b6.png" = Some (File "png").
Proof.
  destruct (renameProcess_keeps_contents "/srv/app/dist" "files"
              sample_world_with_identifier)
    as (new & w' & Hrun & Ht & Hkeep).
  - reflexivity.
  - reflexivity.
  - reflexivity.
  - refine (bool_decide_unpack _ _). vm_compute. exact I.
  - refine (bool_decide_unpack _ _). vm_compute. exact I.
  - exists w'. split; [exact Hrun|].
    assert (failed_renames new = []) as Hnone.
    { assert (w' = (renameProcess "/srv/app/dist" "files"
                      sample_world_with_identifier).2) as Hw' by (by rewrite Hrun).
      rewrite Hw' in Ht. vm_compute in Ht. rewrite <-Ht. reflexivity. }
    destruct (Hkeep Hnone) as [Hmoved Hkept].
    destruct (Hmoved "notes.txt" "00000000-0000-4000-8000-00000000004d.txt")
      as (nd & Hnd & Hnew & Hold).
    { refine (bool_decide_unpack _ _). vm_compute. exact I. }
    vm_compute in Hnd. injection Hnd as <-.
    split; [exact Hnew|]. split; [exact Hold|].
    refine (eq_trans (Hkept "A1b2C3d4-e5f6-47a8-89b0-c1d2e3f4a5b6.png" _ _) _).
    + refine (bool_decide_unpack _ _). vm_compute. exact I.
    + reflexivity.
    + reflexivity.
Defined.

(** X7. The entries that the loop skips, told from the name itself: an
    identifier alone, or an identifier followed by a dot and by a part
    without dot. The iteration for such an entry does nothing. *)
Theorem skipped_names_characterised (f : string) :
  fs.entry_name f = true →
  (attempted f = false ↔
   Identifier f ∨
   ∃ id r, Identifier id ∧ Str.no_dot r = true ∧ f = id +:+ "." +:+ r) ∧
  (∀ D total rest done w,
     attempted f = false →
     renameProcess_loop D total (f :: rest) done w =
     renameProcess_loop D total rest done w).
Proof.
  intros (_ & Hf & _)%entry_name_inv. split; [by apply attempted_false_iff|].
  intros D total rest done w Hatt. by rewrite loop_cons, Hatt.
Qed.

Lemma skipped_names_characterised_witness :
  attempted "A1b2C3d4-e5f6-47a8-89b0-c1d2e3f4a5b6.png" = false ↔
  Identifier "A1b2C3d4-e5f6-47a8-89b0-c1d2e3f4a5b6.png" ∨
  ∃ id r, Identifier id ∧ Str.no_dot r = true ∧
          "A1b2C3d4-e5f6-47a8-89b0-c1d2e3f4a5b6.png" = id +:+ "." +:+ r.
Proof.
  destruct (skipped_names_characterised "A1b2C3d4-e5f6-47a8-89b0-c1d2e3f4a5b6.png")
    as [H _]; [reflexivity|exact H].
Defined.

(** X8. For a file name with two dots or more, the base name is all that
    comes before the last dot and the extension begins at the last dot. So
    the base name is never an identifier, even when the name begins with
    one, as in [<identifier>.tar.gz]: the loop asks to rename the entry,
    and the new name keeps the last extension only. *)
Theorem inner_extensions_dropped (pre r : string) :
  fs.entry_name (pre +:+ "." +:+ r) = true →
  Str.no_dot pre = false → Str.no_dot r = true →
  let f := pre +:+ "." +:+ r in
  path.name (path.parse f) = pre ∧
  path.extname f = "." +:+ r ∧
  isUUID (path.name (path.parse f)) = false ∧
  ∀ D total others done w,
    let a := path.join [D; f] in
    let b := path.join [D; nth_uuid (entropy w) (drawn w) +:+ "." +:+ r] in
    renameProcess_loop D total (f :: others) done w =
    match fs.rename_result a b (draw w) with
    | inr (_, m) =>
        renameProcess_loop D total others (done + 1)
          (emit (Log (Processing f (done + 1) total))
             (emit (Fs (rename a b) None) (set_files m (draw w))))
    | inl e =>
        renameProcess_loop D total others done
          (emit (Err (ErrorWhileRenaming f e))
             (emit (Fs (rename a b) (Some e)) (draw w)))
    end.
Proof.
  intros Hf Hpre Hr f.
  destruct (attempted_inner_dot pre r Hf Hpre Hr) as (Hname & Hext & Hatt).
  split; [done|]. split; [done|]. split.
  { unfold attempted in Hatt. by apply negb_true_iff in Hatt. }
  intros D total others done w a b. subst a b f.
  by rewrite loop_cons, Hatt, Hext.
Qed.

Lemma inner_extensions_dropped_witness :
  path.name (path.parse "archive.tar.gz") = "archive.tar" ∧
  path.extname "archive.tar.gz" = ".gz" ∧
  isUUID (path.name (path.parse
    "a1b2c3d4-e5f6-47a8-89b0-c1d2e3f4a5b6.tar.gz")) = false.
Proof.
  destruct (inner_extensions_dropped "archive.tar" "gz") as (H1 & H2 & _);
    [reflexivity|reflexivity|reflexivity|].
  destruct (inner_extensions_dropped "a1b2c3d4-e5f6-47a8-89b0-c1d2e3f4a5b6.tar" "gz")
    as (_ & _ & H3 & _); [reflexivity|reflexivity|reflexivity|].
  split; [exact H1|]. split; [exact H2|exact H3].
Defined.

(** X9. For a file name, the base name that [path.parse] gives followed by
    the extension that [path.extname] gives is the name again; the
    extension is empty, or a dot followed by characters that are neither
    dots nor separators. *)
Theorem base_name_and_extension_make_up_name (f : string) :
  Str.no_slash f = true →
  path.name (path.parse f) +:+ path.extname f = f ∧
  (path.extname f = "" ∨
   ∃ r, path.extname f = "." +:+ r ∧ Str.no_slash r = true ∧ Str.no_dot r = true).
Proof. intros Hf. split; [by apply name_extname|by apply extname_form]. Qed.

Lemma base_name_and_extension_make_up_name_witness :
  path.name (path.parse "index.coffee.md") +:+ path.extname "index.coffee.md"
  = "index.coffee.md".
Proof.
  destruct (base_name_and_extension_make_up_name "index.coffee.md") as [H _];
    [reflexivity|exact H].
Defined.

(** X10. When [stat] fails on the path, with whatever error and also when
    the directory is there, both [renameProcess] and [createEmptyFiles]
    report that the directory does not exist and return: the error of
    [stat] is written nowhere, and nothing else is called. *)
Theorem stat_failure_reported_as_missing_directory
    (dirname d : string) (n : Z) (ext : string) (e : error) (w : World) :
  let D := path.join [dirname; "../"; d] in
  fault w (stat D) = Some e →
  renameProcess dirname d w =
    (Return tt, emit (Err (DirectoryDoesNotExist D)) (emit (Fs (stat D) (Some e)) w)) ∧
  createEmptyFiles D n ext w =
    (Return tt, emit (Err (DirectoryDoesNotExist D)) (emit (Fs (stat D) (Some e)) w)).
Proof.
  intros D He.
  assert (directoryExists D w = (Return false, emit (Fs (stat D) (Some e)) w)) as Hex.
  { rewrite directoryExists_run. unfold fs.stat_result. by rewrite He. }
  split.
  - unfold renameProcess. fold D. unfold_M. by rewrite Hex.
  - unfold createEmptyFiles. unfold_M. by rewrite Hex.
Qed.

Lemma stat_failure_reported_as_missing_directory_witness :
  files unstatable_world !! "/srv/app/files" = Some Directory ∧
  renameProcess "/srv/app/dist" "files" unstatable_world =
    (Return tt, emit (Err (DirectoryDoesNotExist "/srv/app/files"))
                  (emit (Fs (stat "/srv/app/files") (Some eio)) unstatable_world)) ∧
  createEmptyFiles "/srv/app/files" 3 ".txt" unstatable_world =
    (Return tt, emit (Err (DirectoryDoesNotExist "/srv/app/files"))
                  (emit (Fs (stat "/srv/app/files") (Some eio)) unstatable_world)).
Proof.
  split; [reflexivity|].
  apply (stat_failure_reported_as_missing_directory "/srv/app/dist" "files" 3 ".txt"
           eio unstatable_world).
  reflexivity.
Defined.



(** X12. In any world [createEmptyFiles] returns normally. It calls [stat]
    first, on the path as it is given; every other call is a write of a
    single space to a numbered file joined onto the path, for a number
    from 0 to [n - 1], so there are at most [n] writes, and none when [n]
    is not positive; and every path holds what it held before, or a single
    space if it is one of these. *)
Theorem createEmptyFiles_never_throws
    (D : string) (n : Z) (ext : string) (w : World) :
  ∃ r new w',
    createEmptyFiles D n ext w = (Return tt, w') ∧
    trace w' = trace w ++ Fs (stat D) r :: new ∧
    (∀ c r', Fs c r' ∈ new →
       ∃ i, 0 ≤ i < n ∧ c = writeFile (path.join [D; pretty i +:+ ext]) " ") ∧
    (length (writes new) ≤ Z.to_nat n)%nat ∧
    (∀ q, files w' !! q = files w !! q ∨
          files w' !! q = Some (File " ") ∧
          ∃ i, 0 ≤ i < n ∧ q = path.join [D; pretty i +:+ ext]).
Proof.
  destruct (decide (files w !! D = Some Directory ∧ fault w (stat D) = None))
    as [[Hd Hs]|Hno].
  - destruct (createEmptyFiles_loop_any D ext (seqZ 0 n) (emit (Fs (stat D) None) w))
      as (r & new & w1 & Hloop & Ht & Hev & Hlen & _ & Hfiles).
    cbn [trace files emit] in Ht, Hfiles. rewrite length_seqZ in Hlen.
    assert (∀ c r', Fs c r' ∈ new →
              ∃ i, 0 ≤ i < n ∧ c = writeFile (path.join [D; pretty i +:+ ext]) " ")
      as Hcalls.
    { intros c r' Hin. rewrite Forall_forall in Hev. apply Hev in Hin.
      destruct c; try done. destruct Hin as [-> (i & Hi%elem_of_seqZ & ->)].
      exists i. split; [lia|done]. }
    assert (∀ q, files w1 !! q = files w !! q ∨
                 files w1 !! q = Some (File " ") ∧
                 ∃ i, 0 ≤ i < n ∧ q = path.join [D; pretty i +:+ ext]) as Hfiles'.
    { intros q. destruct (Hfiles q) as [?|[? (i & Hi%elem_of_seqZ & ->)]]; [by left|].
      right. split; [done|]. exists i. split; [lia|done]. }
    destruct r as [[]|e].
    + exists None, (new ++ [Log (CreationCompleted n)]),
        (emit (Log (CreationCompleted n)) w1).
      split.
      { unfold createEmptyFiles. unfold_M. rewrite directoryExists_true by done.
        cbn [negb]. by rewrite Hloop. }
      cbn [trace files emit]. split; [by rewrite Ht, <-!app_assoc|]. split.
      { intros c r' [Hin|Hin]%elem_of_app; [by apply (Hcalls c r')|].
        by apply list_elem_of_singleton in Hin. }
      split; [|done]. rewrite writes_app. cbn. by rewrite app_nil_r.
    + exists None, (new ++ [Err (ErrorInCreateEmptyFiles e)]),
        (emit (Err (ErrorInCreateEmptyFiles e)) w1).
      split.
      { unfold createEmptyFiles. unfold_M. rewrite directoryExists_true by done.
        cbn [negb]. by rewrite Hloop. }
      cbn [trace files emit]. split; [by rewrite Ht, <-!app_assoc|]. split.
      { intros c r' [Hin|Hin]%elem_of_app; [by apply (Hcalls c r')|].
        by apply list_elem_of_singleton in Hin. }
      split; [|done]. rewrite writes_app. cbn. by rewrite app_nil_r.
  - destruct (createEmptyFiles_no_directory D n ext w) as [r Hr].
    { apply not_and_l in Hno as [?|Hf]; [by left|right].
      by destruct (fault w (stat D)). }
    eexists r, [Err (DirectoryDoesNotExist D)], _. split; [exact Hr|].
    cbn [trace files emit]. split; [by rewrite <-app_assoc|]. split.
    { intros c r' Hin. by apply list_elem_of_singleton in Hin. }
    split; [cbn; lia|]. intros q. by left.
Qed.



(** X14. [createEmptyFiles] followed by [renameProcess]. In an empty
    directory and with no failure injected, the [n] files made with an
    extension [.e] are all renamed: the listing has [n] entries, none is
    skipped, no rename fails, the counter [done] is [n] when the loop ends,
    and every entry of the directory is then an identifier followed by
    [.e] and holds a single space. *)
Theorem createEmptyFiles_then_renameProcess
    (dirname d e : string) (n : Z) (w : World) :
  let D := path.join [dirname; "../"; d] in
  let ext := "." +:+ e in
  files w !! D = Some Directory → fs.entries D (files w) = [] →
  (∀ c, fault w c = None) → 0 ≤ n →
  Str.no_slash e = true → Str.no_dot e = true →
  ∃ w1 w3,
    let names := fs.entries D (files w1) in
    let w0 := emit (Log StartedRenaming)
                (emit (Fs (readdir D) None) (emit (Fs (stat D) None) w1)) in
    createEmptyFiles D n ext w = (Return tt, w1) ∧
    Z.of_nat (length names) = n ∧
    renameProcess_loop D n names 0 w0 = (Return n, w3) ∧
    renameProcess dirname d w1 = (Return tt, emit (Log RenamingCompleted) w3) ∧
    failed_renames (trace w3) = failed_renames (trace w) ∧
    (∀ name, name ∈ fs.entries D (files w3) →
       (∃ id, Identifier id ∧ name = id +:+ ext) ∧
       files w3 !! path.join [D; name] = Some (File " ")).
Proof.
  intros D ext Hd Hempty Hfault Hn Hes Hed.
  assert (Str.no_slash ext = true) as Hext.
  { unfold ext. apply no_slash_append. by split. }
  set (numbered := λ i : Z, pretty i +:+ ext).
  (* the files are made *)
  destruct (createEmptyFiles_loop_run D ext (seqZ 0 n) (emit (Fs (stat D) None) w))
    as (w1' & Hloop1 & Ht1 & Hf1 & Hfiles1).
  { intros i Hi%elem_of_seqZ. cbn [fault files emit]. split; [apply Hfault|].
    rewrite (entries_nil D (files w)); [done|done|].
    apply numbered_entry_name; [lia|done]. }
  cbn [trace fault files emit] in Ht1, Hf1, Hfiles1.
  set (w1 := emit (Log (CreationCompleted n)) w1').
  assert (createEmptyFiles D n ext w = (Return tt, w1)) as Hcreate.
  { unfold createEmptyFiles. unfold_M. rewrite directoryExists_true by done.
    cbn [negb]. by rewrite Hloop1. }
  assert (∀ i, 0 ≤ i < n → files w1 !! path.join [D; numbered i] = Some (File " "))
    as Hmade.
  { intros i Hi. unfold w1. cbn [files emit]. rewrite Hfiles1.
    rewrite bool_decide_eq_true_2; [done|].
    apply list_elem_of_fmap. exists i. split; [done|]. apply elem_of_seqZ. lia. }
  assert (∀ q nd, files w1 !! q = Some nd →
            (nd = File " " ∧ ∃ i, 0 ≤ i < n ∧ q = path.join [D; numbered i]) ∨
            files w !! q = Some nd) as Hnodes.
  { intros q nd. unfold w1. cbn [files emit]. rewrite Hfiles1.
    case_bool_decide as Hin; [|by right]. intros [= <-]. left. split; [done|].
    apply list_elem_of_fmap in Hin as (i & -> & Hi%elem_of_seqZ).
    exists i. split; [lia|done]. }
  assert (files w1 !! D = Some Directory) as Hd1.
  { unfold w1. cbn [files emit]. rewrite Hfiles1.
    case_bool_decide as Hin; [|done]. exfalso.
    apply list_elem_of_fmap in Hin as (i & HD & Hi%elem_of_seqZ).
    rewrite HD, (entries_nil D (files w)) in Hd; [done|done|].
    apply numbered_entry_name; [lia|done]. }
  (* the entries are the numbered files *)
  assert (∀ name, name ∈ fs.entries D (files w1) ↔
                  ∃ i, 0 ≤ i < n ∧ name = numbered i) as Hnames.
  { intros name. rewrite entries_spec. split.
    - intros [Hname [nd Hnd]].
      destruct (Hnodes _ _ Hnd) as [[_ (i & Hi & Heq)]|Hw].
      + exists i. split; [done|]. apply (join_inj D); [done| |done].
        apply numbered_entry_name; [lia|done].
      + by rewrite (entries_nil D (files w)) in Hw.
    - intros (i & Hi & ->). split; [apply numbered_entry_name; [lia|done]|].
      by rewrite Hmade. }
  assert (length (fs.entries D (files w1)) = Z.to_nat n) as Hlen.
  { rewrite <-(length_seqZ 0 n), <-(length_fmap numbered (seqZ 0 n)).
    apply Permutation_length, NoDup_Permutation.
    - apply entries_NoDup.
    - apply NoDup_fmap_2_strong; [|apply NoDup_seqZ].
      intros i j _ _. apply numbered_inj.
    - intros name. rewrite Hnames, list_elem_of_fmap. split.
      + intros (i & Hi & ->). exists i. split; [done|]. apply elem_of_seqZ. lia.
      + intros (i & -> & Hi%elem_of_seqZ). exists i. split; [lia|done]. }
  (* the run of [renameProcess] *)
  destruct (renameProcess_listing dirname d w1 Hd1)
    as (done & new & w3 & Hloop & Ht & Hrun).
  { unfold w1. cbn [fault emit]. rewrite Hf1. apply Hfault. }
  { unfold w1. cbn [fault emit]. rewrite Hf1. apply Hfault. }
  fold D in Hloop, Ht, Hrun.
  set (names := fs.entries D (files w1)) in *.
  set (w0 := emit (Log StartedRenaming) _) in *.
  assert (Forall (λ f, fs.entry_name f = true) names) as Hentries.
  { apply Forall_forall. intros f Hf. by apply entries_entry_name in Hf. }
  assert (Forall (λ f, attempted f = true) names) as Hatt.
  { apply Forall_forall. intros f (i & Hi & ->)%Hnames.
    apply numbered_attempted; [lia|done|done]. }
  assert (failed_renames new = []) as Hnofail.
  { apply (loop_succeeds D (Z.of_nat (length names)) names
             (entries_NoDup D (files w1)) Hentries Hatt 0 w0 done w3 new);
      [|intros f (i & Hi & ->)%Hnames; exists " "; by apply Hmade| |done|done].
    - intros a b. unfold w0, w1. cbn [fault emit]. rewrite Hf1. apply Hfault.
    - intros name Hname Hdir. change (files w0) with (files w1) in Hdir.
      destruct (Hnodes _ _ Hdir) as [[? _]|Hw]; [done|].
      by rewrite (entries_nil D (files w)) in Hw. }
  destruct (loop_run_of _ _ _ _ _ _ _ _ Hloop Ht) as (_ & _ & Hr1 & Hdone & _).
  destruct (no_failed_renames new Hnofail) as [_ Hsucc].
  assert (done = n) as ->.
  { rewrite Hdone, Hsucc.
    rewrite <-(length_fmap fst (renames new)), Hr1, length_fmap.
    rewrite <-(length_fmap fst (planned _ _ _)), planned_all_attempted by done.
    lia. }
  exists w1, w3. cbn zeta. fold names. fold w0.
  split; [done|]. split; [lia|]. split; [by rewrite <-Hloop, Hlen, Z2Nat.id|].
  split; [done|]. split.
  { rewrite Ht, failed_renames_app, Hnofail, app_nil_r.
    unfold w0, w1. cbn [trace emit]. rewrite Ht1.
    rewrite !failed_renames_app. cbn.
    assert (failed_renames
              (List.flat_map
                 (λ i, [Fs (writeFile (path.join [D; pretty i +:+ ext]) " ") None;
                        Log (CreatedEmptyFile (pretty i +:+ ext))]) (seqZ 0 n)) = [])
      as ->; [|by rewrite !app_nil_r].
    clear. induction (seqZ 0 n) as [|i l IH]; [done|]. by cbn. }
  intros name Hname.
  pose proof Hname as Hname'.
  rewrite (loop_entries_after D _ 0 n w0 w3 Hloop) in Hname'
    by (rewrite Ht; by apply failed_renames_prefix).
  change (fs.entries D (files w0)) with names in Hname'.
  destruct Hname' as [[Hin Hno]|Hplan].
  { rewrite Forall_forall in Hatt. specialize (Hatt name Hin). congruence. }
  apply list_elem_of_fmap in Hplan as ([f g] & -> & Hfg). cbn [snd].
  apply planned_spec in Hfg as (Hf & _ & j & _ & ->).
  apply Hnames in Hf as (i & Hi & ->).
  destruct (numbered_attempted i e) as [_ Hex]; [lia|done|done|].
  unfold numbered, ext in *. rewrite Hex in *. split.
  { eexists. split; [apply Identifier_nth_uuid|done]. }
  apply entries_spec in Hname as [Hentry [nd Hnd]].
  destruct (loop_frame D _ names Hentries 0 w0 n w3 Hloop) as (_ & HB & _).
  destruct (HB _ nd (ex_intro _ _ (conj Hentry eq_refl)) Hnd)
    as (q & (n' & Hn' & ->) & Hq).
  change (files w0) with (files w1) in Hq.
  destruct (Hnodes _ _ Hq) as [[-> _]|Hw]; [done|].
  by rewrite (entries_nil D (files w)) in Hw.
Qed.

Lemma createEmptyFiles_then_renameProcess_witness :
  ∃ w1 w3,
    createEmptyFiles "/srv/app/files" 3 ".txt" empty_world = (Return tt, w1) ∧
    Z.of_nat (length (fs.entries "/srv/app/files" (files w1))) = 3 ∧
    renameProcess "/srv/app/dist" "files" w1 =
      (Return tt, emit (Log RenamingCompleted) w3) ∧
    failed_renames (trace w3) = [].
Proof.
  destruct (createEmptyFiles_then_renameProcess "/srv/app/dist" "files" "txt" 3
              empty_world) as (w1 & w3 & Hcreate & Hlen & _ & Hrun & Hnofail & _).
  - reflexivity.
  - reflexivity.
  - reflexivity.
  - lia.
  - reflexivity.
  - reflexivity.
  - exists w1, w3. split; [exact Hcreate|]. split; [exact Hlen|].
    split; [exact Hrun|exact Hnofail].
Defined.
